(** * SPADE risk agent: scoring pipeline and data-acquisition fallback chains

    A shallow embedding of the Python sources
      core/aggregation.py, core/scoring_engine.py, core/recommendations.py,
      core/validation.py, tools/property_info_tool.py,
      tools/fallback/simulated_crime.py, tools/fallback/simulated_geo.py,
      tools/crime_data_tool.py, tools/geolocation_tool.py and api/router.py,
    followed by the properties proved about them.

    Conventions of the embedding.
    - Python [int] is [Z].  Python [float] arithmetic on scores is read over
      the rationals [Q]: a decimal literal denotes its decimal value and the
      operations are exact.  [round] is Python 3 rounding (ties to even).
      The crime risk of the scorer is the exception: there the rounding of
      the floats decides the integer returned, and it is computed with the
      binary64 operations of [B64].
    - A coordinate is a [pyfloat]: a finite rational, an infinity or NaN,
      because the resolvers take coordinates from decoded payloads and the
      code behaves differently on the non-finite ones ([int] raises).
    - [str] is [string]: a character stands for the code point of its
      number, so the text covered is that of code points below 256, with
      Python's classes of blanks and capitals on them.
    - A [Dict[str, int]] is a [gmap string Z]; the heterogeneous result
      dictionaries are records whose fields are the keys, a field being
      [None] when the key is absent.  The formatted address of a
      geolocation is a [pyobj]: Google and Photon pass on the value of
      their payload, which need not be text.
    - Code that talks to the network, the clock or the random generator runs
      in a state-and-exception monad over an explicit [World]; the state
      holds the trace of the requests issued.  Logging is left out.
    - The ["summaries"] entry of the scoring result is display text and is
      left out of the result; the summaries of the crime and of the
      neighborhood dimension are embedded as functions of their own. *)

From Stdlib Require Import ZArith QArith Qround Qabs Qpower Lqa.
From Stdlib Require Import String Ascii List Lia Bool.
From stdpp Require Import gmap strings pretty.

Local Open Scope Z_scope.
Local Open Scope string_scope.

(** ** Python primitives *)

Module Py.

(** [round(x)]: nearest integer, ties go to the even neighbour. *)
Definition round (x : Q) : Z :=
  let f := Qfloor x in
  match ((x - inject_Z f) ?= 1 # 2)%Q with
  | Lt => f
  | Gt => f + 1
  | Eq => if Z.even f then f else f + 1
  end.

(** [round(x, 2)]: nearest multiple of 1/100, ties to even. *)
Definition round2 (x : Q) : Q := Qmake (round (x * 100)) 100.

(** [int(x)] on a float: truncation towards zero. *)
Definition int (x : Q) : Z :=
  if Qle_bool 0 x then Qfloor x else Qceiling x.

(** [min(a, b)] and [max(a, b)]: the first argument wins a tie. *)
Definition min (a b : Q) : Q := if Qle_bool a b then a else b.
Definition max (a b : Q) : Q := if Qle_bool b a then a else b.

(** [a < b] and [a <= b] on floats. *)
Definition ltb (a b : Q) : bool := negb (Qle_bool b a).
Definition leb (a b : Q) : bool := Qle_bool a b.

(** [abs(x)] *)
Definition abs (x : Q) : Q := Qabs x.

(** [x % 1] for a float [x]: the fractional part, in [0, 1). *)
Definition mod1 (x : Q) : Q := (x - inject_Z (Qfloor x))%Q.

(** [c.lower()] on one character: the capital letters A-Z and, above
    ASCII, the capitals U+00C0 to U+00DE other than the sign U+00D7. *)
Definition lower_char (c : ascii) : ascii :=
  let n := nat_of_ascii c in
  if (((65 <=? n) && (n <=? 90))
      || ((192 <=? n) && (n <=? 222) && negb (n =? 215)))%nat
  then ascii_of_nat (n + 32) else c.

(** [s.lower()] *)
Fixpoint lower (s : string) : string :=
  match s with
  | EmptyString => EmptyString
  | String c s' => String (lower_char c) (lower s')
  end.

(** [sub in s]: substring test. *)
Fixpoint contains (sub s : string) : bool :=
  String.prefix sub s ||
  match s with
  | EmptyString => false
  | String _ s' => contains sub s'
  end.

(** [c.isspace()], which is also what [strip] removes: tab, LF, VT, FF, CR,
    the four separators FS GS RS US, the blank, the next-line control U+0085
    and the no-break space U+00A0. *)
Definition isspace (c : ascii) : bool :=
  let n := nat_of_ascii c in
  (((9 <=? n) && (n <=? 13)) || ((28 <=? n) && (n <=? 32))
   || (n =? 133) || (n =? 160))%nat.

Fixpoint lstrip (s : string) : string :=
  match s with
  | EmptyString => EmptyString
  | String c s' => if isspace c then lstrip s' else s
  end.

Fixpoint rstrip (s : string) : string :=
  match s with
  | EmptyString => EmptyString
  | String c s' =>
      match rstrip s' with
      | EmptyString => if isspace c then EmptyString else String c EmptyString
      | r => String c r
      end
  end.

(** [s.strip()] *)
Definition strip (s : string) : string := rstrip (lstrip s).

(** Truth value of a [str]: non-empty. *)
Definition truthy (s : string) : bool :=
  match s with EmptyString => false | _ => true end.

(** Truth value of an [Optional[str]]. *)
Definition truthy_opt (o : option string) : bool :=
  match o with Some s => truthy s | None => false end.

(** [s.startswith(p)] *)
Definition startswith (s p : string) : bool := String.prefix p s.

End Py.

(** ** Binary64 floats *)

(** The scorer computes its crime risk with [float] operations whose
    rounding decides the integer it returns.  A finite float is read as the
    rational it denotes, and an operation rounds the exact result to the
    nearest value with a significand of 53 bits, a tie going to the even
    significand.  The exponent is not bounded: overflow and subnormal
    numbers are outside the model. *)
Module B64.

(** [2 ** k] *)
Definition pow2 (k : Z) : Q := (2 ^ k)%Q.

(** The exponent [e] of a positive rational: [pow2 e <= q < pow2 (e + 1)]. *)
Definition exponent (q : Q) : Z :=
  let k := Z.log2 (Qnum q) - Z.log2 (Zpos (Qden q)) in
  if Qle_bool (pow2 k) q then k else k - 1.

(** Rounding of a positive rational: to a multiple of the unit in the last
    place of its binade. *)
Definition round_pos (q : Q) : Q :=
  let ulp := pow2 (exponent q - 52) in
  (inject_Z (Py.round (q / ulp)) * ulp)%Q.

(** Rounding to the nearest float, ties to even. *)
Definition fl (q : Q) : Q :=
  match Qnum q with
  | Z0 => 0%Q
  | Zpos _ => round_pos q
  | Zneg _ => (- round_pos (- q))%Q
  end.

(** [float(n)] of an int. *)
Definition of_int (n : Z) : Q := fl (inject_Z n).

(** A float literal, given by its decimal value. *)
Definition literal (q : Q) : Q := fl q.

(** [a * b] and [a + b] on floats. *)
Definition mul (a b : Q) : Q := fl (a * b).
Definition add (a b : Q) : Q := fl (a + b).

End B64.

(** Exceptions the embedded code can meet. *)
Inductive exn : Type :=
| ValueError
| OverflowError
| RequestsTimeout        (* requests.exceptions.Timeout *)
| GeocoderTimedOut
| GeocoderServiceError
| OtherException (name : string).

Inductive result (A : Type) : Type :=
| Ok (a : A)
| Raise (e : exn).
Arguments Ok {A} a.
Arguments Raise {A} e.

(** A float as the resolvers can receive it. *)
Inductive pyfloat : Type :=
| Fin (q : Q)
| Inf (negative : bool)
| NaN.

(** Float operations on [pyfloat], as far as the sources use them. *)
Module F.

(** Truth value of a float: zero is false, NaN and infinities are true. *)
Definition truthy (x : pyfloat) : bool :=
  match x with
  | Fin q => negb (Qeq_bool q 0)
  | _ => true
  end.

(** Truth value of an [Optional[float]]. *)
Definition truthy_opt (o : option pyfloat) : bool :=
  match o with Some x => truthy x | None => false end.

Definition neg (x : pyfloat) : pyfloat :=
  match x with
  | Fin q => Fin (- q)
  | Inf s => Inf (negb s)
  | NaN => NaN
  end.

Definition add (x y : pyfloat) : pyfloat :=
  match x, y with
  | Fin a, Fin b => Fin (a + b)
  | Fin _, Inf s => Inf s
  | Inf s, Fin _ => Inf s
  | Inf s, Inf t => if Bool.eqb s t then Inf s else NaN
  | _, _ => NaN
  end.

Definition sub (x y : pyfloat) : pyfloat := add x (neg y).

Definition mul (x y : pyfloat) : pyfloat :=
  match x, y with
  | Fin a, Fin b => Fin (a * b)
  | Fin a, Inf s =>
      if Qeq_bool a 0 then NaN else Inf (xorb s (Py.ltb a 0))
  | Inf s, Fin b =>
      if Qeq_bool b 0 then NaN else Inf (xorb s (Py.ltb b 0))
  | Inf s, Inf t => Inf (xorb s t)
  | _, _ => NaN
  end.

(** [x / c] for a constant [c] other than zero. *)
Definition div_by (x : pyfloat) (c : Q) : pyfloat :=
  match x with
  | Fin a => Fin (a / c)
  | Inf s => Inf (xorb s (Py.ltb c 0))
  | NaN => NaN
  end.

(** [abs(x)] *)
Definition abs (x : pyfloat) : pyfloat :=
  match x with
  | Fin q => Fin (Py.abs q)
  | Inf _ => Inf false
  | NaN => NaN
  end.

(** [x % 1] *)
Definition mod1 (x : pyfloat) : pyfloat :=
  match x with
  | Fin q => Fin (Py.mod1 q)
  | _ => NaN
  end.

(** [x <= y]; every comparison with NaN is false. *)
Definition leb (x y : pyfloat) : bool :=
  match x, y with
  | Fin a, Fin b => Py.leb a b
  | Fin _, Inf s => negb s
  | Inf s, Fin _ => s
  | Inf s, Inf t => s || negb t
  | _, _ => false
  end.

(** [x < y] *)
Definition ltb (x y : pyfloat) : bool :=
  match x, y with
  | Fin a, Fin b => Py.ltb a b
  | Fin _, Inf s => negb s
  | Inf s, Fin _ => s
  | Inf s, Inf t => s && negb t
  | _, _ => false
  end.

(** [int(x)]: [ValueError] on NaN, [OverflowError] on an infinity. *)
Definition int (x : pyfloat) : result Z :=
  match x with
  | Fin q => Ok (Py.int q)
  | Inf _ => Raise OverflowError
  | NaN => Raise ValueError
  end.

End F.

Coercion Fin : Q >-> pyfloat.
Bind Scope Q_scope with pyfloat.

(** A Python value as the decoding of a JSON payload gives it.  The sources
    expect text in some places where a payload may hold anything. *)
#[local] Unset Elimination Schemes.
Inductive pyobj : Type :=
| PyNone
| PyBool (b : bool)
| PyInt (n : Z)
| PyFloat (x : pyfloat)
| PyStr (s : string)
| PyList (l : list pyobj)
| PyDict (d : list (string * pyobj)).
#[local] Set Elimination Schemes.

Coercion PyStr : string >-> pyobj.

(** [v += t] for a [str] [t]: concatenation on text, extension by the
    characters of [t] on a list, [TypeError] on anything else. *)
Definition iadd_str (v : pyobj) (t : string) : result pyobj :=
  match v with
  | PyStr s => Ok (PyStr (s ++ t))
  | PyList l =>
      Ok (PyList (l ++ map (fun c => PyStr (String c ""))
                         (list_ascii_of_string t))%list)
  | _ => Raise (OtherException "TypeError")
  end.

(** [v.lower()]: only text has the method. *)
Definition str_lower (v : pyobj) : result string :=
  match v with
  | PyStr s => Ok (Py.lower s)
  | _ => Raise (OtherException "AttributeError")
  end.

(** ** Result dictionaries *)

(** The crime dictionary: keys of the provider results, of
    [_get_crime_from_coordinates] and of [simulate_crime]. *)
Module Crime.
Record t : Type := mk {
  violent_crime_index : option Z;
  property_crime_index : option Z;
  recent_incidents : option Z;
  source : option string;
  total_incidents_analyzed : option Z;
  data_period_days : option Z
}.

(** [d["source"] = s] *)
Definition set_source (s : string) (d : t) : t :=
  mk (violent_crime_index d) (property_crime_index d) (recent_incidents d)
     (Some s) (total_incidents_analyzed d) (data_period_days d).
End Crime.

(** The geolocation dictionary. *)
Module Geo.
Record t : Type := mk {
  latitude : option pyfloat;
  longitude : option pyfloat;
  neighborhood_type : option string;
  population_density : option Z;
  nearby_risks : option (list string);
  source : option string;
  formatted_address : option pyobj
}.

Definition set_source (s : string) (d : t) : t :=
  mk (latitude d) (longitude d) (neighborhood_type d) (population_density d)
     (nearby_risks d) (Some s) (formatted_address d).

Definition set_formatted_address (a : string) (d : t) : t :=
  mk (latitude d) (longitude d) (neighborhood_type d) (population_density d)
     (nearby_risks d) (source d) (Some (PyStr a)).
End Geo.

(** The property dictionary of [get_property_info]. *)
Module PropertyInfo.
Record t : Type := mk { base_exposure : option Z }.
End PropertyInfo.

(** ** core/aggregation.py *)

(** [compute_overall_score(dim, crime_data, geo_data)]: the pair
    (overall score, confidence). *)
Definition compute_overall_score
    (dim : gmap string Z) (crime_data : Crime.t) (geo_data : Geo.t) : Q * Q :=
  let score :=
    (inject_Z (default 0%Z (dim !! "crime_risk")) * 0.35 +
     inject_Z (default 0%Z (dim !! "property_exposure_risk")) * 0.25 +
     inject_Z (default 0%Z (dim !! "accessibility_risk")) * 0.15 +
     inject_Z (default 0%Z (dim !! "neighborhood_risk")) * 0.15 +
     inject_Z (default 0%Z (dim !! "operational_risk")) * 0.10)%Q in
  let score := Py.round2 score in
  let score := Py.max 0.0 (Py.min 100.0 score) in
  let crime_source := default "simulated" (Crime.source crime_data) in
  let geo_source := default "simulated" (Geo.source geo_data) in
  let confidence :=
    if negb (crime_source =? "simulated")%string
       && negb (geo_source =? "simulated")%string
    then 1.0%Q
    else if (crime_source =? "simulated")%string
            && negb (geo_source =? "simulated")%string
    then 0.7%Q
    else 0.5%Q in
  (score, confidence).

(** ** core/recommendations.py *)

Definition generate_recommendations (score : Q) : list string :=
  if Py.ltb 75 score then
    [ "Install advanced CCTV with remote monitoring";
      "Deploy regular security patrols";
      "Add smart perimeter lighting";
      "Upgrade fences and gates";
      "Enable controlled access systems" ]
  else if Py.ltb 60 score then
    [ "Install 1080p CCTV cameras";
      "Enable motion-activated lighting";
      "Improve fencing and gate systems" ]
  else if Py.ltb 40 score then
    [ "Install basic CCTV";
      "Improve door/window locks";
      "Trim shrubs to increase visibility" ]
  else
    [ "Basic home security recommended" ].

(** ** tools/property_info_tool.py *)

Definition get_property_info (property_type : string) : PropertyInfo.t :=
  let mapping : gmap string Z :=
    <["home" := 25]> (<["rental" := 35]> (<["vacation home" := 45]>
      (<["business" := 50]> ∅))) in
  PropertyInfo.mk (Some (default 30 (mapping !! Py.lower property_type))).

(** ** core/scoring_engine.py *)

(** [compute_risk_dimensions]: the five integer scores of the returned
    dictionary.  The crime risk is computed in floats ([B64]).  The sixth
    entry of the dictionary, ["summaries"], holds display text only and is
    not part of this result; two of its texts are embedded further down as
    [crime_risk_summary] and [neighborhood_risk_summary]. *)
Definition compute_risk_dimensions
    (crime : Crime.t) (geo : Geo.t) (prop : PropertyInfo.t)
    (property_type : string)
    (fenced gated : bool) (hours notes : option string) : gmap string Z :=
  let property_type_lower := Py.lower property_type in
  (* crime risk *)
  let violent := default 0 (Crime.violent_crime_index crime) in
  let prop_crime := default 0 (Crime.property_crime_index crime) in
  let recent := default 0 (Crime.recent_incidents crime) in
  let crime_risk :=
    Py.min (B64.add
              (B64.add (B64.mul (B64.of_int violent) (B64.literal 0.6))
                       (B64.mul (B64.of_int prop_crime) (B64.literal 0.3)))
              (B64.of_int (recent * 3))) 100 in
  (* property exposure risk *)
  let exposure := default 30 (PropertyInfo.base_exposure prop) in
  let exposure := exposure + (if negb fenced then 10 else -5) in
  let exposure := exposure + (if negb gated then 10 else -5) in
  let exposure :=
    if (property_type_lower =? "vacation home")%string then exposure + 15
    else if (property_type_lower =? "home")%string then exposure - 5
    else exposure in
  let property_exposure_risk := Z.min (Z.max exposure 0) 100 in
  (* accessibility risk *)
  let neighborhood_type := default "suburban" (Geo.neighborhood_type geo) in
  let accessibility_risk :=
    if (neighborhood_type =? "urban")%string then 60 else 40 in
  let accessibility_risk :=
    accessibility_risk + (if negb fenced then 10 else -5) in
  let accessibility_risk :=
    if (property_type_lower =? "vacation home")%string
    then accessibility_risk + 12
    else if (property_type_lower =? "home")%string then accessibility_risk - 3
    else accessibility_risk in
  let accessibility_risk := Z.min (Z.max accessibility_risk 0) 100 in
  (* neighborhood risk *)
  let population_density := default 3000 (Geo.population_density geo) in
  let nearby_risks := default [] (Geo.nearby_risks geo) in
  let neighborhood_risk := (inject_Z population_density / 100.0)%Q in
  let risks_lower : gset string := list_to_set (Py.lower <$> nearby_risks) in
  let neighborhood_risk :=
    if bool_decide ("nightclub" ∈ risks_lower)
    then (neighborhood_risk + 20)%Q else neighborhood_risk in
  let neighborhood_risk :=
    if bool_decide ("warehouse" ∈ risks_lower)
    then (neighborhood_risk + 15)%Q else neighborhood_risk in
  let neighborhood_risk :=
    if bool_decide ("school" ∈ risks_lower)
    then (neighborhood_risk + 5)%Q else neighborhood_risk in
  let neighborhood_risk := Py.min (Py.max neighborhood_risk 0) 100 in
  (* operational risk *)
  let operational := 20.0%Q in
  let operational :=
    if (property_type_lower =? "vacation home")%string
    then (operational + 25 + 10)%Q
    else if (property_type_lower =? "home")%string then (operational - 5)%Q
    else operational in
  let operational :=
    if Py.truthy_opt hours && Py.contains "24" (default "" hours)
    then (operational + 30)%Q else operational in
  let operational :=
    if Py.truthy_opt notes && Py.contains "theft" (Py.lower (default "" notes))
    then (operational + 20)%Q else operational in
  let operational_risk := Py.min (Py.max operational 0) 100 in
  <["crime_risk" := Py.round crime_risk]>
  (<["property_exposure_risk" := property_exposure_risk]>
  (<["accessibility_risk" := accessibility_risk]>
  (<["neighborhood_risk" := Py.round neighborhood_risk]>
  (<["operational_risk" := Py.round operational_risk]> ∅)))).


(** ** The outside world and the effect monad *)

(** A response of [requests.get]: its status code and what [response.json()]
    gives; [None] when decoding the body to the shape the caller reads
    raises. *)
Record response (A : Type) : Type := Response {
  status_code : Z;
  json : option A
}.
Arguments Response {A} status_code json.
Arguments status_code {A} r.
Arguments json {A} r.

(** A [geopy] location. *)
Record location : Type := Location {
  loc_latitude : pyfloat;
  loc_longitude : pyfloat;
  loc_address : string
}.

(** One result of the Google geocoding payload: [geometry.location] as the
    two floats [float(location["lat"])], [float(location["lng"])] ([None]
    when reading them raises) and the value under [formatted_address]
    ([None] when the key is absent). *)
Record google_result : Type := GoogleResult {
  g_location : option (pyfloat * pyfloat);
  g_formatted_address : option pyobj
}.

(** The Google payload: [status] and [results]. *)
Record google_body : Type := GoogleBody {
  g_status : option string;
  g_results : list google_result
}.

(** One feature of the Photon payload: [geometry.coordinates], each entry
    as [float(entry)] gives it ([None] when that raises); the value under
    the property [name] ([None] when the key is absent); and the properties
    [city] and [country] as an f-string prints them ([None] when the
    property is absent or not truthy). *)
Record photon_feature : Type := PhotonFeature {
  p_coordinates : list (option pyfloat);
  p_name : option pyobj;
  p_city : option string;
  p_country : option string
}.

(** What the program asks of the outside.  The first argument of each
    oracle is the number of requests issued so far, so that the same request
    may be answered differently over time. *)
Record World : Type := {
  (** [requests.get(url, params=params)] on a city crime portal; a record of
      the payload is a JSON object with text values. *)
  crime_http :
    nat -> string -> list (string * string) ->
    result (response (list (gmap string string)));
  (** [requests.get] on the Google geocoding endpoint, by address and key. *)
  google_http : nat -> string -> string -> result (response google_body);
  (** [requests.get] on the Photon endpoint, by query. *)
  photon_http : nat -> string -> result (response (list photon_feature));
  (** [Nominatim(...).geocode(query, ...)] *)
  nominatim : nat -> string -> result (option location);
  (** [settings.GOOGLE_MAPS_API_KEY] *)
  GOOGLE_MAPS_API_KEY : option string;
  (** [(datetime.now() - timedelta(days=d)).strftime('%Y-%m-%d')] *)
  date_days_ago : Z -> string;
  (** The stream behind the [random] module. *)
  random_stream : nat -> Q
}.

(** An external request, as recorded in the trace. *)
Inductive event : Type :=
| CrimeRequest (url : string) (params : list (string * string))
| GoogleRequest (address : string)
| PhotonRequest (query : string)
| NominatimRequest (query : string).

Record state : Type := State {
  trace : list event;     (* requests issued, oldest first *)
  draws : nat             (* random numbers consumed *)
}.

Definition initial_state : state := State [] 0.

(** Computations that read the world, extend the trace and may raise. *)
Definition M (A : Type) : Type := state -> result A * state.

Definition ret {A : Type} (a : A) : M A := fun s => (Ok a, s).

Definition bind {A B : Type} (m : M A) (k : A -> M B) : M B :=
  fun s =>
    match m s with
    | (Ok a, s') => k a s'
    | (Raise e, s') => (Raise e, s')
    end.

Definition raise {A : Type} (e : exn) : M A := fun s => (Raise e, s).

(** [try: m  except Exception as e: h e] *)
Definition try_except {A : Type} (m : M A) (h : exn -> M A) : M A :=
  fun s =>
    match m s with
    | (Ok a, s') => (Ok a, s')
    | (Raise e, s') => h e s'
    end.

(** A pure computation that may raise, run inside [M]. *)
Definition lift {A : Type} (r : result A) : M A := fun s => (r, s).

Notation "x <- m ;; k" := (bind m (fun x => k))
  (at level 100, m at next level, right associativity).

Section Effects.

Variable w : World.

(** Issue a request: log it, then return or raise what the world says. *)
Definition request {A : Type} (e : event) (answer : nat -> result A) : M A :=
  fun s =>
    (answer (length (trace s)), State (trace s ++ [e]) (draws s)).

(** [random.random()]: the next number of the stream, brought into
    [0, 1). *)
Definition random_random : M Q :=
  fun s => (Ok (Py.mod1 (random_stream w (draws s))),
            State (trace s) (S (draws s))).

(** [random.randint(a, b)]: an integer of [a .. b]. *)
Definition random_randint (a b : Z) : M Z :=
  u <- random_random ;;
  ret (a + Qfloor (u * inject_Z (b - a + 1))).

(** [random.uniform(a, b)] *)
Definition random_uniform (a b : Q) : M Q :=
  u <- random_random ;;
  ret (a + (b - a) * u)%Q.

(** [random.choice(l)] on a non-empty list, [d] being any element. *)
Definition random_choice {A : Type} (d : A) (l : list A) : M A :=
  u <- random_random ;;
  ret (nth (Z.to_nat (Qfloor (u * inject_Z (Z.of_nat (length l))))) l d).

(** *** tools/fallback/simulated_crime.py *)

Definition simulate_crime : M Crime.t :=
  v <- random_randint 20 80 ;;
  p <- random_randint 15 70 ;;
  r <- random_randint 0 10 ;;
  ret (Crime.mk (Some v) (Some p) (Some r) (Some "simulated") None None).

(** *** tools/fallback/simulated_geo.py *)

Definition simulate_geo : M Geo.t :=
  neighborhood <- random_choice "urban" ["urban"; "suburban"; "rural"] ;;
  let density_map : gmap string Z :=
    <["urban" := 8000]> (<["suburban" := 3000]> (<["rural" := 500]> ∅)) in
  let risks_map : gmap string (list string) :=
    <["urban" := ["nightclub"; "warehouse"; "school"]]>
      (<["suburban" := ["school"]]> (<["rural" := []]> ∅)) in
  coords <-
    (if (neighborhood =? "urban")%string then
       latitude <- random_uniform 40.0 41.0 ;;
       longitude <- random_uniform (-74.0) (-73.0) ;;
       ret (latitude, longitude)
     else if (neighborhood =? "suburban")%string then
       latitude <- random_uniform 38.0 42.0 ;;
       longitude <- random_uniform (-75.0) (-70.0) ;;
       ret (latitude, longitude)
     else
       latitude <- random_uniform 35.0 45.0 ;;
       longitude <- random_uniform (-85.0) (-70.0) ;;
       ret (latitude, longitude)) ;;
  ret (Geo.mk (Some (Fin (fst coords))) (Some (Fin (snd coords)))
         (Some neighborhood)
         (density_map !! neighborhood)
         (risks_map !! neighborhood)
         (Some "simulated")
         (Some (PyStr ("Simulated " ++ neighborhood ++ " location")))).

End Effects.

(** ** tools/crime_data_tool.py *)

(** The ["url"] entries of [CITY_CRIME_APIS]. *)
Definition CITY_CRIME_APIS : gmap string string :=
  <["chicago" := "https://data.cityofchicago.org/resource/ijzp-q8t2.json"]>
  (<["los angeles" := "https://data.lacity.org/resource/y9pe-qdrd.json"]>
  (<["new york" := "https://data.cityofnewyork.us/resource/qgea-i56i.json"]>
  (<["san francisco" := "https://data.sfgov.org/resource/wg3w-h783.json"]>
  (<["philadelphia" := "https://phl.carto.com/api/v2/sql"]> ∅)))).

(** [_detect_city_from_address]; the coordinates are not used. *)
Definition _detect_city_from_address
    (address : string) (latitude longitude : option pyfloat) : option string :=
  if negb (Py.truthy address) then None
  else
    let address_lower := Py.lower address in
    let city_priority :=
      ["san francisco"; "los angeles"; "new york"; "philadelphia"; "chicago"] in
    List.find (fun city => Py.contains city address_lower) city_priority.

(** [record.get(key, "")] on a payload record. *)
Definition field (record : gmap string string) (key : string) : string :=
  default "" (record !! key).

(** [a or b] on strings. *)
Definition or_else (a b : string) : string := if Py.truthy a then a else b.

(** [any(k in text for k in keywords)] *)
Definition any_in (keywords : list string) (text : string) : bool :=
  existsb (fun k => Py.contains k text) keywords.

(** One turn of the counting loops: the pair (violent_count,
    property_count) after a record whose category text is [text]. *)
Definition count_category
    (violent_words property_words : list string) (text : string)
    (counts : Z * Z) : Z * Z :=
  if any_in violent_words text then (fst counts + 1, snd counts)
  else if any_in property_words text then (fst counts, snd counts + 1)
  else counts.

(** [min(100, max(floor, int(count / max(total, 1) * 100 * mult)))] *)
Definition ratio_index (floor mult count total : Z) : Z :=
  let ratio := (inject_Z count / inject_Z (Z.max total 1))%Q in
  Z.min 100 (Z.max floor (Py.int (ratio * 100 * inject_Z mult))).

Section CrimeDataTool.

Variable w : World.

(** [requests.get(url, params=params, timeout=...)] on a crime portal. *)
Definition crime_get (url : string) (params : list (string * string))
  : M (response (list (gmap string string))) :=
  request (CrimeRequest url params) (fun n => crime_http w n url params).

(** [response.json()] *)
Definition response_json {A : Type} (r : response A) : M A :=
  match json r with
  | Some data => ret data
  | None => raise ValueError
  end.

Definition _query_chicago_crime_api (latitude longitude : pyfloat)
  : M (option Crime.t) :=
  try_except
    (let url := default "" (CITY_CRIME_APIS !! "chicago") in
     let thirty_days_ago := date_days_ago w 30 in
     let seven_days_ago := date_days_ago w 7 in
     let params :=
       [("$limit", "1000"); ("$order", "date DESC");
        ("$where", "date >= '" ++ thirty_days_ago ++ "'")] in
     response <- crime_get url params ;;
     response <-
       (if negb (status_code response =? 200)%Z then
          crime_get url [("$limit", "1000"); ("$order", "date DESC")]
        else ret response) ;;
     if negb (status_code response =? 200)%Z then ret None
     else
       data <- response_json response ;;
       match data with
       | [] => ret None
       | _ =>
           let total_recent :=
             fold_left
               (fun n crime =>
                  let crime_date := field crime "date" in
                  if Py.truthy crime_date
                     && String.leb seven_days_ago crime_date
                  then n + 1 else n)
               data 0 in
           let counts :=
             fold_left
               (fun c crime =>
                  let primary_type :=
                    Py.lower
                      (or_else (field crime "primary_type")
                         (field crime "primary_type_description")) in
                  count_category
                    ["assault"; "battery"; "homicide"; "robbery";
                     "weapons"; "criminal sexual"]
                    ["theft"; "burglary"; "motor vehicle theft"; "arson"]
                    primary_type c)
               data (0, 0) in
           let total_crimes := Z.of_nat (length data) in
           let violent_index := ratio_index 20 15 (fst counts) total_crimes in
           let property_index := ratio_index 15 15 (snd counts) total_crimes in
           let recent_incidents := Z.min 30 total_recent in
           ret (Some (Crime.mk (Some violent_index) (Some property_index)
                        (Some recent_incidents)
                        (Some "chicago_api_realtime")
                        (Some total_crimes) (Some 30)))
       end)
    (fun _ => ret None).

(** The three portals queried with one request and no date window:
    category text of a record, key words, floors, multiplier and source
    tag differ. *)
Definition query_simple_portal
    (url : string) (order : string)
    (category : gmap string string -> string)
    (violent_words property_words : list string)
    (violent_floor property_floor mult : Z) (tag : string)
  : M (option Crime.t) :=
  try_except
    (let params := [("$limit", "500"); ("$order", order)] in
     response <- crime_get url params ;;
     if negb (status_code response =? 200)%Z then ret None
     else
       data <- response_json response ;;
       match data with
       | [] => ret None
       | _ =>
           let counts :=
             fold_left
               (fun c incident =>
                  count_category violent_words property_words
                    (Py.lower (category incident)) c)
               data (0, 0) in
           let total := Z.of_nat (length data) in
           let violent_index :=
             ratio_index violent_floor mult (fst counts) total in
           let property_index :=
             ratio_index property_floor mult (snd counts) total in
           let recent_incidents := Z.min 20 (total / 25) in
           ret (Some (Crime.mk (Some violent_index) (Some property_index)
                        (Some recent_incidents) (Some tag) None None))
       end)
    (fun _ => ret None).

Definition _query_nyc_crime_api (latitude longitude : pyfloat)
  : M (option Crime.t) :=
  query_simple_portal
    (default "" (CITY_CRIME_APIS !! "new york")) "occur_date DESC"
    (fun incident =>
       or_else (field incident "offense")
         (or_else (field incident "ofns_desc")
            (or_else (field incident "law_cat_cd")
               (field incident "pd_desc"))))
    ["assault"; "murder"; "rape"; "robbery"; "weapon"; "felony"]
    ["theft"; "burglary"; "larceny"; "auto"; "misdemeanor"]
    25 20 15 "nypd_api".

Definition _query_la_crime_api (latitude longitude : pyfloat)
  : M (option Crime.t) :=
  query_simple_portal
    (default "" (CITY_CRIME_APIS !! "los angeles")) "date_occ DESC"
    (fun crime => or_else (field crime "crm_cd_desc") (field crime "crm_cd"))
    ["assault"; "homicide"; "rape"; "robbery"; "weapon"]
    ["theft"; "burglary"; "auto"; "larceny"]
    22 18 13 "la_api".

Definition _query_sf_crime_api (latitude longitude : pyfloat)
  : M (option Crime.t) :=
  query_simple_portal
    (default "" (CITY_CRIME_APIS !! "san francisco")) "date DESC"
    (fun crime =>
       or_else (field crime "category") (field crime "incident_category"))
    ["assault"; "homicide"; "rape"; "robbery"]
    ["theft"; "burglary"; "larceny"; "vehicle"]
    20 15 11 "sf_api".

Definition _query_city_crime_api
    (city : string) (latitude longitude : pyfloat) : M (option Crime.t) :=
  let city_lower := Py.lower city in
  if Py.contains "chicago" city_lower then
    _query_chicago_crime_api latitude longitude
  else if Py.contains "new york" city_lower || Py.contains "nyc" city_lower
  then _query_nyc_crime_api latitude longitude
  else if Py.contains "los angeles" city_lower || Py.contains "la" city_lower
  then _query_la_crime_api latitude longitude
  else if Py.contains "san francisco" city_lower
          || Py.contains "sf" city_lower
  then _query_sf_crime_api latitude longitude
  else ret None.

End CrimeDataTool.

Section CrimeResolver.

Variable w : World.

(** [_get_crime_from_coordinates]: nested bounding boxes, the most specific
    first.  [int] raises on a NaN or an infinity. *)
Definition _get_crime_from_coordinates (latitude longitude : pyfloat)
  : M Crime.t :=
  let is_brooklyn_11212 :=
    F.leb 40.65 latitude && F.leb latitude 40.70
    && F.leb (-73.95) longitude && F.leb longitude (-73.90) in
  if is_brooklyn_11212 then
    let violent_index := 85 in
    let property_index := 75 in
    let recent_incidents := 18 in
    ret (Crime.mk (Some violent_index) (Some property_index)
           (Some recent_incidents)
           (Some "coordinate_estimation_brooklyn_high_crime") None None)
  else
  let is_brooklyn :=
    F.leb 40.60 latitude && F.leb latitude 40.75
    && F.leb (-74.05) longitude && F.leb longitude (-73.85) in
  if is_brooklyn then
    let base_violent := 65%Q in
    let base_property := 55%Q in
    let recent_base := 12%Q in
    let lat_variation := F.mul (F.abs (F.sub latitude 40.6782)) 15 in
    let lon_variation := F.mul (F.abs (F.add longitude 73.9442)) 15 in
    v <- lift (F.int (F.add base_violent lat_variation)) ;;
    let violent_index := Z.min 100 v in
    p <- lift (F.int (F.add base_property (F.mul lat_variation 0.8))) ;;
    let property_index := Z.min 100 p in
    r <- lift (F.int (F.add recent_base (F.div_by lat_variation 3))) ;;
    let recent_incidents := Z.min 25 r in
    ret (Crime.mk (Some violent_index) (Some property_index)
           (Some recent_incidents)
           (Some "coordinate_estimation_brooklyn") None None)
  else
  let is_manhattan :=
    F.leb 40.70 latitude && F.leb latitude 40.80
    && F.leb (-74.05) longitude && F.leb longitude (-73.90) in
  if is_manhattan then
    let base_violent := 50 in
    let base_property := 60 in
    let recent_base := 10 in
    v <- lift (F.int (F.mul (F.mod1 latitude) 15)) ;;
    let violent_index := Z.min 100 (base_violent + v) in
    p <- lift (F.int (F.mul (F.mod1 longitude) 10)) ;;
    let property_index := Z.min 100 (base_property + p) in
    r <- lift (F.int (F.mul (F.mod1 latitude) 3)) ;;
    let recent_incidents := Z.min 20 (recent_base + r) in
    ret (Crime.mk (Some violent_index) (Some property_index)
           (Some recent_incidents)
           (Some "coordinate_estimation_manhattan") None None)
  else
  let is_nyc :=
    F.leb 40.50 latitude && F.leb latitude 40.90
    && F.leb (-74.30) longitude && F.leb longitude (-73.70) in
  if is_nyc then
    let base_violent := 55 in
    let base_property := 50 in
    let recent_base := 10 in
    v <- lift (F.int (F.mul (F.mod1 latitude) 20)) ;;
    let violent_index := Z.min 100 (base_violent + v) in
    p <- lift (F.int (F.mul (F.mod1 longitude) 15)) ;;
    let property_index := Z.min 100 (base_property + p) in
    r <- lift (F.int (F.mul (F.mod1 latitude) 4)) ;;
    let recent_incidents := Z.min 20 (recent_base + r) in
    ret (Crime.mk (Some violent_index) (Some property_index)
           (Some recent_incidents)
           (Some "coordinate_estimation_nyc") None None)
  else
  let is_urban := true in
  if is_urban then
    let base_violent := 45 in
    let base_property := 40 in
    let recent_base := 8 in
    v <- lift (F.int (F.mul (F.mod1 latitude) 20)) ;;
    let violent_index := Z.min 100 (base_violent + v) in
    p <- lift (F.int (F.mul (F.mod1 longitude) 15)) ;;
    let property_index := Z.min 100 (base_property + p) in
    r <- lift (F.int (F.mul (F.mod1 latitude) 5)) ;;
    let recent_incidents := Z.min 20 (recent_base + r) in
    ret (Crime.mk (Some violent_index) (Some property_index)
           (Some recent_incidents)
           (Some "coordinate_estimation_urban") None None)
  else
    simulate_crime w.

(** The body of the outer [try] of [get_crime_data]. *)
Definition get_crime_data_body
    (address : string) (latitude longitude : option pyfloat)
    (city : option string) : M Crime.t :=
  (* if city: the real API first *)
  api_result <-
    (if Py.truthy_opt city then
       match latitude, longitude with
       | Some lat, Some lon =>
           if F.truthy lat && F.truthy lon
           then _query_city_crime_api w (default "" city) lat lon
           else ret None
       | _, _ => ret None
       end
     else ret None) ;;
  match api_result with
  | Some api_result => ret api_result
  | None =>
  (* the city from the address string *)
  api_result <-
    (if negb (Py.truthy_opt city) && Py.truthy address then
       let detected_city :=
         _detect_city_from_address address latitude longitude in
       match detected_city, latitude, longitude with
       | Some detected_city, Some lat, Some lon =>
           if Py.truthy detected_city && F.truthy lat && F.truthy lon
           then _query_city_crime_api w detected_city lat lon
           else ret None
       | _, _, _ => ret None
       end
     else ret None) ;;
  match api_result with
  | Some api_result => ret api_result
  | None =>
  match latitude, longitude with
  | Some lat, Some lon =>
      (* coordinates at hand: estimate from them *)
      result <- _get_crime_from_coordinates lat lon ;;
      ret (match Crime.source result with
           | None => Crime.set_source "coordinate_based" result
           | Some _ => result
           end)
  | _, _ =>
      (* geocode to get coordinates; the inner try swallows everything *)
      geocoded <-
        try_except
          (loc <- request (NominatimRequest address)
                    (fun n => nominatim w n address) ;;
           match loc with
           | Some loc =>
               api_result <-
                 (if negb (Py.truthy_opt city) then
                    match _detect_city_from_address address
                            (Some (loc_latitude loc))
                            (Some (loc_longitude loc)) with
                    | Some detected_city =>
                        if Py.truthy detected_city
                        then _query_city_crime_api w detected_city
                               (loc_latitude loc) (loc_longitude loc)
                        else ret None
                    | None => ret None
                    end
                  else ret None) ;;
               match api_result with
               | Some api_result => ret (Some api_result)
               | None =>
                   result <- _get_crime_from_coordinates
                               (loc_latitude loc) (loc_longitude loc) ;;
                   ret (Some (Crime.set_source "coordinate_based" result))
               end
           | None => ret None
           end)
          (fun geo_error => ret None) ;;
      match geocoded with
      | Some result => ret result
      | None =>
          (* nothing worked *)
          result <- simulate_crime w ;;
          ret (Crime.set_source "simulated" result)
      end
  end
  end
  end.

(** [get_crime_data]: the body under [try], and the handler of
    [except Exception]. *)
Definition get_crime_data
    (address : string) (latitude longitude : option pyfloat)
    (city : option string) : M Crime.t :=
  try_except
    (get_crime_data_body address latitude longitude city)
    (fun e =>
       result <- simulate_crime w ;;
       ret (Crime.set_source "simulated_error" result)).

End CrimeResolver.

(** ** tools/geolocation_tool.py *)

Definition _classify_neighborhood_by_coords
    (latitude longitude : pyfloat) : string :=
  if F.ltb 40 (F.abs latitude) || F.ltb (F.abs longitude) 75 then "urban"
  else if F.ltb 35 (F.abs latitude) || F.ltb (F.abs longitude) 80
  then "suburban"
  else "rural".

Definition _get_population_density
    (neighborhood_type : string) (latitude longitude : pyfloat) : Z :=
  if (neighborhood_type =? "urban")%string then 8000
  else if (neighborhood_type =? "suburban")%string then 3000
  else 500.

Definition _get_nearby_risks
    (neighborhood_type : string) (latitude longitude : pyfloat)
  : list string :=
  let risks : list string := [] in
  let risks :=
    if (neighborhood_type =? "urban")%string
    then (risks ++ ["nightclub"; "warehouse"])%list else risks in
  let risks :=
    if (neighborhood_type =? "urban")%string
       || (neighborhood_type =? "suburban")%string
    then (risks ++ ["school"])%list else risks in
  risks.

(** The dictionary the three geocoders build from a pair of coordinates. *)
Definition geo_from_coordinates
    (latitude longitude : pyfloat) (tag : string) (formatted : pyobj) : Geo.t :=
  let neighborhood_type :=
    _classify_neighborhood_by_coords latitude longitude in
  let population_density :=
    _get_population_density neighborhood_type latitude longitude in
  let nearby_risks :=
    _get_nearby_risks neighborhood_type latitude longitude in
  Geo.mk (Some latitude) (Some longitude) (Some neighborhood_type)
    (Some population_density) (Some nearby_risks) (Some tag) (Some formatted).

Section GeolocationTool.

Variable w : World.

Definition _geocode_with_google (address : string) : M (option Geo.t) :=
  let api_key := GOOGLE_MAPS_API_KEY w in
  if negb (Py.truthy_opt api_key) || (default "" api_key =? "")%string
  then ret None
  else
    try_except
      (response <- request (GoogleRequest address)
                     (fun n => google_http w n address (default "" api_key)) ;;
       if negb (status_code response =? 200)%Z then ret None
       else
         data <- response_json response ;;
         if negb (bool_decide (g_status data = Some "OK"))
            || match g_results data with [] => true | _ => false end
         then ret None
         else
           match g_results data with
           | result :: _ =>
               match g_location result with
               | Some (latitude, longitude) =>
                   let formatted_address :=
                     default (PyStr address) (g_formatted_address result) in
                   ret (Some (geo_from_coordinates latitude longitude
                                "google_maps" formatted_address))
               | None => raise (OtherException "KeyError")
               end
           | [] => raise (OtherException "IndexError")
           end)
      (fun _ => ret None).

(** The loop of [_geocode_with_nominatim] over the address variants. *)
Fixpoint nominatim_attempts (address : string) (address_variants : list string)
  : M (option Geo.t) :=
  match address_variants with
  | [] => ret None
  | addr_variant :: rest =>
      found <-
        try_except
          (loc <- request (NominatimRequest addr_variant)
                    (fun n => nominatim w n addr_variant) ;;
           match loc with
           | Some loc =>
               let latitude := loc_latitude loc in
               let longitude := loc_longitude loc in
               if F.ltb 90 (F.abs latitude) || F.ltb 180 (F.abs longitude)
               then ret None
               else
                 let formatted_addr := PyStr (loc_address loc) in
                 ret (Some (geo_from_coordinates latitude longitude
                              "nominatim" formatted_addr))
           | None => ret None
           end)
          (fun _ => ret None) ;;
      match found with
      | Some result => ret (Some result)
      | None => nominatim_attempts address rest
      end
  end.

Definition _geocode_with_nominatim (address : string) : M (option Geo.t) :=
  let address_variants :=
    [address; address ++ ", USA"; address ++ ", United States"] in
  nominatim_attempts address address_variants.

Definition _geocode_with_photon (address : string) : M (option Geo.t) :=
  try_except
    (response <- request (PhotonRequest address)
                   (fun n => photon_http w n address) ;;
     if negb (status_code response =? 200)%Z then ret None
     else
       data <- response_json response ;;
       match data with
       | [] => ret None
       | feature :: _ =>
           let coordinates := p_coordinates feature in
           if (length coordinates <? 2)%nat then ret None
           else
             match coordinates with
             | Some longitude :: Some latitude :: _ =>
                 if F.ltb 90 (F.abs latitude) || F.ltb 180 (F.abs longitude)
                 then ret None
                 else
                   let formatted_addr :=
                     default (PyStr address) (p_name feature) in
                   formatted_addr <-
                     (if Py.truthy_opt (p_city feature)
                      then lift (iadd_str formatted_addr
                                   (", " ++ default "" (p_city feature)))
                      else ret formatted_addr) ;;
                   formatted_addr <-
                     (if Py.truthy_opt (p_country feature)
                      then lift (iadd_str formatted_addr
                                   (", " ++ default "" (p_country feature)))
                      else ret formatted_addr) ;;
                   ret (Some (geo_from_coordinates latitude longitude
                                "photon" formatted_addr))
             | _ => raise ValueError
             end
       end)
    (fun _ => ret None).

Definition get_geolocation_info (address : string) : M Geo.t :=
  if negb (Py.truthy address) || negb (Py.truthy (Py.strip address)) then
    result <- simulate_geo w ;;
    let result := Geo.set_source "simulated_empty_address" result in
    let result := Geo.set_formatted_address address result in
    ret result
  else
    google_result <- _geocode_with_google address ;;
    match google_result with
    | Some google_result => ret google_result
    | None =>
    nominatim_result <- _geocode_with_nominatim address ;;
    match nominatim_result with
    | Some nominatim_result => ret nominatim_result
    | None =>
    photon_result <- _geocode_with_photon address ;;
    match photon_result with
    | Some photon_result => ret photon_result
    | None =>
        result <- simulate_geo w ;;
        let result := Geo.set_source "simulated_fallback" result in
        let result := Geo.set_formatted_address address result in
        ret result
    end
    end
    end.

End GeolocationTool.

(** ** Predicates used in the statements *)

(** An optional integer field lies in [lo, hi] when the key is present. *)
Definition in_range (lo hi : Z) (o : option Z) : Prop :=
  match o with
  | Some v => lo <= v <= hi
  | None => True
  end.

(** The crime indices of a valid input: both indices in [0, 100], the
    recent incidents in [0, 30]. *)
Definition valid_crime (c : Crime.t) : Prop :=
  in_range 0 100 (Crime.violent_crime_index c)
  /\ in_range 0 100 (Crime.property_crime_index c)
  /\ in_range 0 30 (Crime.recent_incidents c).

(** The population density of a valid input is not negative. *)
Definition valid_geo (g : Geo.t) : Prop :=
  match Geo.population_density g with
  | Some d => 0 <= d
  | None => True
  end.

(** [x] is [y] up to the factors [l] and [h]. *)
Definition near (l h x y : Q) : Prop := (y * l <= x <= y * h)%Q.

(** The relative error of one rounding. *)
Definition eps : Q := B64.pow2 (-53).

(** The crime risk before the cap: as the floats of the scorer give it, and
    over the reals. *)
Definition float_crime_risk (violent prop_crime recent : Z) : Q :=
  B64.add
    (B64.add (B64.mul (B64.of_int violent) (B64.literal 0.6))
             (B64.mul (B64.of_int prop_crime) (B64.literal 0.3)))
    (B64.of_int (recent * 3)).

Definition exact_crime_risk (violent prop_crime recent : Z) : Q :=
  (inject_Z violent * 0.6 + inject_Z prop_crime * 0.3
   + inject_Z recent * 3)%Q.

(** The raw crime risk of a crime dictionary, before the cap, as the scorer
    computes it. *)
Definition raw_crime_risk (c : Crime.t) : Q :=
  float_crime_risk (default 0%Z (Crime.violent_crime_index c))
    (default 0%Z (Crime.property_crime_index c))
    (default 0%Z (Crime.recent_incidents c)).

(** A string of blanks only (possibly empty). *)
Fixpoint whitespace_only (s : string) : bool :=
  match s with
  | EmptyString => true
  | String c s' => Py.isspace c && whitespace_only s'
  end.

(** The five keys of the dimension dictionary. *)
Definition dimension_keys : list string :=
  ["crime_risk"; "property_exposure_risk"; "accessibility_risk";
   "neighborhood_risk"; "operational_risk"].

(** The provenance tags the resolvers give to synthetic data. *)
Definition simulated_family : list string :=
  ["simulated"; "simulated_fallback"; "simulated_empty_address";
   "simulated_error"].

Definition is_simulated_family (tag : string) : bool :=
  existsb (String.eqb tag) simulated_family.

(** The four result lists of [generate_recommendations]. *)
Definition advanced_list : list string :=
  [ "Install advanced CCTV with remote monitoring";
    "Deploy regular security patrols";
    "Add smart perimeter lighting";
    "Upgrade fences and gates";
    "Enable controlled access systems" ].

Definition enhanced_list : list string :=
  [ "Install 1080p CCTV cameras";
    "Enable motion-activated lighting";
    "Improve fencing and gate systems" ].

Definition standard_list : list string :=
  [ "Install basic CCTV";
    "Improve door/window locks";
    "Trim shrubs to increase visibility" ].

Definition baseline_list : list string :=
  [ "Basic home security recommended" ].

(** The dimension scores of the aggregation example. *)
Definition example_dims : gmap string Z :=
  <["crime_risk" := 50]>
  (<["property_exposure_risk" := 40]>
  (<["accessibility_risk" := 30]>
  (<["neighborhood_risk" := 20]>
  (<["operational_risk" := 10]> ∅)))).

(** A crime and a geolocation dictionary that hold a source tag only. *)
Definition crime_tagged (tag : string) : Crime.t :=
  Crime.mk None None None (Some tag) None None.

Definition geo_tagged (tag : string) : Geo.t :=
  Geo.mk None None None None None (Some tag) None.

(** The source a dictionary is read with: [d.get("source", "simulated")]. *)
Definition crime_source_of (d : Crime.t) : string :=
  default "simulated" (Crime.source d).

Definition geo_source_of (d : Geo.t) : string :=
  default "simulated" (Geo.source d).

(** A world in which every provider times out and no key is configured. *)
Definition offline_world : World := {|
  crime_http := fun _ _ _ => Raise RequestsTimeout;
  google_http := fun _ _ _ => Raise RequestsTimeout;
  photon_http := fun _ _ => Raise RequestsTimeout;
  nominatim := fun _ _ => Raise GeocoderTimedOut;
  GOOGLE_MAPS_API_KEY := None;
  date_days_ago := fun _ => "2024-01-01";
  random_stream := fun _ => 0.5%Q
|}.

(** A world in which only Photon answers, with a feature whose name is
    null and that has no city and no country. *)
Definition nameless_photon_world : World := {|
  crime_http := fun _ _ _ => Raise RequestsTimeout;
  google_http := fun _ _ _ => Raise RequestsTimeout;
  photon_http := fun _ _ =>
    Ok (Response 200
          (Some [PhotonFeature [Some (Fin (-73.99)); Some (Fin 40.7)]
                   (Some PyNone) None None]));
  nominatim := fun _ _ => Raise GeocoderTimedOut;
  GOOGLE_MAPS_API_KEY := None;
  date_days_ago := fun _ => "2024-01-01";
  random_stream := fun _ => 0.5%Q
|}.

(** A world in which the Chicago portal answers with two records. *)
Definition chicago_world : World := {|
  crime_http := fun _ url _ =>
    if (url =? "https://data.cityofchicago.org/resource/ijzp-q8t2.json")%string
    then Ok (Response 200
               (Some [ <["date" := "2024-01-05"]>
                         (<["primary_type" := "BATTERY"]> ∅);
                       <["date" := "2023-12-20"]>
                         (<["primary_type" := "THEFT"]> ∅) ]))
    else Raise RequestsTimeout;
  google_http := fun _ _ _ => Raise RequestsTimeout;
  photon_http := fun _ _ => Raise RequestsTimeout;
  nominatim := fun _ _ => Raise GeocoderTimedOut;
  GOOGLE_MAPS_API_KEY := None;
  date_days_ago := fun d => if (d =? 7)%Z then "2024-01-03" else "2023-12-11";
  random_stream := fun _ => 0.5%Q
|}.

(** The source tags of the four city portals. *)
Definition api_tags : list string :=
  ["chicago_api_realtime"; "nypd_api"; "la_api"; "sf_api"].

(** The source tag of a crime dictionary starts with [prefix]. *)
Definition source_startswith (prefix : string) (r : Crime.t) : Prop :=
  exists tag, Crime.source r = Some tag /\ Py.startswith tag prefix = true.

(** A computation returns: from every state it gives a value. *)
Definition returns {A : Type} (m : M A) : Prop :=
  forall s, exists a s', m s = (Ok a, s').

(** A computation only appends to the trace of requests. *)
Definition extends_trace {A : Type} (m : M A) : Prop :=
  forall s r s', m s = (r, s') ->
    exists rest, trace s' = (trace s ++ rest)%list.

(** Whatever a computation does, the first request it issues is [ev]. *)
Definition first_request_is {A : Type} (ev : event) (m : M A) : Prop :=
  forall s r s', m s = (r, s') ->
    exists rest, trace s' = (trace s ++ ev :: rest)%list.

(** The first request of the Chicago portal query. *)
Definition chicago_first_request (w : World) : event :=
  CrimeRequest "https://data.cityofchicago.org/resource/ijzp-q8t2.json"
    [("$limit", "1000"); ("$order", "date DESC");
     ("$where", "date >= '" ++ date_days_ago w 30 ++ "'")].

(** ** Notions for the further properties *)

(** [dim.get(key, 0)] *)
Definition dim_get (dim : gmap string Z) (key : string) : Z :=
  default 0 (dim !! key).

(** The weighted sum that [compute_overall_score] rounds and clamps. *)
Definition weighted_sum (dim : gmap string Z) : Q :=
  (inject_Z (dim_get dim "crime_risk") * 0.35 +
   inject_Z (dim_get dim "property_exposure_risk") * 0.25 +
   inject_Z (dim_get dim "accessibility_risk") * 0.15 +
   inject_Z (dim_get dim "neighborhood_risk") * 0.15 +
   inject_Z (dim_get dim "operational_risk") * 0.10)%Q.

(** ** core/validation.py *)

(** The fields of [AssessmentInput]. *)
Module Payload.
Record t : Type := mk {
  address : string;
  property_type : string;
  fenced : bool;
  gated : bool;
  operating_hours : option string;
  notes : option string
}.
End Payload.

(** [AssessmentInput.validate_property_type] *)
Definition validate_property_type (v : string) : result string :=
  let allowed_types : gset string :=
    list_to_set ["home"; "rental"; "vacation home"; "business"] in
  let v_lower := Py.lower v in
  if negb (bool_decide (v_lower ∈ allowed_types)) then Raise ValueError
  else Ok v_lower.

(** [AssessmentInput.validate_address] *)
Definition validate_address (v : string) : result string :=
  if negb (Py.truthy v) || negb (Py.truthy (Py.strip v)) then Raise ValueError
  else Ok (Py.strip v).

(** Building an [AssessmentInput]: the length constraint of [address], then
    the two validators; any failure is a validation error. *)
Definition AssessmentInput
    (address property_type : string) (fenced gated : bool)
    (operating_hours notes : option string) : result Payload.t :=
  if (String.length address <? 1)%nat
  then Raise (OtherException "ValidationError")
  else
    match validate_address address, validate_property_type property_type with
    | Ok address, Ok property_type =>
        Ok (Payload.mk address property_type fenced gated
              operating_hours notes)
    | _, _ => Raise (OtherException "ValidationError")
    end.

(** ** api/router.py *)

(** The response dictionary of [assess_risk]. *)
Module ApiResponse.
Record t : Type := mk {
  address : string;
  property_type : string;
  fenced : bool;
  gated : bool;
  operating_hours : option string;
  notes : option string;
  risk_dimensions : gmap string Z;
  overall_score : Q;
  confidence : Q;
  recommendations : list string;
  crime_data_source : string;      (* api_sources_used["crime_data"] *)
  geolocation_source : string;     (* api_sources_used["geolocation"] *)
  coordinates : option (pyfloat * pyfloat)
}.
End ApiResponse.

Section Router.

Variable w : World.

(** The order in which Python iterates the set [supported_cities]; it
    depends on the hash seed of the process. *)
Variable supported_cities : list string.

(** [assess_risk(payload)].  A failure of the data collection becomes an
    [HTTPException] with status 500: the collection fails when the
    formatted address of the resolver is not text, [lower] being called on
    it.  The scoring, the aggregation and the recommendations are pure and
    their handlers are never entered. *)
Definition assess_risk (payload : Payload.t) : M ApiResponse.t :=
  (* Phase 1: data collection *)
  collected <-
    try_except
      (geo_data <- get_geolocation_info w (Payload.address payload) ;;
       let latitude := Geo.latitude geo_data in
       let longitude := Geo.longitude geo_data in
       let formatted_address :=
         default (PyStr (Payload.address payload))
           (Geo.formatted_address geo_data) in
       address_lower <- lift (str_lower formatted_address) ;;
       let city :=
         List.find (fun city_name => Py.contains city_name address_lower)
           supported_cities in
       crime_data <-
         get_crime_data w (Payload.address payload) latitude longitude city ;;
       let prop_data := get_property_info (Payload.property_type payload) in
       ret (geo_data, crime_data, prop_data))
      (fun e => raise (OtherException "HTTPException 500")) ;;
  let '(geo_data, crime_data, prop_data) := collected in
  let latitude := Geo.latitude geo_data in
  let longitude := Geo.longitude geo_data in
  (* Phase 2: risk calculation *)
  let dimensions :=
    compute_risk_dimensions crime_data geo_data prop_data
      (Payload.property_type payload) (Payload.fenced payload)
      (Payload.gated payload) (Payload.operating_hours payload)
      (Payload.notes payload) in
  (* Phase 3: score aggregation *)
  let '(overall, confidence) :=
    compute_overall_score dimensions crime_data geo_data in
  (* Phase 4: recommendations *)
  let recommendations := generate_recommendations overall in
  ret (ApiResponse.mk
         (Payload.address payload) (Payload.property_type payload)
         (Payload.fenced payload) (Payload.gated payload)
         (Payload.operating_hours payload) (Payload.notes payload)
         dimensions overall confidence recommendations
         (default "simulated" (Crime.source crime_data))
         (default "simulated" (Geo.source geo_data))
         (match latitude, longitude with
          | Some lat, Some lon => Some (lat, lon)
          | _, _ => None
          end)).

End Router.

(** The response of [assess_risk] once the data are collected: phases 2 to
    4 and the dictionary returned. *)
Definition built_response
    (payload : Payload.t) (geo_data : Geo.t) (crime_data : Crime.t)
  : ApiResponse.t :=
  let dimensions :=
    compute_risk_dimensions crime_data geo_data
      (get_property_info (Payload.property_type payload))
      (Payload.property_type payload) (Payload.fenced payload)
      (Payload.gated payload) (Payload.operating_hours payload)
      (Payload.notes payload) in
  let result := compute_overall_score dimensions crime_data geo_data in
  ApiResponse.mk
    (Payload.address payload) (Payload.property_type payload)
    (Payload.fenced payload) (Payload.gated payload)
    (Payload.operating_hours payload) (Payload.notes payload)
    dimensions (fst result) (snd result)
    (generate_recommendations (fst result))
    (default "simulated" (Crime.source crime_data))
    (default "simulated" (Geo.source geo_data))
    (match Geo.latitude geo_data, Geo.longitude geo_data with
     | Some lat, Some lon => Some (lat, lon)
     | _, _ => None
     end).

(** The formatted address that [assess_risk] reads from the result of the
    resolver. *)
Definition read_formatted_address (payload : Payload.t) (geo_data : Geo.t)
  : pyobj :=
  default (PyStr (Payload.address payload)) (Geo.formatted_address geo_data).

(** The source tags of [get_geolocation_info]. *)
Definition geo_tags : list string :=
  ["google_maps"; "nominatim"; "photon"; "simulated_empty_address";
   "simulated_fallback"].

(** A geolocation dictionary with every key, whose density and risks are
    those of the tables for its neighborhood type; the formatted address is
    any value. *)
Definition geo_well_formed (g : Geo.t) : Prop :=
  exists lat lon kind formatted,
    Geo.latitude g = Some lat
    /\ Geo.longitude g = Some lon
    /\ Geo.neighborhood_type g = Some kind
    /\ In kind ["urban"; "suburban"; "rural"]
    /\ Geo.population_density g = Some (_get_population_density kind lat lon)
    /\ Geo.nearby_risks g = Some (_get_nearby_risks kind lat lon)
    /\ Geo.formatted_address g = Some formatted.

(** A coordinate that passed [abs(x) > bound] as false: NaN, or a finite
    value of magnitude at most [bound]. *)
Definition within (bound : Q) (x : pyfloat) : Prop :=
  match x with
  | Fin q => (- bound <= q <= bound)%Q
  | Inf _ => False
  | NaN => True
  end.

(** A crime dictionary with its three indices, inside their ranges. *)
Definition crime_well_formed (c : Crime.t) : Prop :=
  exists v p r,
    Crime.violent_crime_index c = Some v
    /\ Crime.property_crime_index c = Some p
    /\ Crime.recent_incidents c = Some r
    /\ 0 <= v <= 100 /\ 0 <= p <= 100 /\ 0 <= r <= 30.

(** The requests [get_geolocation_info] can issue for a non-blank address,
    in their order: Google when a key is configured, the three address
    variants of Nominatim, Photon. *)
Definition geocoding_plan (w : World) (address : string) : list event :=
  ((if negb (Py.truthy_opt (GOOGLE_MAPS_API_KEY w))
       || (default "" (GOOGLE_MAPS_API_KEY w) =? "")%string
    then [] else [GoogleRequest address])
   ++ [NominatimRequest address;
       NominatimRequest (address ++ ", USA");
       NominatimRequest (address ++ ", United States");
       PhotonRequest address])%list.

(** The requests a computation adds to the trace are a prefix of [plan]. *)
Definition follows_plan {A : Type} (plan : list event) (m : M A) : Prop :=
  forall s r s', m s = (r, s') ->
    exists k, trace s' = (trace s ++ firstn k plan)%list.

(** A computation leaves the state as it is: no request, no random draw. *)
Definition keeps_state {A : Type} (m : M A) : Prop :=
  forall s r s', m s = (r, s') -> s' = s.

(** A computation adds exactly the requests [evs] to the trace. *)
Definition issues {A : Type} (evs : list event) (m : M A) : Prop :=
  forall s r s', m s = (r, s') -> trace s' = (trace s ++ evs)%list.

(** A float that is not a negative number (NaN and infinities pass). *)
Definition not_negative (x : pyfloat) : Prop :=
  match x with
  | Fin q => (0 <= q)%Q
  | _ => True
  end.

(** The second request of the Chicago portal query, without the date
    window. *)
Definition chicago_second_request : event :=
  CrimeRequest "https://data.cityofchicago.org/resource/ijzp-q8t2.json"
    [("$limit", "1000"); ("$order", "date DESC")].

(** A request to a crime portal. *)
Definition is_crime_request (e : event) : Prop :=
  match e with
  | CrimeRequest _ _ => True
  | _ => False
  end.

(** A computation adds the requests [prefix] to the trace, and after them at
    most [n] requests, all of them to crime portals. *)
Definition requests_within {A : Type}
    (prefix : list event) (n : nat) (m : M A) : Prop :=
  forall s r s', m s = (r, s') ->
    exists portal,
      trace s' = (trace s ++ prefix ++ portal)%list
      /\ Forall is_crime_request portal
      /\ (length portal <= n)%nat.

(** The geocoding request [get_crime_data] issues: none when it is given
    both coordinates, one to Nominatim otherwise. *)
Definition crime_geocoding (address : string)
    (latitude longitude : option pyfloat) : list event :=
  match latitude, longitude with
  | Some _, Some _ => []
  | _, _ => [NominatimRequest address]
  end.

(** ** core/scoring_engine.py: the summaries of the crime and of the
    neighborhood dimension *)

(** [c.upper()] on one character: the small letters a-z and, above ASCII,
    those of U+00E0 to U+00FE other than the sign U+00F7.  (The capitals of
    the three remaining small letters, U+00B5, U+00DF and U+00FF, are not
    characters below 256; the sources capitalize ASCII words only.) *)
Definition upper_char (c : ascii) : ascii :=
  let n := nat_of_ascii c in
  if (((97 <=? n) && (n <=? 122))
      || ((224 <=? n) && (n <=? 254) && negb (n =? 247)))%nat
  then ascii_of_nat (n - 32) else c.

(** [s.capitalize()]: the first character in upper case, the rest in lower
    case. *)
Definition capitalize (s : string) : string :=
  match s with
  | EmptyString => EmptyString
  | String c s' => String (upper_char c) (Py.lower s')
  end.

(** [sep.join(items)] *)
Fixpoint join (sep : string) (items : list string) : string :=
  match items with
  | [] => ""
  | x :: rest =>
      match rest with
      | [] => x
      | _ => x ++ sep ++ join sep rest
      end
  end.

(** An [int] inside an f-string: its decimal digits. *)
Definition str_int (n : Z) : string := pretty n.

Definition _get_crime_summary
    (score : Q) (violent prop_crime recent : Z) : string :=
  if Py.leb 70 score then
    "High crime area with " ++ str_int violent ++ " violent and "
    ++ str_int prop_crime ++ " property crime indices. "
    ++ str_int recent ++ " recent incidents reported."
  else if Py.leb 40 score then
    "Moderate crime levels. " ++ str_int violent ++ " violent crime index, "
    ++ str_int prop_crime ++ " property crime index, "
    ++ str_int recent ++ " recent incidents."
  else
    "Relatively low crime area. " ++ str_int violent
    ++ " violent crime index, " ++ str_int prop_crime
    ++ " property crime index, " ++ str_int recent ++ " recent incidents.".

Definition _get_neighborhood_summary
    (score : Q) (density : Z) (risks : list string) : string :=
  let risks_lower : gset string := list_to_set (Py.lower <$> risks) in
  let risk_items : list string := [] in
  let risk_items :=
    if bool_decide ("nightclub" ∈ risks_lower)
    then (risk_items ++ ["nightlife"])%list else risk_items in
  let risk_items :=
    if bool_decide ("warehouse" ∈ risks_lower)
    then (risk_items ++ ["industrial activity"])%list else risk_items in
  let risk_items :=
    if bool_decide ("school" ∈ risks_lower)
    then (risk_items ++ ["school zone"])%list else risk_items in
  let density_desc :=
    if (5000 <? density)%Z then "high"
    else if (2000 <? density)%Z then "moderate" else "low" in
  match risk_items with
  | _ :: _ =>
      capitalize density_desc ++ " density area (" ++ str_int density
      ++ "/sq mi) with nearby " ++ join ", " risk_items ++ "."
  | [] =>
      capitalize density_desc ++ " population density (" ++ str_int density
      ++ "/sq mi) with minimal nearby risk factors."
  end.

(** The entry ["crime_risk"] of ["summaries"], as [compute_risk_dimensions]
    fills it: from the capped crime risk before it is rounded. *)
Definition crime_risk_summary (crime : Crime.t) : string :=
  let violent := default 0 (Crime.violent_crime_index crime) in
  let prop_crime := default 0 (Crime.property_crime_index crime) in
  let recent := default 0 (Crime.recent_incidents crime) in
  let crime_risk :=
    Py.min (B64.add
              (B64.add (B64.mul (B64.of_int violent) (B64.literal 0.6))
                       (B64.mul (B64.of_int prop_crime) (B64.literal 0.3)))
              (B64.of_int (recent * 3))) 100 in
  _get_crime_summary crime_risk violent prop_crime recent.

(** The entry ["neighborhood_risk"] of ["summaries"]. *)
Definition neighborhood_risk_summary (geo : Geo.t) : string :=
  let population_density := default 3000 (Geo.population_density geo) in
  let nearby_risks := default [] (Geo.nearby_risks geo) in
  let neighborhood_risk := (inject_Z population_density / 100.0)%Q in
  let risks_lower : gset string := list_to_set (Py.lower <$> nearby_risks) in
  let neighborhood_risk :=
    if bool_decide ("nightclub" ∈ risks_lower)
    then (neighborhood_risk + 20)%Q else neighborhood_risk in
  let neighborhood_risk :=
    if bool_decide ("warehouse" ∈ risks_lower)
    then (neighborhood_risk + 15)%Q else neighborhood_risk in
  let neighborhood_risk :=
    if bool_decide ("school" ∈ risks_lower)
    then (neighborhood_risk + 5)%Q else neighborhood_risk in
  let neighborhood_risk := Py.min (Py.max neighborhood_risk 0) 100 in
  _get_neighborhood_summary neighborhood_risk population_density nearby_risks.

(** [math.isfinite(x)] *)
Definition is_finite (x : pyfloat) : bool :=
  match x with
  | Fin _ => true
  | _ => false
  end.

(** * Properties *)


(** ** Python arithmetic *)

Section PyFacts.

Local Open Scope Q_scope.

Lemma ltb_spec (a b : Q) : Py.ltb a b = true <-> a < b.
Proof.
  unfold Py.ltb. rewrite negb_true_iff.
  destruct (Qle_bool b a) eqn:E.
  - apply Qle_bool_iff in E. split; [discriminate | intros H; lra].
  - split; [intros _ | reflexivity].
    apply Qnot_le_lt. intros H. apply Qle_bool_iff in H. congruence.
Qed.

Lemma min_le_l (a b : Q) : Py.min a b <= a.
Proof.
  unfold Py.min. destruct (Qle_bool a b) eqn:E; [lra |].
  assert (~ a <= b) by (rewrite <- Qle_bool_iff; congruence). lra.
Qed.

Lemma min_le_r (a b : Q) : Py.min a b <= b.
Proof.
  unfold Py.min. destruct (Qle_bool a b) eqn:E; [| lra].
  now apply Qle_bool_iff.
Qed.

Lemma min_glb (a b c : Q) : c <= a -> c <= b -> c <= Py.min a b.
Proof. unfold Py.min. destruct (Qle_bool a b); auto. Qed.

Lemma max_ge_l (a b : Q) : a <= Py.max a b.
Proof.
  unfold Py.max. destruct (Qle_bool b a) eqn:E; [lra |].
  assert (~ b <= a) by (rewrite <- Qle_bool_iff; congruence). lra.
Qed.

Lemma max_ge_r (a b : Q) : b <= Py.max a b.
Proof.
  unfold Py.max. destruct (Qle_bool b a) eqn:E; [| lra].
  now apply Qle_bool_iff.
Qed.

Lemma max_lub (a b c : Q) : a <= c -> b <= c -> Py.max a b <= c.
Proof. unfold Py.max. destruct (Qle_bool b a); auto. Qed.

(** Clamping as the sources write it, [min(max(x, lo), hi)]. *)
Lemma clamp_range (x lo hi : Q) :
  lo <= hi -> lo <= Py.min (Py.max x lo) hi <= hi.
Proof.
  intros H. split; [| apply min_le_r].
  apply min_glb; [apply max_ge_r | exact H].
Qed.

(** [round] stays between the floor and the floor plus one. *)
Lemma round_floor (x : Q) :
  (Qfloor x <= Py.round x <= Qfloor x + 1)%Z.
Proof.
  unfold Py.round.
  destruct (x - inject_Z (Qfloor x) ?= 1 # 2); [destruct (Z.even _) | |]; lia.
Qed.

(** [round] returns a nearest integer. *)
Lemma round_nearest (x : Q) : Qabs (inject_Z (Py.round x) - x) <= 1 # 2.
Proof.
  pose proof (Qfloor_le x) as Hlo. pose proof (Qlt_floor x) as Hhi.
  rewrite inject_Z_plus in Hhi. change (inject_Z 1) with 1 in Hhi.
  apply Qabs_Qle_condition. unfold Py.round.
  destruct (x - inject_Z (Qfloor x) ?= 1 # 2) eqn:E.
  - apply Qeq_alt in E.
    destruct (Z.even (Qfloor x));
      rewrite ?inject_Z_plus; change (inject_Z 1) with 1; lra.
  - apply Qlt_alt in E. lra.
  - apply Qgt_alt in E. rewrite inject_Z_plus. change (inject_Z 1) with 1. lra.
Qed.

(** [round] keeps a value inside integer bounds. *)
Lemma round_range (x : Q) (lo hi : Z) :
  inject_Z lo <= x <= inject_Z hi -> (lo <= Py.round x <= hi)%Z.
Proof.
  intros [Hlo Hhi].
  pose proof (round_floor x) as [Hf1 Hf2].
  pose proof (Qfloor_resp_le _ _ Hlo) as Hl. rewrite Qfloor_Z in Hl.
  pose proof (Qfloor_resp_le _ _ Hhi) as Hh. rewrite Qfloor_Z in Hh.
  split; [lia |].
  destruct (Z.eq_dec (Qfloor x) hi) as [Heq | Hne]; [| lia].
  unfold Py.round.
  pose proof (Qfloor_le x) as Hfl. rewrite Heq in *.
  assert (E : (x - inject_Z hi ?= 1 # 2) = Lt).
  { rewrite <- Qlt_alt. clear - Hhi Hfl. lra. }
  rewrite E. lia.
Qed.

(** On an integer, [round] is the identity. *)
Lemma round_Z (z : Z) : Py.round (inject_Z z) = z.
Proof.
  unfold Py.round. rewrite Qfloor_Z.
  assert (E : (inject_Z z - inject_Z z ?= 1 # 2) = Lt)
    by (rewrite <- Qlt_alt; lra).
  now rewrite E.
Qed.

End PyFacts.

(** ** Rounding and clamping are monotone *)

Section Monotone.

Local Open Scope Q_scope.

Lemma round_comp (x y : Q) : x == y -> Py.round x = Py.round y.
Proof.
  intros H. unfold Py.round. rewrite (Qfloor_comp _ _ H).
  assert (E : x - inject_Z (Qfloor y) == y - inject_Z (Qfloor y))
    by (rewrite H; reflexivity).
  now rewrite (Qcompare_comp _ _ E _ _ (Qeq_refl (1 # 2))).
Qed.

Lemma round_mono (x y : Q) : x <= y -> (Py.round x <= Py.round y)%Z.
Proof.
  intros H.
  pose proof (Qfloor_resp_le _ _ H) as Hf.
  pose proof (round_floor x) as [_ Hx]. pose proof (round_floor y) as [Hy _].
  destruct (Z.eq_dec (Qfloor x) (Qfloor y)) as [E | E]; [| lia].
  clear Hx Hy Hf. unfold Py.round. rewrite E.
  destruct (x - inject_Z (Qfloor y) ?= 1 # 2) eqn:Cx;
    destruct (y - inject_Z (Qfloor y) ?= 1 # 2) eqn:Cy;
    try (destruct (Z.even (Qfloor y))); try lia; exfalso;
    first [apply Qeq_alt in Cx | apply Qlt_alt in Cx | apply Qgt_alt in Cx];
    first [apply Qeq_alt in Cy | apply Qlt_alt in Cy | apply Qgt_alt in Cy];
    lra.
Qed.

Lemma min_mono (a b c d : Q) : a <= c -> b <= d -> Py.min a b <= Py.min c d.
Proof.
  intros H1 H2. apply min_glb.
  - apply Qle_trans with a; [apply min_le_l | exact H1].
  - apply Qle_trans with b; [apply min_le_r | exact H2].
Qed.

Lemma max_mono (a b c d : Q) : a <= c -> b <= d -> Py.max a b <= Py.max c d.
Proof.
  intros H1 H2. apply max_lub.
  - apply Qle_trans with c; [exact H1 | apply max_ge_l].
  - apply Qle_trans with d; [exact H2 | apply max_ge_r].
Qed.

Lemma round2_mono (x y : Q) : x <= y -> Py.round2 x <= Py.round2 y.
Proof.
  intros H. unfold Py.round2, Qle. cbn [Qnum Qden].
  apply Z.mul_le_mono_nonneg_r; [lia |].
  apply round_mono. lra.
Qed.

End Monotone.

(** ** Rounding to binary64 *)

Section B64Facts.

Local Open Scope Q_scope.

Lemma two_not_0 : ~ 2 == 0.
Proof. discriminate. Qed.

Lemma pow2_pos (k : Z) : 0 < B64.pow2 k.
Proof. apply Qpower_0_lt. reflexivity. Qed.

Lemma pow2_le (a b : Z) : (a <= b)%Z -> B64.pow2 a <= B64.pow2 b.
Proof. intros H. apply Qpower_le_compat_l; [exact H | discriminate]. Qed.

Lemma pow2_lt_inv (a b : Z) : B64.pow2 a < B64.pow2 b -> (a < b)%Z.
Proof. intros H. eapply Qpower_lt_compat_l_inv; [exact H | reflexivity]. Qed.

Lemma pow2_plus (a b : Z) : B64.pow2 (a + b) == B64.pow2 a * B64.pow2 b.
Proof. apply Qpower_plus, two_not_0. Qed.

Lemma pow2_Z (k : Z) : (0 <= k)%Z -> B64.pow2 k == inject_Z (2 ^ k).
Proof. intros H. unfold B64.pow2. now rewrite Zpower_Qpower. Qed.

Lemma pow2_minus (a b : Z) : B64.pow2 (a - b) == B64.pow2 a / B64.pow2 b.
Proof. apply Qpower_minus, two_not_0. Qed.

(** The exponent brackets a positive rational. *)
Lemma exponent_spec (q : Q) :
  0 < q ->
  B64.pow2 (B64.exponent q) <= q < B64.pow2 (B64.exponent q + 1).
Proof.
  intros Hq. destruct q as [n d].
  assert (Hn : (0 < n)%Z).
  { unfold Qlt in Hq. cbn in Hq. lia. }
  unfold B64.exponent. cbn [Qnum Qden].
  set (a := Z.log2 n). set (b := Z.log2 (Z.pos d)).
  pose proof (Z.log2_spec n Hn) as [Ha1 Ha2]. fold a in Ha1, Ha2.
  pose proof (Z.log2_spec (Z.pos d) ltac:(lia)) as [Hb1 Hb2].
  fold b in Hb1, Hb2.
  pose proof (Z.log2_nonneg n) as Ha0. fold a in Ha0.
  pose proof (Z.log2_nonneg (Z.pos d)) as Hb0. fold b in Hb0.
  assert (Hqd : (n # d) * inject_Z (Z.pos d) == inject_Z n).
  { unfold Qeq, Qmult, inject_Z. cbn. lia. }
  assert (Hup : n # d < B64.pow2 (a - b + 1)).
  { replace (a - b + 1)%Z with ((a + 1) - b)%Z by lia.
    rewrite pow2_minus, !pow2_Z by lia.
    apply Qlt_shift_div_l.
    - change 0 with (inject_Z 0). rewrite <- Zlt_Qlt. lia.
    - apply Qle_lt_trans with (inject_Z n).
      + rewrite <- Hqd. apply Qmult_le_l; [exact Hq |].
        rewrite <- Zle_Qle. exact Hb1.
      + rewrite <- Zlt_Qlt. replace (a + 1)%Z with (Z.succ a) by lia.
        exact Ha2. }
  assert (Hlo : B64.pow2 (a - b - 1) <= n # d).
  { replace (a - b - 1)%Z with (a - (b + 1))%Z by lia.
    rewrite pow2_minus, !pow2_Z by lia.
    apply Qle_shift_div_r.
    - change 0 with (inject_Z 0). rewrite <- Zlt_Qlt. lia.
    - apply Qle_trans with (inject_Z n).
      + rewrite <- Zle_Qle. exact Ha1.
      + rewrite <- Hqd. apply Qmult_le_l; [exact Hq |].
        rewrite <- Zle_Qle. replace (b + 1)%Z with (Z.succ b) by lia. lia. }
  destruct (Qle_bool (B64.pow2 (a - b)) (n # d)) eqn:E.
  - apply Qle_bool_iff in E. split; [exact E | exact Hup].
  - split; [exact Hlo |].
    replace (a - b - 1 + 1)%Z with (a - b)%Z by lia.
    apply Qnot_le_lt. intros H. apply Qle_bool_iff in H. congruence.
Qed.

(** A rounded positive rational stays in its binade. *)
Lemma round_pos_bounds (q : Q) :
  0 < q ->
  B64.pow2 (B64.exponent q) <= B64.round_pos q
  <= B64.pow2 (B64.exponent q + 1).
Proof.
  intros Hq. destruct (exponent_spec q Hq) as [Hlo Hhi].
  unfold B64.round_pos. cbv zeta.
  set (e := B64.exponent q) in *.
  set (ulp := B64.pow2 (e - 52)).
  assert (Hu : 0 < ulp) by apply pow2_pos.
  assert (E52 : B64.pow2 e == inject_Z (2 ^ 52) * ulp).
  { unfold ulp. rewrite <- (pow2_Z 52) by lia. rewrite <- pow2_plus.
    now replace (52 + (e - 52))%Z with e by lia. }
  assert (E53 : B64.pow2 (e + 1) == inject_Z (2 ^ 53) * ulp).
  { unfold ulp. rewrite <- (pow2_Z 53) by lia. rewrite <- pow2_plus.
    now replace (53 + (e - 52))%Z with (e + 1)%Z by lia. }
  split.
  - rewrite E52. apply Qmult_le_compat_r; [| now apply Qlt_le_weak].
    rewrite <- Zle_Qle. rewrite <- (round_Z (2 ^ 52)) at 1.
    apply round_mono. apply Qle_shift_div_l; [exact Hu |].
    now rewrite <- E52.
  - rewrite E53. apply Qmult_le_compat_r; [| now apply Qlt_le_weak].
    rewrite <- Zle_Qle. rewrite <- (round_Z (2 ^ 53)) at 1.
    apply round_mono. apply Qle_shift_div_r; [exact Hu |].
    rewrite <- E53. now apply Qlt_le_weak.
Qed.

Lemma round_pos_pos (q : Q) : 0 < q -> 0 < B64.round_pos q.
Proof.
  intros Hq. eapply Qlt_le_trans; [apply pow2_pos |].
  apply (round_pos_bounds q Hq).
Qed.

(** Rounding is monotone on the positive rationals. *)
Lemma round_pos_mono (q1 q2 : Q) :
  0 < q1 -> q1 <= q2 -> B64.round_pos q1 <= B64.round_pos q2.
Proof.
  intros H1 H12.
  assert (H2 : 0 < q2) by (eapply Qlt_le_trans; eassumption).
  destruct (exponent_spec q1 H1) as [L1 U1].
  destruct (exponent_spec q2 H2) as [L2 U2].
  destruct (round_pos_bounds q1 H1) as [_ B1].
  destruct (round_pos_bounds q2 H2) as [B2 _].
  assert (He : (B64.exponent q1 < B64.exponent q2 + 1)%Z).
  { apply pow2_lt_inv. eapply Qle_lt_trans; [exact L1 |].
    eapply Qle_lt_trans; eassumption. }
  destruct (Z.eq_dec (B64.exponent q1) (B64.exponent q2)) as [E | E].
  - unfold B64.round_pos. cbv zeta. rewrite E.
    apply Qmult_le_compat_r; [| apply Qlt_le_weak, pow2_pos].
    rewrite <- Zle_Qle. apply round_mono.
    apply Qmult_le_compat_r; [exact H12 |].
    apply Qlt_le_weak, Qinv_lt_0_compat, pow2_pos.
  - eapply Qle_trans; [exact B1 |]. eapply Qle_trans; [| exact B2].
    apply pow2_le. lia.
Qed.

(** Rounding to the nearest float is monotone. *)
Lemma fl_mono (q1 q2 : Q) : q1 <= q2 -> B64.fl q1 <= B64.fl q2.
Proof.
  intros H. destruct q1 as [n1 d1], q2 as [n2 d2].
  unfold B64.fl. cbn [Qnum].
  destruct n1 as [| p1 | p1], n2 as [| p2 | p2];
    try (exfalso; unfold Qle in H; cbn in H; lia).
  - apply Qle_refl.
  - apply Qlt_le_weak, round_pos_pos. reflexivity.
  - now apply round_pos_mono.
  - assert (P : 0 < B64.round_pos (- (Z.neg p1 # d1)))
      by (apply round_pos_pos; reflexivity).
    lra.
  - assert (P1 : 0 < B64.round_pos (- (Z.neg p1 # d1)))
      by (apply round_pos_pos; reflexivity).
    assert (P2 : 0 < B64.round_pos (Z.pos p2 # d2))
      by (apply round_pos_pos; reflexivity).
    lra.
  - apply Qopp_le_compat. apply round_pos_mono; [reflexivity |].
    now apply Qopp_le_compat.
Qed.

Lemma fl_0 : B64.fl 0 = 0.
Proof. reflexivity. Qed.

Lemma fl_nonneg (q : Q) : 0 <= q -> 0 <= B64.fl q.
Proof. intros H. rewrite <- fl_0. now apply fl_mono. Qed.

(** One rounding moves a positive rational by at most half a unit in the
    last place, which is at most [eps] times the rational. *)
Lemma round_pos_error (q : Q) :
  0 < q -> q * (1 - eps) <= B64.round_pos q <= q * (1 + eps).
Proof.
  intros Hq. destruct (exponent_spec q Hq) as [Hlo _].
  unfold B64.round_pos. cbv zeta.
  set (e := B64.exponent q) in *.
  set (ulp := B64.pow2 (e - 52)).
  assert (Hu : 0 < ulp) by apply pow2_pos.
  assert (Hh : ulp * (1 # 2) <= q * eps).
  { apply Qle_trans with (B64.pow2 e * eps).
    - unfold eps, ulp. rewrite <- pow2_plus.
      replace (e + -53)%Z with ((e - 52) + -1)%Z by lia.
      rewrite pow2_plus. apply Qle_refl.
    - apply Qmult_le_compat_r; [exact Hlo |].
      apply Qlt_le_weak, pow2_pos. }
  pose proof (round_nearest (q / ulp)) as Hr.
  apply Qabs_Qle_condition in Hr. destruct Hr as [Hr1 Hr2].
  set (n := inject_Z (Py.round (q / ulp))) in *.
  assert (Hq' : q == q / ulp * ulp).
  { field. intros C. rewrite C in Hu. now apply Qlt_irrefl in Hu. }
  set (x := q / ulp) in *.
  assert (A1 : (x - (1 # 2)) * ulp <= n * ulp).
  { apply Qmult_le_compat_r; [lra | now apply Qlt_le_weak]. }
  assert (A2 : n * ulp <= (x + (1 # 2)) * ulp).
  { apply Qmult_le_compat_r; [lra | now apply Qlt_le_weak]. }
  assert (T1 : (x - (1 # 2)) * ulp == q - ulp * (1 # 2))
    by (rewrite Hq' at 1; ring).
  assert (T2 : (x + (1 # 2)) * ulp == q + ulp * (1 # 2))
    by (rewrite Hq' at 1; ring).
  rewrite T1 in A1. rewrite T2 in A2.
  split; lra.
Qed.

Lemma fl_error (q : Q) :
  0 <= q -> q * (1 - eps) <= B64.fl q <= q * (1 + eps).
Proof.
  intros H. destruct q as [n d]. unfold B64.fl. cbn [Qnum].
  destruct n as [| p | p].
  - split; unfold Qle; cbn; lia.
  - apply round_pos_error. reflexivity.
  - exfalso. unfold Qle in H. cbn in H. lia.
Qed.

Lemma eps_range : 0 < eps /\ eps < 1.
Proof. split; reflexivity. Qed.

(** Approximations up to factors, through the float operations. *)
Lemma near_refl (y : Q) : near 1 1 y y.
Proof. unfold near. lra. Qed.

Lemma near_fl (l h x y : Q) :
  0 <= y -> 0 <= l ->
  near l h x y -> near (l * (1 - eps)) (h * (1 + eps)) (B64.fl x) y.
Proof.
  intros Hy Hl [H1 H2]. pose proof eps_range as [E0 E1].
  assert (Hyl : 0 <= y * l) by (apply Qmult_le_0_compat; assumption).
  assert (Hx : 0 <= x) by lra.
  destruct (fl_error x Hx) as [F1 F2].
  split.
  - eapply Qle_trans; [| exact F1].
    rewrite Qmult_assoc. apply Qmult_le_compat_r; [exact H1 | lra].
  - eapply Qle_trans; [exact F2 |].
    rewrite Qmult_assoc. apply Qmult_le_compat_r; [exact H2 | lra].
Qed.

Lemma near_mul (l1 h1 l2 h2 x1 y1 x2 y2 : Q) :
  0 <= y1 -> 0 <= y2 -> 0 <= l1 -> 0 <= l2 ->
  near l1 h1 x1 y1 -> near l2 h2 x2 y2 ->
  near (l1 * l2) (h1 * h2) (x1 * x2) (y1 * y2).
Proof.
  intros Hy1 Hy2 Hl1 Hl2 [A1 A2] [B1 B2].
  assert (P1 : 0 <= y1 * l1) by (apply Qmult_le_0_compat; assumption).
  assert (P2 : 0 <= y2 * l2) by (apply Qmult_le_0_compat; assumption).
  split.
  - assert (T : y1 * y2 * (l1 * l2) == (y1 * l1) * (y2 * l2)) by ring.
    rewrite T. apply Qmult_le_compat_nonneg; split; assumption.
  - assert (T : y1 * y2 * (h1 * h2) == (y1 * h1) * (y2 * h2)) by ring.
    rewrite T. apply Qmult_le_compat_nonneg; split; try assumption; lra.
Qed.

Lemma near_add (l h x1 y1 x2 y2 : Q) :
  near l h x1 y1 -> near l h x2 y2 -> near l h (x1 + x2) (y1 + y2).
Proof.
  intros [A1 A2] [B1 B2]. split.
  - rewrite Qmult_plus_distr_l. lra.
  - rewrite Qmult_plus_distr_l. lra.
Qed.

Lemma near_weaken (l h l' h' x y : Q) :
  0 <= y -> l' <= l -> h <= h' -> near l h x y -> near l' h' x y.
Proof.
  intros Hy Hl Hh [A1 A2]. split.
  - eapply Qle_trans; [| exact A1].
    rewrite !(Qmult_comm y). now apply Qmult_le_compat_r.
  - eapply Qle_trans; [exact A2 |].
    rewrite !(Qmult_comm y). now apply Qmult_le_compat_r.
Qed.

End B64Facts.

(** ** The crime risk in floats *)

Section CrimeRiskFloats.

Local Open Scope Q_scope.

Ltac closed_le := apply Qle_bool_iff; vm_compute; reflexivity.

(** Five roundings lie between the exact value and the float. *)
Lemma float_crime_risk_near (v p r : Z) :
  (0 <= v)%Z -> (0 <= p)%Z -> (0 <= r)%Z ->
  near (1 - (1 # 1000000000000)) (1 + (1 # 1000000000000))
    (float_crime_risk v p r) (exact_crime_risk v p r).
Proof.
  intros Hv Hp Hr.
  assert (Qv : 0 <= inject_Z v) by (now rewrite Zle_Qle in Hv).
  assert (Qp : 0 <= inject_Z p) by (now rewrite Zle_Qle in Hp).
  assert (Qr : 0 <= inject_Z (r * 3)).
  { change 0 with (inject_Z 0). rewrite <- Zle_Qle. lia. }
  unfold float_crime_risk, exact_crime_risk, B64.add, B64.mul, B64.of_int,
    B64.literal.
  pose (l1 := 1 * (1 - eps)). pose (h1 := 1 * (1 + eps)).
  pose (l3 := l1 * l1 * (1 - eps)). pose (h3 := h1 * h1 * (1 + eps)).
  pose (l4 := l3 * (1 - eps)). pose (h4 := h3 * (1 + eps)).
  assert (NV : near l1 h1 (B64.fl (inject_Z v)) (inject_Z v))
    by (apply near_fl; [exact Qv | closed_le | apply near_refl]).
  assert (NP : near l1 h1 (B64.fl (inject_Z p)) (inject_Z p))
    by (apply near_fl; [exact Qp | closed_le | apply near_refl]).
  assert (NR : near l1 h1 (B64.fl (inject_Z (r * 3))) (inject_Z (r * 3)))
    by (apply near_fl; [exact Qr | closed_le | apply near_refl]).
  assert (N6 : near l1 h1 (B64.fl 0.6) 0.6)
    by (apply near_fl; [closed_le | closed_le | apply near_refl]).
  assert (N3 : near l1 h1 (B64.fl 0.3) 0.3)
    by (apply near_fl; [closed_le | closed_le | apply near_refl]).
  assert (Q6 : 0 <= inject_Z v * 0.6)
    by (apply Qmult_le_0_compat; [exact Qv | closed_le]).
  assert (Q3 : 0 <= inject_Z p * 0.3)
    by (apply Qmult_le_0_compat; [exact Qp | closed_le]).
  assert (FV : near l3 h3 (B64.fl (B64.fl (inject_Z v) * B64.fl 0.6))
                 (inject_Z v * 0.6)).
  { apply near_fl; [exact Q6 | closed_le |].
    apply near_mul; try assumption; closed_le. }
  assert (FP : near l3 h3 (B64.fl (B64.fl (inject_Z p) * B64.fl 0.3))
                 (inject_Z p * 0.3)).
  { apply near_fl; [exact Q3 | closed_le |].
    apply near_mul; try assumption; closed_le. }
  assert (Q1 : 0 <= inject_Z v * 0.6 + inject_Z p * 0.3) by lra.
  assert (F1 : near l4 h4
                 (B64.fl (B64.fl (B64.fl (inject_Z v) * B64.fl 0.6)
                          + B64.fl (B64.fl (inject_Z p) * B64.fl 0.3)))
                 (inject_Z v * 0.6 + inject_Z p * 0.3)).
  { apply near_fl; [exact Q1 | closed_le |]. now apply near_add. }
  assert (NR' : near l4 h4 (B64.fl (inject_Z (r * 3))) (inject_Z (r * 3))).
  { apply (near_weaken l1 h1); [exact Qr | closed_le | closed_le | exact NR]. }
  assert (Q2 : 0 <= inject_Z v * 0.6 + inject_Z p * 0.3 + inject_Z (r * 3))
    by lra.
  assert (F2 : near (l4 * (1 - eps)) (h4 * (1 + eps))
                 (B64.fl
                    (B64.fl (B64.fl (B64.fl (inject_Z v) * B64.fl 0.6)
                             + B64.fl (B64.fl (inject_Z p) * B64.fl 0.3))
                     + B64.fl (inject_Z (r * 3))))
                 (inject_Z v * 0.6 + inject_Z p * 0.3 + inject_Z (r * 3))).
  { apply near_fl; [exact Q2 | closed_le |]. now apply near_add. }
  apply (near_weaken _ _ (1 - (1 # 1000000000000)) (1 + (1 # 1000000000000)))
    in F2; [| exact Q2 | closed_le | closed_le].
  assert (E3 : inject_Z (r * 3) == inject_Z r * 3).
  { rewrite inject_Z_mult. reflexivity. }
  unfold near in *. rewrite <- E3. exact F2.
Qed.

Lemma exact_crime_risk_tenths (v p r : Z) :
  exact_crime_risk v p r * 10 == inject_Z (6 * v + 3 * p + 30 * r).
Proof.
  unfold exact_crime_risk.
  rewrite !inject_Z_plus, !inject_Z_mult.
  change (inject_Z 6) with 6. change (inject_Z 3) with 3.
  change (inject_Z 30) with 30. lra.
Qed.

(** An integer within less than 6/10 of a multiple of 1/10 is within 1/2
    of it. *)
Lemma integer_near_tenths (n m : Z) (h : Q) :
  h * 10 == inject_Z m ->
  Qabs (inject_Z n - h) <= 55 # 100 ->
  Qabs (inject_Z n - h) <= 1 # 2.
Proof.
  intros Hm H. apply Qabs_Qle_condition in H. destruct H as [H1 H2].
  apply Qabs_Qle_condition.
  assert (A : inject_Z (10 * n - m) < inject_Z 6).
  { unfold Zminus. rewrite inject_Z_plus, inject_Z_mult, inject_Z_opp.
    change (inject_Z 10) with 10. change (inject_Z 6) with 6. lra. }
  assert (B : inject_Z (-6) < inject_Z (10 * n - m)).
  { unfold Zminus. rewrite inject_Z_plus, inject_Z_mult, inject_Z_opp.
    change (inject_Z 10) with 10. change (inject_Z (-6)) with (-6). lra. }
  rewrite <- Zlt_Qlt in A, B.
  assert (A' : inject_Z (10 * n - m) <= inject_Z 5)
    by (rewrite <- Zle_Qle; lia).
  assert (B' : inject_Z (-5) <= inject_Z (10 * n - m))
    by (rewrite <- Zle_Qle; lia).
  unfold Zminus in A', B'.
  rewrite inject_Z_plus, inject_Z_mult, inject_Z_opp in A', B'.
  change (inject_Z 10) with 10 in A', B'.
  change (inject_Z 5) with 5 in A'. change (inject_Z (-5)) with (-5) in B'.
  split; lra.
Qed.

(** With no negative input, the integer that the floats give is a nearest
    integer of the exact capped value. *)
Lemma crime_risk_nearest (v p r : Z) :
  (0 <= v)%Z -> (0 <= p)%Z -> (0 <= r)%Z ->
  Qabs (inject_Z (Py.round (Py.min (float_crime_risk v p r) 100))
        - Py.min (exact_crime_risk v p r) 100) <= 1 # 2.
Proof.
  intros Hv Hp Hr.
  destruct (float_crime_risk_near v p r Hv Hp Hr) as [N1 N2].
  pose proof (exact_crime_risk_tenths v p r) as Ht.
  assert (He : 0 <= exact_crime_risk v p r).
  { rewrite Zle_Qle in Hv, Hp, Hr. unfold exact_crime_risk.
    change (inject_Z 0) with 0 in *. lra. }
  set (f := float_crime_risk v p r) in *.
  set (e := exact_crime_risk v p r) in *.
  destruct (Qlt_le_dec e 101) as [Hsmall | Hbig].
  - (* below the cap, or just above it *)
    pose proof (round_nearest (Py.min f 100)) as Hr1.
    apply Qabs_Qle_condition in Hr1. destruct Hr1 as [R1 R2].
    set (n := inject_Z (Py.round (Py.min f 100))) in *.
    assert (Hg : Qabs (Py.min f 100 - Py.min e 100) <= 5 # 100).
    { apply Qabs_Qle_condition. unfold Py.min.
      destruct (Qle_bool f 100) eqn:Ef, (Qle_bool e 100) eqn:Ee;
        try (apply Qle_bool_iff in Ef); try (apply Qle_bool_iff in Ee);
        try (assert (~ f <= 100) by (rewrite <- Qle_bool_iff; congruence));
        try (assert (~ e <= 100) by (rewrite <- Qle_bool_iff; congruence));
        split; lra. }
    apply Qabs_Qle_condition in Hg. destruct Hg as [G1 G2].
    destruct (Qle_bool e 100) eqn:Ee.
    + apply (integer_near_tenths _ (6 * v + 3 * p + 30 * r)).
      * unfold Py.min. rewrite Ee. exact Ht.
      * apply Qabs_Qle_condition. fold n. split; lra.
    + apply (integer_near_tenths _ 1000).
      * unfold Py.min. rewrite Ee. reflexivity.
      * apply Qabs_Qle_condition. fold n. split; lra.
  - (* far above the cap *)
    assert (Hf : 100 <= f) by lra.
    assert (Hn : Py.round (Py.min f 100) = 100%Z).
    { assert (B : (100 <= Py.round (Py.min f 100) <= 100)%Z); [| lia].
      apply round_range. split.
      - apply min_glb; [exact Hf | apply Qle_refl].
      - apply min_le_r. }
    rewrite Hn. change (inject_Z 100) with 100. unfold Py.min.
    destruct (Qle_bool e 100) eqn:Ee.
    + apply Qle_bool_iff in Ee. lra.
    + apply Qabs_Qle_condition. split; lra.
Qed.

End CrimeRiskFloats.

(** ** Aggregation *)

Lemma string_eqb_false (a b : string) : a <> b -> (a =? b)%string = false.
Proof. intros H. now apply String.eqb_neq. Qed.

(** The confidence is read off the two source tags by the three branches of
    the code, in their order. *)
Lemma confidence_table (dim : gmap string Z) (c : Crime.t) (g : Geo.t) :
  let conf := snd (compute_overall_score dim c g) in
  (crime_source_of c <> "simulated" -> geo_source_of g <> "simulated" ->
   conf = 1.0%Q) /\
  (crime_source_of c = "simulated" -> geo_source_of g <> "simulated" ->
   conf = 0.7%Q) /\
  (geo_source_of g = "simulated" -> conf = 0.5%Q).
Proof.
  unfold compute_overall_score, crime_source_of, geo_source_of. cbn [snd].
  repeat split.
  - intros Hc Hg.
    now rewrite (string_eqb_false _ _ Hc), (string_eqb_false _ _ Hg).
  - intros Hc Hg. rewrite Hc, (string_eqb_false _ _ Hg). reflexivity.
  - intros Hg. rewrite Hg. cbn.
    now rewrite !andb_false_r.
Qed.

(** C1.  With a real crime source and a simulated geolocation the code
    answers 0.5, although with a simulated crime source and a real
    geolocation it answers 0.7: the two sources are not treated
    symmetrically, and "exactly one real" does not always give 0.7. *)
Theorem confidence_real_crime_simulated_geo (dim : gmap string Z) :
  snd (compute_overall_score dim (crime_tagged "chicago_api_realtime")
         (geo_tagged "simulated")) = 0.5%Q
  /\ snd (compute_overall_score dim (crime_tagged "simulated")
            (geo_tagged "nominatim")) = 0.7%Q.
Proof. split; reflexivity. Qed.

(** C2.  Only the literal tag "simulated" counts as simulated.  With the
    crime tag "simulated_error" and the geolocation tag
    "simulated_empty_address" or "simulated_fallback", all of the simulated
    family, the code answers the confidence of two real sources; and the
    confidence is not a function of membership in the family, since it
    tells "simulated" from "simulated_error". *)
Theorem confidence_simulated_family_counts_as_real
    (dim : gmap string Z) (c : Crime.t) (g : Geo.t) :
  is_simulated_family "simulated_error" = true
  /\ is_simulated_family "simulated_empty_address" = true
  /\ is_simulated_family "simulated_fallback" = true
  /\ snd (compute_overall_score dim (Crime.set_source "simulated_error" c)
            (Geo.set_source "simulated_empty_address" g)) = 1.0%Q
  /\ snd (compute_overall_score dim (Crime.set_source "simulated_error" c)
            (Geo.set_source "simulated_fallback" g)) = 1.0%Q
  /\ ~ (forall (c1 c2 : Crime.t) (g1 g2 : Geo.t),
          is_simulated_family (crime_source_of c1)
          = is_simulated_family (crime_source_of c2) ->
          is_simulated_family (geo_source_of g1)
          = is_simulated_family (geo_source_of g2) ->
          snd (compute_overall_score dim c1 g1)
          = snd (compute_overall_score dim c2 g2)).
Proof.
  repeat split; try reflexivity.
  intros H.
  specialize (H (crime_tagged "simulated") (crime_tagged "simulated_error")
                (geo_tagged "nominatim") (geo_tagged "nominatim")
                eq_refl eq_refl).
  discriminate H.
Qed.

(** With every provider down the geolocation is simulated and tagged
    "simulated_fallback", the crime data are estimated from the simulated
    coordinates, and the confidence is still that of two real sources. *)
Lemma offline_pipeline_confidence :
  exists geo s1 crime s2,
    get_geolocation_info offline_world "12 Main St" initial_state
    = (Ok geo, s1)
    /\ Geo.source geo = Some "simulated_fallback"
    /\ get_crime_data offline_world "12 Main St" (Geo.latitude geo)
         (Geo.longitude geo) None s1 = (Ok crime, s2)
    /\ Crime.source crime = Some "coordinate_estimation_urban"
    /\ forall dim, snd (compute_overall_score dim crime geo) = 1.0%Q.
Proof.
  do 4 eexists. split; [vm_compute; reflexivity |].
  split; [reflexivity |]. split; [vm_compute; reflexivity |].
  split; [reflexivity |]. intros dim. reflexivity.
Qed.

(** The weighted sum of the example, before and after rounding. *)
Lemma example_weighted_sum :
  (50 * 0.35 + 40 * 0.25 + 30 * 0.15 + 20 * 0.15 + 10 * 0.10 == 36.0)%Q
  /\ (Py.round2 (50 * 0.35 + 40 * 0.25 + 30 * 0.15 + 20 * 0.15 + 10 * 0.10)
      == 36.0)%Q.
Proof. split; vm_compute; reflexivity. Qed.

(** C3, as stated: the overall score of the example is not 36.5. *)
Lemma example_overall_score_is_not_36_5 :
  ~ ((fst (compute_overall_score example_dims
             (crime_tagged "chicago_api_realtime") (geo_tagged "google_maps"))
      == 36.5)%Q
     /\ snd (compute_overall_score example_dims
               (crime_tagged "chicago_api_realtime") (geo_tagged "google_maps"))
        = 1.0%Q).
Proof. intros [H _]. vm_compute in H. discriminate H. Qed.

(** C3, amended.  For the example dimensions and two sources that are not
    simulated, the overall score is 36.0, which is the weighted sum
    50*0.35 + 40*0.25 + 30*0.15 + 20*0.15 + 10*0.10 rounded to two decimals,
    and the confidence is 1.0. *)
Theorem example_overall_score (c : Crime.t) (g : Geo.t) :
  crime_source_of c <> "simulated" ->
  geo_source_of g <> "simulated" ->
  (fst (compute_overall_score example_dims c g) == 36.0)%Q
  /\ (fst (compute_overall_score example_dims c g)
      == Py.round2
           (50 * 0.35 + 40 * 0.25 + 30 * 0.15 + 20 * 0.15 + 10 * 0.10))%Q
  /\ snd (compute_overall_score example_dims c g) = 1.0%Q.
Proof.
  intros Hc Hg. split; [| split].
  - vm_compute. reflexivity.
  - vm_compute. reflexivity.
  - now apply confidence_table.
Qed.

(** The amended C3 at the tags of the Chicago portal and of Google. *)
Lemma example_overall_score_witness :
  crime_source_of (crime_tagged "chicago_api_realtime") <> "simulated"
  /\ geo_source_of (geo_tagged "google_maps") <> "simulated"
  /\ (fst (compute_overall_score example_dims
             (crime_tagged "chicago_api_realtime") (geo_tagged "google_maps"))
      == 36.0)%Q
  /\ snd (compute_overall_score example_dims
            (crime_tagged "chicago_api_realtime") (geo_tagged "google_maps"))
     = 1.0%Q.
Proof.
  assert (Hc : crime_source_of (crime_tagged "chicago_api_realtime")
               <> "simulated") by (vm_compute; discriminate).
  assert (Hg : geo_source_of (geo_tagged "google_maps") <> "simulated")
    by (vm_compute; discriminate).
  split; [exact Hc | split; [exact Hg |]].
  pose proof (example_overall_score _ _ Hc Hg) as [H1 [_ H3]].
  split; [exact H1 | exact H3].
Defined.

(** ** Dimension scores *)

Section Dimensions.

Variables (crime : Crime.t) (geo : Geo.t) (prop : PropertyInfo.t).
Variables (property_type : string) (fenced gated : bool).
Variables (hours notes : option string).

Let dims : gmap string Z :=
  compute_risk_dimensions crime geo prop property_type fenced gated hours notes.

(** The crime entry of the result is the rounded, capped raw crime risk. *)
Lemma crime_risk_lookup :
  dims !! "crime_risk" = Some (Py.round (Py.min (raw_crime_risk crime) 100)).
Proof. reflexivity. Qed.

(** The two integer dimensions are clamped with [Z.min] and [Z.max]. *)
Lemma property_exposure_risk_range :
  exists v, dims !! "property_exposure_risk" = Some v /\ 0 <= v <= 100.
Proof.
  unfold dims, compute_risk_dimensions. cbv zeta.
  rewrite lookup_insert_ne by discriminate. rewrite lookup_insert_eq.
  eexists. split; [reflexivity | lia].
Qed.

Lemma accessibility_risk_range :
  exists v, dims !! "accessibility_risk" = Some v /\ 0 <= v <= 100.
Proof.
  unfold dims, compute_risk_dimensions. cbv zeta.
  do 2 (rewrite lookup_insert_ne by discriminate). rewrite lookup_insert_eq.
  eexists. split; [reflexivity | lia].
Qed.

(** The two float dimensions are clamped, then rounded. *)
Lemma neighborhood_risk_range :
  exists v, dims !! "neighborhood_risk" = Some v /\ 0 <= v <= 100.
Proof.
  unfold dims, compute_risk_dimensions. cbv zeta.
  do 3 (rewrite lookup_insert_ne by discriminate). rewrite lookup_insert_eq.
  eexists. split; [reflexivity |].
  apply round_range. apply (clamp_range _ 0 100)%Q. discriminate.
Qed.

Lemma operational_risk_range :
  exists v, dims !! "operational_risk" = Some v /\ 0 <= v <= 100.
Proof.
  unfold dims, compute_risk_dimensions. cbv zeta.
  do 4 (rewrite lookup_insert_ne by discriminate). rewrite lookup_insert_eq.
  eexists. split; [reflexivity |].
  apply round_range. apply (clamp_range _ 0 100)%Q. discriminate.
Qed.

(** Without negative inputs the raw crime risk is not negative. *)
Lemma raw_crime_risk_nonneg :
  0 <= default 0 (Crime.violent_crime_index crime) ->
  0 <= default 0 (Crime.property_crime_index crime) ->
  0 <= default 0 (Crime.recent_incidents crime) ->
  (0 <= raw_crime_risk crime)%Q.
Proof.
  intros Hv Hp Hr.
  unfold raw_crime_risk, float_crime_risk, B64.add, B64.mul, B64.of_int,
    B64.literal.
  set (v := default 0 (Crime.violent_crime_index crime)) in *.
  set (p := default 0 (Crime.property_crime_index crime)) in *.
  set (r := default 0 (Crime.recent_incidents crime)) in *.
  assert (Hr3 : 0 <= r * 3) by lia.
  rewrite Zle_Qle in Hv, Hp, Hr3. change (inject_Z 0) with 0%Q in *.
  assert (Av : (0 <= B64.fl (B64.fl (inject_Z v) * B64.fl 0.6))%Q).
  { apply fl_nonneg, Qmult_le_0_compat; apply fl_nonneg;
      [exact Hv | discriminate]. }
  assert (Ap : (0 <= B64.fl (B64.fl (inject_Z p) * B64.fl 0.3))%Q).
  { apply fl_nonneg, Qmult_le_0_compat; apply fl_nonneg;
      [exact Hp | discriminate]. }
  assert (Ar : (0 <= B64.fl (inject_Z (r * 3)))%Q)
    by (apply fl_nonneg; exact Hr3).
  apply fl_nonneg.
  assert (As : (0 <= B64.fl (B64.fl (B64.fl (inject_Z v) * B64.fl 0.6)
                             + B64.fl (B64.fl (inject_Z p) * B64.fl 0.3)))%Q)
    by (apply fl_nonneg; lra).
  lra.
Qed.

(** The crime dimension needs no lower clamp when the inputs are not
    negative. *)
Lemma crime_risk_range :
  0 <= default 0 (Crime.violent_crime_index crime) ->
  0 <= default 0 (Crime.property_crime_index crime) ->
  0 <= default 0 (Crime.recent_incidents crime) ->
  exists v, dims !! "crime_risk" = Some v /\ 0 <= v <= 100.
Proof.
  intros Hv Hp Hr. eexists. split; [apply crime_risk_lookup |].
  apply round_range. split.
  - apply min_glb; [now apply raw_crime_risk_nonneg | discriminate].
  - apply min_le_r.
Qed.

End Dimensions.

(** The worked values of the repository's scoring tests, on a category
    without adjustment. *)
Example exposure_unfenced_ungated :
  compute_risk_dimensions (crime_tagged "nypd_api") (geo_tagged "nominatim")
    (PropertyInfo.mk (Some 25)) "rental" false false None None
  !! "property_exposure_risk" = Some 45.
Proof. reflexivity. Qed.

Example exposure_fenced_gated :
  compute_risk_dimensions (crime_tagged "nypd_api") (geo_tagged "nominatim")
    (PropertyInfo.mk (Some 25)) "rental" true true None None
  !! "property_exposure_risk" = Some 15.
Proof. reflexivity. Qed.

Example accessibility_urban_unfenced :
  compute_risk_dimensions (crime_tagged "nypd_api")
    (Geo.mk None None (Some "urban") None None None None)
    (PropertyInfo.mk (Some 25)) "rental" false false None None
  !! "accessibility_risk" = Some 70.
Proof. reflexivity. Qed.

Example accessibility_suburban_fenced :
  compute_risk_dimensions (crime_tagged "nypd_api")
    (Geo.mk None None (Some "suburban") None None None None)
    (PropertyInfo.mk (Some 25)) "rental" true false None None
  !! "accessibility_risk" = Some 35.
Proof. reflexivity. Qed.

Example operational_all_day_with_theft :
  compute_risk_dimensions (crime_tagged "nypd_api") (geo_tagged "nominatim")
    (PropertyInfo.mk (Some 25)) "business" false false (Some "24/7")
    (Some "previous Theft in the area")
  !! "operational_risk" = Some 70.
Proof. vm_compute. reflexivity. Qed.

Example neighborhood_is_capped :
  compute_risk_dimensions (crime_tagged "nypd_api")
    (Geo.mk None None None (Some 20000)
       (Some ["nightclub"; "warehouse"; "school"]) None None)
    (PropertyInfo.mk (Some 25)) "business" false false None None
  !! "neighborhood_risk" = Some 100.
Proof. vm_compute. reflexivity. Qed.

Lemma in_range_default (lo hi : Z) (o : option Z) :
  lo <= 0 <= hi -> in_range lo hi o -> lo <= default 0 o <= hi.
Proof. destruct o; simpl; lia. Qed.

(** The overall score is clamped to [0, 100] whatever the dimensions are. *)
Lemma overall_score_range (dim : gmap string Z) (c : Crime.t) (g : Geo.t) :
  (0 <= fst (compute_overall_score dim c g) <= 100)%Q.
Proof.
  unfold compute_overall_score. cbn [fst]. split.
  - apply Qle_trans with 0.0%Q; [discriminate | apply max_ge_l].
  - apply max_lub; [discriminate |].
    apply Qle_trans with 100.0%Q; [apply min_le_l | discriminate].
Qed.

(** The confidence takes one of three values. *)
Lemma confidence_values (dim : gmap string Z) (c : Crime.t) (g : Geo.t) :
  snd (compute_overall_score dim c g) = 0.5%Q
  \/ snd (compute_overall_score dim c g) = 0.7%Q
  \/ snd (compute_overall_score dim c g) = 1.0%Q.
Proof.
  unfold compute_overall_score. cbn [snd].
  destruct (default "simulated" (Crime.source c) =? "simulated")%string,
           (default "simulated" (Geo.source g) =? "simulated")%string;
    cbn; auto.
Qed.

(** C4.  For a valid input (crime indices in [0, 100], recent incidents in
    [0, 30], population density not negative; any property type, flags,
    hours and notes) each of the five dimension scores of
    [compute_risk_dimensions] lies in [0, 100], the overall score that
    [compute_overall_score] computes from them lies in [0, 100], and the
    confidence is one of 0.5, 0.7 and 1.0. *)
Theorem scores_in_range
    (crime : Crime.t) (geo : Geo.t) (prop : PropertyInfo.t)
    (property_type : string)
    (fenced gated : bool) (hours notes : option string) :
  valid_crime crime ->
  valid_geo geo ->
  let dims :=
    compute_risk_dimensions crime geo prop property_type fenced gated
      hours notes in
  let result := compute_overall_score dims crime geo in
  (forall key, In key dimension_keys ->
     exists v, dims !! key = Some v /\ 0 <= v <= 100)
  /\ (0 <= fst result <= 100)%Q
  /\ (snd result = 0.5%Q \/ snd result = 0.7%Q \/ snd result = 1.0%Q).
Proof.
  intros (Hv & Hp & Hr) _ dims result. split; [| split].
  - intros key Hkey. simpl in Hkey.
    destruct Hkey as [<- | [<- | [<- | [<- | [<- | []]]]]].
    + apply crime_risk_range.
      * apply (in_range_default 0 100); [lia | exact Hv].
      * apply (in_range_default 0 100); [lia | exact Hp].
      * apply (in_range_default 0 30); [lia | exact Hr].
    + apply property_exposure_risk_range.
    + apply accessibility_risk_range.
    + apply neighborhood_risk_range.
    + apply operational_risk_range.
  - apply overall_score_range.
  - apply confidence_values.
Qed.

(** C7.  The crime dimension is min(violent*0.6 + property*0.3 + recent*3,
    100) rounded to a nearest integer.  The scorer evaluates the formula in
    floats, caps the value and rounds it; when no input is negative the
    integer is also within 1/2 of the capped value of the formula over the
    reals.  For violent = 50, property = 40, recent = 10 the raw value is 72
    and the score 72; and when no input is negative the score is not
    negative (and at most 100). *)
Theorem crime_risk_dimension
    (crime : Crime.t) (geo : Geo.t) (prop : PropertyInfo.t)
    (property_type : string)
    (fenced gated : bool) (hours notes : option string) :
  let violent := default 0 (Crime.violent_crime_index crime) in
  let property := default 0 (Crime.property_crime_index crime) in
  let recent := default 0 (Crime.recent_incidents crime) in
  let raw :=
    (inject_Z violent * 0.6 + inject_Z property * 0.3
     + inject_Z recent * 3)%Q in
  let computed := float_crime_risk violent property recent in
  exists (capped : Q) (score : Z),
    compute_risk_dimensions crime geo prop property_type fenced gated
      hours notes !! "crime_risk" = Some score
    (* the cap *)
    /\ ((computed <= 100)%Q -> capped = computed)
    /\ ((100 < computed)%Q -> capped = 100%Q)
    (* rounding to a nearest integer *)
    /\ score = Py.round capped
    /\ (Qabs (inject_Z score - capped) <= 1 # 2)%Q
    (* a nearest integer of the formula over the reals *)
    /\ (0 <= violent -> 0 <= property -> 0 <= recent ->
        (Qabs (inject_Z score - Py.min raw 100) <= 1 # 2)%Q)
    (* the worked example *)
    /\ (violent = 50 -> property = 40 -> recent = 10 ->
        (raw == 72.0)%Q /\ (computed == 72.0)%Q /\ score = 72)
    (* no lower clamp is needed *)
    /\ (0 <= violent -> 0 <= property -> 0 <= recent -> 0 <= score <= 100).
Proof.
  intros violent property recent raw computed.
  exists (Py.min computed 100), (Py.round (Py.min computed 100)).
  split; [reflexivity |].
  split; [| split; [| split; [| split; [| split; [| split]]]]].
  - intros H. unfold Py.min. apply Qle_bool_iff in H. now rewrite H.
  - intros H. unfold Py.min.
    destruct (Qle_bool computed 100) eqn:E; [| reflexivity].
    apply Qle_bool_iff in E. lra.
  - reflexivity.
  - apply round_nearest.
  - intros Hv Hp Hr. now apply crime_risk_nearest.
  - intros Hv Hp Hr. subst raw computed. rewrite Hv, Hp, Hr.
    repeat split; vm_compute; reflexivity.
  - intros Hv Hp Hr.
    destruct (crime_risk_range crime geo prop property_type fenced gated
                hours notes Hv Hp Hr) as (v & Hlook & Hrange).
    rewrite crime_risk_lookup in Hlook. inversion Hlook; subst v.
    exact Hrange.
Qed.

(** C7 at the worked example. *)
Lemma crime_risk_dimension_witness :
  compute_risk_dimensions
    (Crime.mk (Some 50) (Some 40) (Some 10) (Some "nypd_api") None None)
    (geo_tagged "nominatim") (PropertyInfo.mk (Some 25)) "home" false false
    None None
    !! "crime_risk" = Some 72.
Proof.
  destruct (crime_risk_dimension
              (Crime.mk (Some 50) (Some 40) (Some 10) (Some "nypd_api")
                 None None)
              (geo_tagged "nominatim") (PropertyInfo.mk (Some 25)) "home"
              false false None None)
    as (capped & score & Hlook & _ & _ & _ & _ & _ & Hex & _).
  destruct (Hex eq_refl eq_refl eq_refl) as (_ & _ & Hs).
  rewrite Hs in Hlook. exact Hlook.
Defined.

(** Where the formula over the reals gives a tie, the floats decide: for
    violent = 1, property = 23, recent = 0 the exact value is 7.5, the float
    lies just below it and the score is 7. *)
Example crime_risk_at_a_tie :
  (exact_crime_risk 1 23 0 == 7.5)%Q
  /\ (float_crime_risk 1 23 0 < 7.5)%Q
  /\ compute_risk_dimensions
       (Crime.mk (Some 1) (Some 23) (Some 0) (Some "nypd_api") None None)
       (geo_tagged "nominatim") (PropertyInfo.mk (Some 25)) "home" false
       false None None
     !! "crime_risk" = Some 7.
Proof. repeat split; vm_compute; reflexivity. Qed.

(** C4 at a vacation home in an urban area, open all day, with a theft
    noted. *)
Lemma scores_in_range_witness :
  let crime :=
    Crime.mk (Some 50) (Some 40) (Some 10) (Some "nypd_api") None None in
  let geo :=
    Geo.mk (Some (Fin 40.7)) (Some (Fin (-74.0))) (Some "urban") (Some 8000)
      (Some ["nightclub"; "warehouse"; "school"]) (Some "nominatim")
      (Some (PyStr "New York")) in
  let dims :=
    compute_risk_dimensions crime geo (get_property_info "vacation home")
      "vacation home" false false (Some "24/7") (Some "recent theft") in
  valid_crime crime /\ valid_geo geo
  /\ (exists v, dims !! "operational_risk" = Some v /\ 0 <= v <= 100)
  /\ (0 <= fst (compute_overall_score dims crime geo) <= 100)%Q.
Proof.
  intros crime geo dims.
  assert (Hc : valid_crime crime) by (vm_compute; intuition discriminate).
  assert (Hg : valid_geo geo) by (vm_compute; discriminate).
  pose proof (scores_in_range crime geo (get_property_info "vacation home")
                "vacation home" false false (Some "24/7")
                (Some "recent theft") Hc Hg) as (Hd & Ho & _).
  split; [exact Hc | split; [exact Hg | split; [| exact Ho]]].
  apply Hd. simpl. tauto.
Defined.

(** ** Recommendations *)

Lemma ltb_false_iff (a b : Q) : Py.ltb a b = false <-> (b <= a)%Q.
Proof.
  unfold Py.ltb. rewrite negb_false_iff. apply Qle_bool_iff.
Qed.

(** C8.  The tiers of [generate_recommendations] have strict lower bounds
    and are exclusive and exhaustive: above 75 the advanced list of five,
    above 60 and up to 75 the enhanced list of three, above 40 and up to 60
    the standard list of three, otherwise the single baseline advisory.  The
    result is never empty; 75.0 does not get the advanced list, 75.01
    does. *)
Theorem recommendation_tiers (score : Q) :
  ((75 < score)%Q -> generate_recommendations score = advanced_list)
  /\ ((60 < score <= 75)%Q -> generate_recommendations score = enhanced_list)
  /\ ((40 < score <= 60)%Q -> generate_recommendations score = standard_list)
  /\ ((score <= 40)%Q -> generate_recommendations score = baseline_list)
  /\ generate_recommendations score <> []
  /\ (length advanced_list = 5 /\ length enhanced_list = 3
      /\ length standard_list = 3 /\ length baseline_list = 1)%nat
  /\ generate_recommendations 75.0 <> advanced_list
  /\ generate_recommendations 75.01 = advanced_list.
Proof.
  unfold generate_recommendations.
  split; [| split; [| split; [| split; [| split; [| split; [| split]]]]]].
  - intros H. apply ltb_spec in H. now rewrite H.
  - intros [H1 H2]. apply ltb_spec in H1. apply ltb_false_iff in H2.
    now rewrite H2, H1.
  - intros [H1 H2]. apply ltb_spec in H1.
    assert (H3 : Py.ltb 75 score = false) by (apply ltb_false_iff; lra).
    apply ltb_false_iff in H2. now rewrite H3, H2, H1.
  - intros H.
    assert (H3 : Py.ltb 75 score = false) by (apply ltb_false_iff; lra).
    assert (H2 : Py.ltb 60 score = false) by (apply ltb_false_iff; lra).
    apply ltb_false_iff in H. now rewrite H3, H2, H.
  - destruct (Py.ltb 75 score); [discriminate |].
    destruct (Py.ltb 60 score); [discriminate |].
    destruct (Py.ltb 40 score); discriminate.
  - repeat split.
  - vm_compute. discriminate.
  - reflexivity.
Qed.

(** C8 at the score 75.01. *)
Lemma recommendation_tiers_witness :
  (75 < 75.01)%Q /\ generate_recommendations 75.01 = advanced_list.
Proof.
  assert (H : (75 < 75.01)%Q) by reflexivity.
  split; [exact H |].
  exact (proj1 (recommendation_tiers 75.01) H).
Defined.

(** ** The effect monad *)

Section MonadFacts.

Context {A B : Type}.

Lemma returns_ret (a : A) : returns (ret a).
Proof. intros s. now exists a, s. Qed.

Lemma returns_bind (m : M A) (k : A -> M B) :
  returns m -> (forall a, returns (k a)) -> returns (bind m k).
Proof.
  intros Hm Hk s. destruct (Hm s) as (a & s1 & E).
  destruct (Hk a s1) as (b & s2 & E2).
  exists b, s2. unfold bind. now rewrite E.
Qed.

(** A [try] whose handler returns absorbs every exception of its body. *)
Lemma returns_try_except (m : M A) (h : exn -> M A) :
  (forall e, returns (h e)) -> returns (try_except m h).
Proof.
  intros Hh s. unfold try_except.
  destruct (m s) as [[a | e] s1].
  - now exists a, s1.
  - apply Hh.
Qed.

Lemma try_except_ok (m : M A) (h : exn -> M A) (s s1 : state) (a : A) :
  m s = (Ok a, s1) -> try_except m h s = (Ok a, s1).
Proof. intros E. unfold try_except. now rewrite E. Qed.

Lemma try_except_raise (m : M A) (h : exn -> M A) (s s1 : state) (e : exn) :
  m s = (Raise e, s1) -> try_except m h s = h e s1.
Proof. intros E. unfold try_except. now rewrite E. Qed.

Lemma extends_ret (a : A) : extends_trace (ret a).
Proof.
  intros s r s' E. inversion E; subst. exists []. now rewrite app_nil_r.
Qed.

Lemma extends_raise (e : exn) : extends_trace (@raise A e).
Proof.
  intros s r s' E. inversion E; subst. exists []. now rewrite app_nil_r.
Qed.

Lemma extends_lift (r : result A) : extends_trace (lift r).
Proof.
  intros s r' s' E. inversion E; subst. exists []. now rewrite app_nil_r.
Qed.

Lemma extends_bind (m : M A) (k : A -> M B) :
  extends_trace m -> (forall a, extends_trace (k a)) ->
  extends_trace (bind m k).
Proof.
  intros Hm Hk s r s' E. unfold bind in E.
  destruct (m s) as [[a | e] s1] eqn:Em.
  - destruct (Hm _ _ _ Em) as [l1 H1]. destruct (Hk _ _ _ _ E) as [l2 H2].
    exists (l1 ++ l2)%list. now rewrite H2, H1, app_assoc.
  - inversion E; subst. exact (Hm _ _ _ Em).
Qed.

Lemma extends_try_except (m : M A) (h : exn -> M A) :
  extends_trace m -> (forall e, extends_trace (h e)) ->
  extends_trace (try_except m h).
Proof.
  intros Hm Hh s r s' E. unfold try_except in E.
  destruct (m s) as [[a | e] s1] eqn:Em.
  - inversion E; subst. exact (Hm _ _ _ Em).
  - destruct (Hm _ _ _ Em) as [l1 H1]. destruct (Hh _ _ _ _ E) as [l2 H2].
    exists (l1 ++ l2)%list. now rewrite H2, H1, app_assoc.
Qed.

Lemma extends_request (ev : event) (answer : nat -> result A) :
  extends_trace (request ev answer).
Proof. intros s r s' E. inversion E; subst. now exists [ev]. Qed.

End MonadFacts.

(** Inversion of a sequence that returned. *)
Lemma bind_ok_inv {A B : Type} (m : M A) (k : A -> M B)
    (s s' : state) (b : B) :
  bind m k s = (Ok b, s') ->
  exists a s1, m s = (Ok a, s1) /\ k a s1 = (Ok b, s').
Proof.
  unfold bind. destruct (m s) as [[a | e] s1]; [| discriminate].
  intros E. now exists a, s1.
Qed.

(** A [try] that returned took its value from the body or the handler. *)
Lemma try_except_ok_inv {A : Type} (m : M A) (h : exn -> M A)
    (s s' : state) (a : A) :
  try_except m h s = (Ok a, s') ->
  m s = (Ok a, s') \/ exists e s1, m s = (Raise e, s1) /\ h e s1 = (Ok a, s').
Proof.
  unfold try_except. destruct (m s) as [[a0 | e] s1]; intros E.
  - now left.
  - right. now exists e, s1.
Qed.

(** ** The simulators *)

Section Simulators.

Variable w : World.

(** [simulate_crime] returns, tags its result "simulated" and issues no
    request. *)
Lemma simulate_crime_returns (s : state) :
  exists r s',
    simulate_crime w s = (Ok r, s')
    /\ Crime.source r = Some "simulated"
    /\ trace s' = trace s.
Proof.
  cbv [simulate_crime random_randint random_random bind ret].
  do 2 eexists. split; [reflexivity | split; reflexivity].
Qed.

(** [simulate_geo] returns and issues no request. *)
Lemma simulate_geo_returns (s : state) :
  exists g s', simulate_geo w s = (Ok g, s') /\ trace s' = trace s.
Proof.
  cbv [simulate_geo random_choice random_uniform random_random bind ret].
  match goal with
  | |- context [String.eqb ?n "urban"] =>
      destruct (String.eqb n "urban");
      [| destruct (String.eqb n "suburban")]
  end; do 2 eexists; (split; [reflexivity | reflexivity]).
Qed.

Lemma extends_simulate_crime : extends_trace (simulate_crime w).
Proof.
  intros s r s' E.
  destruct (simulate_crime_returns s) as (r0 & s0 & E0 & _ & T).
  rewrite E0 in E. inversion E; subst. exists []. now rewrite app_nil_r.
Qed.

End Simulators.

(** ** Estimation from coordinates *)

Section Estimation.

Variable w : World.

(** On finite coordinates every [int] succeeds: one of the box branches
    returns, without a request or a random draw. *)
Lemma estimate_finite (lat lon : Q) (s : state) :
  exists r,
    _get_crime_from_coordinates w (Fin lat) (Fin lon) s = (Ok r, s)
    /\ source_startswith "coordinate_estimation_" r.
Proof.
  unfold _get_crime_from_coordinates, source_startswith.
  repeat match goal with
         | |- context [if ?b then _ else _] =>
             match b with
             | context [F.leb] => destruct b
             end
         end;
    eexists; (split; [reflexivity |]); eexists; split; reflexivity.
Qed.

(** Whatever the coordinates, a result that is returned was built by a box
    branch: the trailing [simulate_crime()] is never reached. *)
Lemma estimate_source (lat lon : pyfloat) (s s' : state) (r : Crime.t) :
  _get_crime_from_coordinates w lat lon s = (Ok r, s') ->
  source_startswith "coordinate_estimation_" r /\ s' = s.
Proof.
  unfold _get_crime_from_coordinates, source_startswith.
  repeat match goal with
         | |- context [if ?b then _ else _] =>
             match b with
             | context [F.leb] => destruct b
             end
         end;
    cbv zeta; intros E;
    repeat (apply bind_ok_inv in E;
            destruct E as (? & ? & El & E);
            unfold lift in El; inversion El; subst; clear El);
    inversion E; subst; (split; [eexists; split; reflexivity | reflexivity]).
Qed.

(** On a NaN the estimation raises, in the catch-all branch. *)
Lemma estimate_nan (s : state) :
  _get_crime_from_coordinates w NaN NaN s = (Raise ValueError, s).
Proof. reflexivity. Qed.

End Estimation.

(** ** The city portals *)

(** Steps that decompose a goal [extends_trace m] along the shape of [m]. *)
Ltac extends_step :=
  first
    [ apply extends_ret
    | apply extends_raise
    | apply extends_lift
    | apply extends_request
    | apply extends_simulate_crime
    | apply extends_bind; [| intros ?]
    | apply extends_try_except; [| intros ?]
    | match goal with
      | |- extends_trace (if ?b then _ else _) => destruct b
      | |- extends_trace (match ?x with _ => _ end) => destruct x
      end ].

Section Portals.

Variable w : World.

Lemma extends_response_json {A : Type} (r : response A) :
  extends_trace (response_json r).
Proof. unfold response_json. repeat extends_step. Qed.

(** A portal query never raises: timeouts, transport errors, other status
    codes, undecodable and empty payloads all end in [None]. *)
Lemma chicago_returns (lat lon : pyfloat) :
  returns (_query_chicago_crime_api w lat lon).
Proof. apply returns_try_except. intros e. apply returns_ret. Qed.

Lemma simple_portal_returns url order category vw pw vf pf mult tag :
  returns (query_simple_portal w url order category vw pw vf pf mult tag).
Proof. apply returns_try_except. intros e. apply returns_ret. Qed.

Lemma city_api_returns (city : string) (lat lon : pyfloat) :
  returns (_query_city_crime_api w city lat lon).
Proof.
  unfold _query_city_crime_api, _query_nyc_crime_api, _query_la_crime_api,
    _query_sf_crime_api.
  repeat match goal with
         | |- returns (if ?b then _ else _) => destruct b
         end;
    first [ apply chicago_returns | apply simple_portal_returns
          | apply returns_ret ].
Qed.

(** The failure modes one by one, on a portal with a single request. *)
Lemma simple_portal_failures url order category vw pw vf pf mult tag s :
  let ask := crime_http w (length (trace s)) url
               [("$limit", "500"); ("$order", order)] in
  let s1 := State (trace s ++ [CrimeRequest url
                                 [("$limit", "500"); ("$order", order)]])
              (draws s) in
  ((exists e, ask = Raise e)
   \/ (exists code body, ask = Ok (Response code body) /\ code <> 200)
   \/ ask = Ok (Response 200 None)
   \/ ask = Ok (Response 200 (Some []))) ->
  query_simple_portal w url order category vw pw vf pf mult tag s
  = (Ok None, s1).
Proof.
  intros ask s1 H.
  unfold query_simple_portal, try_except, bind, crime_get, request.
  fold ask. fold s1.
  destruct H as [[e ->] | [(code & body & -> & Hc) | [-> | ->]]];
    try reflexivity.
  cbn. apply Z.eqb_neq in Hc. now rewrite Hc.
Qed.

(** What a successful portal query returns carries the tag of the portal. *)
Lemma chicago_tag lat lon s s' r :
  _query_chicago_crime_api w lat lon s = (Ok (Some r), s') ->
  Crime.source r = Some "chicago_api_realtime".
Proof.
  unfold _query_chicago_crime_api. cbv zeta. intros E.
  apply try_except_ok_inv in E.
  destruct E as [E | (e & s1 & _ & E)]; [| discriminate E].
  apply bind_ok_inv in E. destruct E as (resp & s1 & _ & E).
  apply bind_ok_inv in E. destruct E as (resp2 & s2 & _ & E).
  destruct (negb (status_code resp2 =? 200)%Z); [discriminate E |].
  apply bind_ok_inv in E. destruct E as (data & s3 & _ & E).
  destruct data; [discriminate E |].
  inversion E; subst. reflexivity.
Qed.

Lemma simple_portal_tag url order category vw pw vf pf mult tag s s' r :
  query_simple_portal w url order category vw pw vf pf mult tag s
  = (Ok (Some r), s') ->
  Crime.source r = Some tag.
Proof.
  unfold query_simple_portal. cbv zeta. intros E.
  apply try_except_ok_inv in E.
  destruct E as [E | (e & s1 & _ & E)]; [| discriminate E].
  apply bind_ok_inv in E. destruct E as (resp & s1 & _ & E).
  destruct (negb (status_code resp =? 200)%Z); [discriminate E |].
  apply bind_ok_inv in E. destruct E as (data & s3 & _ & E).
  destruct data; [discriminate E |].
  inversion E; subst. reflexivity.
Qed.

Lemma city_api_tag city lat lon s s' r :
  _query_city_crime_api w city lat lon s = (Ok (Some r), s') ->
  exists tag, Crime.source r = Some tag /\ In tag api_tags.
Proof.
  unfold _query_city_crime_api, _query_nyc_crime_api, _query_la_crime_api,
    _query_sf_crime_api.
  repeat match goal with
         | |- (if ?b then _ else _) _ = _ -> _ => destruct b
         end;
    intros E;
    first [ apply chicago_tag in E | apply simple_portal_tag in E
          | discriminate E ];
    eexists; (split; [exact E | simpl; tauto]).
Qed.

Lemma extends_chicago lat lon :
  extends_trace (_query_chicago_crime_api w lat lon).
Proof.
  unfold _query_chicago_crime_api, crime_get. cbv zeta.
  repeat first [ apply extends_response_json | extends_step ].
Qed.

Lemma extends_simple_portal url order category vw pw vf pf mult tag :
  extends_trace (query_simple_portal w url order category vw pw vf pf mult tag).
Proof.
  unfold query_simple_portal, crime_get. cbv zeta.
  repeat first [ apply extends_response_json | extends_step ].
Qed.

Lemma extends_city_api city lat lon :
  extends_trace (_query_city_crime_api w city lat lon).
Proof.
  unfold _query_city_crime_api, _query_nyc_crime_api, _query_la_crime_api,
    _query_sf_crime_api.
  repeat first [ apply extends_chicago | apply extends_simple_portal
               | extends_step ].
Qed.

End Portals.

(** ** The crime data resolver *)

Section Resolver.

Variable w : World.

Lemma extends_estimate lat lon :
  extends_trace (_get_crime_from_coordinates w lat lon).
Proof.
  unfold _get_crime_from_coordinates. cbv zeta. repeat extends_step.
Qed.

(** The tag of a guarded portal query, as the body issues it. *)
Lemma guarded_query_tag (guard : bool) city lat lon s s' r :
  (if guard then _query_city_crime_api w city lat lon else ret None) s
  = (Ok (Some r), s') ->
  exists tag, Crime.source r = Some tag /\ In tag api_tags.
Proof.
  destruct guard; intros E; [now apply city_api_tag in E | discriminate E].
Qed.

(** The geocoding branch of the body, for [body_provenance]. *)
Ltac geocoded_branch E city :=
  apply bind_ok_inv in E; destruct E as (geocoded & s3 & E3 & E);
    destruct geocoded as [res |];
    [ inversion E; subst; clear E;
      apply try_except_ok_inv in E3;
      destruct E3 as [E3 | (e & s4 & _ & E3)]; [| discriminate E3];
      apply bind_ok_inv in E3; destruct E3 as (loc & s4 & _ & E3);
      destruct loc as [loc |]; [| discriminate E3];
      apply bind_ok_inv in E3; destruct E3 as (api3 & s5 & E5 & E3);
      destruct api3 as [r3 |];
      [ inversion E3; subst; clear E3;
        destruct (negb (Py.truthy_opt city)); [| discriminate E5];
        destruct (_detect_city_from_address _ _ _); [| discriminate E5];
        apply guarded_query_tag in E5; destruct E5 as (tag & Ht & Hin);
        exists tag; auto
      | apply bind_ok_inv in E3; destruct E3 as (res & s6 & _ & E3);
        inversion E3; subst; exists "coordinate_based"; simpl; auto 6 ]
    | apply bind_ok_inv in E; destruct E as (res & s4 & _ & E);
      inversion E; subst; exists "simulated"; simpl; auto 6 ].

(** The provenance of whatever the body of [get_crime_data] returns: a
    portal tag, an estimation tag, "coordinate_based" or "simulated"; with
    both coordinates given, one of the first two. *)
Lemma body_provenance address latitude longitude city s s' r :
  get_crime_data_body w address latitude longitude city s = (Ok r, s') ->
  exists tag,
    Crime.source r = Some tag
    /\ (In tag api_tags
        \/ Py.startswith tag "coordinate_estimation_" = true
        \/ (tag = "coordinate_based" \/ tag = "simulated")
           /\ (latitude = None \/ longitude = None)).
Proof.
  unfold get_crime_data_body. intros E.
  apply bind_ok_inv in E. destruct E as (api1 & s1 & E1 & E).
  destruct api1 as [r1 |].
  { (* the hinted city answered *)
    inversion E; subst; clear E.
    destruct (Py.truthy_opt city); [| discriminate E1].
    destruct latitude as [lat |]; [| discriminate E1].
    destruct longitude as [lon |]; [| discriminate E1].
    apply guarded_query_tag in E1. destruct E1 as (tag & Ht & Hin).
    exists tag. auto. }
  clear E1.
  apply bind_ok_inv in E. destruct E as (api2 & s2 & E2 & E).
  destruct api2 as [r2 |].
  { (* the detected city answered *)
    inversion E; subst; clear E.
    destruct (negb (Py.truthy_opt city) && Py.truthy address);
      [| discriminate E2].
    destruct (_detect_city_from_address address latitude longitude);
      [| discriminate E2].
    destruct latitude as [lat |]; [| discriminate E2].
    destruct longitude as [lon |]; [| discriminate E2].
    apply guarded_query_tag in E2. destruct E2 as (tag & Ht & Hin).
    exists tag. auto. }
  clear E2.
  destruct latitude as [lat |], longitude as [lon |].
  - (* estimation from the given coordinates *)
    apply bind_ok_inv in E. destruct E as (res & s3 & E3 & E).
    apply estimate_source in E3. destruct E3 as [(tag & Ht & Hp) _].
    rewrite Ht in E. inversion E; subst. exists tag. auto.
  - geocoded_branch E city.
  - geocoded_branch E city.
  - geocoded_branch E city.
Qed.

End Resolver.

Section FirstRequest.

Context {A B : Type}.

Lemma first_request_bind_request (ev : event) (answer : nat -> result A)
    (k : A -> M B) :
  (forall a, extends_trace (k a)) ->
  first_request_is ev (bind (request ev answer) k).
Proof.
  intros Hk s r s' E. unfold bind, request in E.
  destruct (answer (length (trace s))) as [a | e].
  - destruct (Hk _ _ _ _ E) as [rest Hr]. exists rest.
    rewrite Hr. cbn. now rewrite <- app_assoc.
  - inversion E; subst. exists []. reflexivity.
Qed.

Lemma first_request_bind (ev : event) (m : M A) (k : A -> M B) :
  first_request_is ev m -> (forall a, extends_trace (k a)) ->
  first_request_is ev (bind m k).
Proof.
  intros Hm Hk s r s' E. unfold bind in E.
  destruct (m s) as [[a | e] s1] eqn:Em.
  - destruct (Hm _ _ _ Em) as [l1 H1]. destruct (Hk _ _ _ _ E) as [l2 H2].
    exists (l1 ++ l2)%list. rewrite H2, H1. now rewrite <- app_assoc.
  - inversion E; subst. exact (Hm _ _ _ Em).
Qed.

Lemma first_request_try_except (ev : event) (m : M A) (h : exn -> M A) :
  first_request_is ev m -> (forall e, extends_trace (h e)) ->
  first_request_is ev (try_except m h).
Proof.
  intros Hm Hh s r s' E. unfold try_except in E.
  destruct (m s) as [[a | e] s1] eqn:Em.
  - inversion E; subst. exact (Hm _ _ _ Em).
  - destruct (Hm _ _ _ Em) as [l1 H1]. destruct (Hh _ _ _ _ E) as [l2 H2].
    exists (l1 ++ l2)%list. rewrite H2, H1. now rewrite <- app_assoc.
Qed.

End FirstRequest.

Section ResolverRequests.

Variable w : World.

Lemma first_request_chicago lat lon :
  first_request_is (chicago_first_request w)
    (_query_chicago_crime_api w lat lon).
Proof.
  unfold _query_chicago_crime_api, crime_get. cbv zeta.
  apply first_request_try_except; [| intros e; apply extends_ret].
  apply first_request_bind_request. intros resp.
  repeat first [ apply extends_response_json | extends_step ].
Qed.

(** The requests of [get_crime_data] are only ever appended to the trace. *)
Lemma extends_get_crime_data address latitude longitude city :
  extends_trace (get_crime_data w address latitude longitude city).
Proof.
  unfold get_crime_data, get_crime_data_body.
  repeat first [ apply extends_city_api | apply extends_estimate
               | extends_step ].
Qed.

(** With a city hint naming Chicago and two truthy coordinates, the first
    thing [get_crime_data] does is to ask the Chicago portal. *)
Lemma hinted_city_is_queried address (lat lon : pyfloat) (city : string) :
  F.truthy lat = true -> F.truthy lon = true ->
  Py.contains "chicago" (Py.lower city) = true ->
  first_request_is (chicago_first_request w)
    (get_crime_data w address (Some lat) (Some lon) (Some city)).
Proof.
  intros Hlat Hlon Hc.
  assert (Ht : Py.truthy city = true).
  { destruct city; [discriminate Hc | reflexivity]. }
  unfold get_crime_data, get_crime_data_body.
  cbn [Py.truthy_opt default]. rewrite Ht, Hlat, Hlon. cbn [andb].
  unfold _query_city_crime_api at 1. cbv zeta. unfold id. rewrite Hc.
  apply first_request_try_except.
  - apply first_request_bind; [apply first_request_chicago |].
    intros api.
    repeat first [ apply extends_city_api | apply extends_estimate
                 | extends_step ].
  - intros e. repeat extends_step.
Qed.

End ResolverRequests.

Section ResolverTheorems.

Variable w : World.

(** What [get_crime_data] gives, by the outcome of its body. *)
Lemma get_crime_data_outcome
    (address : string) (latitude longitude : option pyfloat)
    (city : option string) (s : state) :
  exists r s',
    get_crime_data w address latitude longitude city s = (Ok r, s')
    /\ (exists tag, Crime.source r = Some tag)
    /\ (forall e s1,
          get_crime_data_body w address latitude longitude city s
          = (Raise e, s1) ->
          Crime.source r = Some "simulated_error")
    /\ (forall r0 s1,
          get_crime_data_body w address latitude longitude city s
          = (Ok r0, s1) ->
          r = r0 /\ s' = s1).
Proof.
  unfold get_crime_data.
  destruct (get_crime_data_body w address latitude longitude city s)
    as [[r0 | e] s1] eqn:E.
  - exists r0, s1. split; [now apply try_except_ok |].
    split; [| split].
    + apply body_provenance in E. destruct E as (tag & Ht & _). now exists tag.
    + discriminate.
    + intros r1 s2 E1. now inversion E1.
  - destruct (simulate_crime_returns w s1) as (r1 & s2 & E1 & _ & _).
    exists (Crime.set_source "simulated_error" r1), s2.
    split.
    { rewrite (try_except_raise _ _ _ _ _ E). unfold bind. now rewrite E1. }
    split; [now eexists | split].
    + reflexivity.
    + discriminate.
Qed.

(** C5.  [get_crime_data] never raises.  Whatever the world answers
    (timeouts, other status codes, undecodable or empty payloads) the
    portal queries end without an exception, and whatever goes wrong inside
    the body, [get_crime_data] returns a crime dictionary with a source
    tag: the value of the body when the body returns, and a simulated
    dictionary tagged "simulated_error" when the body raises. *)
Theorem get_crime_data_never_raises
    (address : string) (latitude longitude : option pyfloat)
    (city : option string) (s : state) :
  (forall c lat lon, returns (_query_city_crime_api w c lat lon))
  /\ exists r s',
       get_crime_data w address latitude longitude city s = (Ok r, s')
       /\ (exists tag, Crime.source r = Some tag)
       /\ (forall e s1,
             get_crime_data_body w address latitude longitude city s
             = (Raise e, s1) ->
             Crime.source r = Some "simulated_error")
       /\ (forall r0 s1,
             get_crime_data_body w address latitude longitude city s
             = (Ok r0, s1) ->
             r = r0 /\ s' = s1).
Proof.
  split; [intros c lat lon; apply city_api_returns |].
  apply get_crime_data_outcome.
Qed.

(** C9.  The two tests of coordinate presence differ.  With a zero latitude
    or longitude the truthiness test of the city branches fails, so that no
    request is issued at all, while the estimation branch, which tests
    [is not None], runs and gives the result; with two truthy coordinates
    and a city hint naming Chicago the portal is the first thing asked. *)
Theorem zero_coordinate_skips_city_api
    (address : string) (city : option string) (s : state) :
  (forall lat lon : Q,
     (lat == 0 \/ lon == 0)%Q ->
     F.truthy lat && F.truthy lon = false
     /\ exists r,
          get_crime_data w address (Some (Fin lat)) (Some (Fin lon)) city s
          = (Ok r, s)
          /\ _get_crime_from_coordinates w lat lon s = (Ok r, s)
          /\ source_startswith "coordinate_estimation_" r)
  /\ (forall (lat lon : pyfloat) (hint : string),
        F.truthy lat = true -> F.truthy lon = true ->
        Py.contains "chicago" (Py.lower hint) = true ->
        first_request_is (chicago_first_request w)
          (get_crime_data w address (Some lat) (Some lon) (Some hint))).
Proof.
  split; [| intros lat lon hint; apply hinted_city_is_queried].
  intros lat lon Hz.
  assert (Hf : F.truthy lat && F.truthy lon = false).
  { unfold F.truthy. destruct Hz as [Hz | Hz]; apply Qeq_bool_iff in Hz;
      rewrite Hz; cbn; [reflexivity | apply andb_false_r]. }
  split; [exact Hf |].
  destruct (estimate_finite w lat lon s) as (r & Er & tag & Ht & Hp).
  exists r. split; [| split; [exact Er | now exists tag]].
  unfold get_crime_data. apply try_except_ok.
  unfold get_crime_data_body. rewrite Hf.
  assert (E1 : forall c : string,
             (if Py.truthy c && F.truthy lat && F.truthy lon
              then _query_city_crime_api w c lat lon else ret None)
             = ret None).
  { intros c. rewrite <- andb_assoc, Hf, andb_false_r. reflexivity. }
  unfold bind.
  destruct (Py.truthy_opt city); cbn [negb andb ret].
  - rewrite Er. cbn. now rewrite Ht.
  - destruct (Py.truthy address);
      [destruct (_detect_city_from_address address _ _); [rewrite E1 |] |];
      cbn [ret]; rewrite Er; cbn; now rewrite Ht.
Qed.

(** C10.  On finite coordinates [_get_crime_from_coordinates] returns the
    result of one of its bounding-box branches, tagged
    "coordinate_estimation_..."; whatever the coordinates, nothing it
    returns comes from its trailing [simulate_crime()]; and with both
    coordinates given [get_crime_data] returns a portal tag or an estimation
    tag when no exception occurs, and never the tag "simulated". *)
Theorem coordinates_never_simulated
    (address : string) (city : option string) (s : state) :
  (forall lat lon : Q,
     exists r,
       _get_crime_from_coordinates w lat lon s = (Ok r, s)
       /\ source_startswith "coordinate_estimation_" r)
  /\ (forall (lat lon : pyfloat) r s',
        _get_crime_from_coordinates w lat lon s = (Ok r, s') ->
        source_startswith "coordinate_estimation_" r
        /\ Crime.source r <> Some "simulated")
  /\ (forall lat lon : pyfloat,
        exists r s' tag,
          get_crime_data w address (Some lat) (Some lon) city s = (Ok r, s')
          /\ Crime.source r = Some tag
          /\ tag <> "simulated"
          /\ (forall r0 s1,
                get_crime_data_body w address (Some lat) (Some lon) city s
                = (Ok r0, s1) ->
                In tag api_tags
                \/ Py.startswith tag "coordinate_estimation_" = true)).
Proof.
  split; [| split].
  - intros lat lon. apply estimate_finite.
  - intros lat lon r s' E. apply estimate_source in E.
    destruct E as [(tag & Ht & Hp) _]. split; [now exists tag |].
    rewrite Ht. intros H. inversion H; subst. discriminate Hp.
  - intros lat lon.
    destruct (get_crime_data_outcome address (Some lat) (Some lon) city s)
      as (r & s' & E & _ & Hraise & Hok).
    destruct (get_crime_data_body w address (Some lat) (Some lon) city s)
      as [[r0 | e] s1] eqn:Eb.
    + destruct (Hok _ _ eq_refl) as [-> ->].
      apply body_provenance in Eb.
      destruct Eb as (tag & Ht & [Hin | [Hp | [_ [H | H]]]]);
        try discriminate H; exists r0, s1, tag.
      * repeat split; auto.
        intros ->. simpl in Hin. intuition discriminate.
      * repeat split; auto. intros ->. discriminate Hp.
    + exists r, s', "simulated_error".
      repeat split; auto; [eapply Hraise; reflexivity | discriminate..].
Qed.

End ResolverTheorems.

(** C5 on NaN coordinates with every provider down: the body raises and
    the handler answers. *)
Lemma get_crime_data_never_raises_witness :
  get_crime_data_body offline_world "1 Main St" (Some NaN) (Some NaN) None
    initial_state = (Raise ValueError, initial_state)
  /\ exists r s',
       get_crime_data offline_world "1 Main St" (Some NaN) (Some NaN) None
         initial_state = (Ok r, s')
       /\ Crime.source r = Some "simulated_error".
Proof.
  assert (Hb : get_crime_data_body offline_world "1 Main St" (Some NaN)
                 (Some NaN) None initial_state
               = (Raise ValueError, initial_state)) by reflexivity.
  split; [exact Hb |].
  destruct (get_crime_data_never_raises offline_world "1 Main St" (Some NaN)
              (Some NaN) None initial_state)
    as (_ & r & s' & E & _ & Hraise & _).
  exists r, s'. split; [exact E | exact (Hraise _ _ Hb)].
Defined.

(** C9 in a world whose Chicago portal answers: latitude 0.0 on one side,
    latitude 41.8 on the other. *)
Lemma zero_coordinate_skips_city_api_witness :
  ((0 == 0)%Q \/ (-87.6 == 0)%Q)
  /\ (exists r,
        get_crime_data chicago_world "1 State St" (Some (Fin 0))
          (Some (Fin (-87.6))) (Some "chicago") initial_state
        = (Ok r, initial_state)
        /\ source_startswith "coordinate_estimation_" r)
  /\ F.truthy (Fin 41.8) = true /\ F.truthy (Fin (-87.6)) = true
  /\ Py.contains "chicago" (Py.lower "Chicago") = true
  /\ first_request_is (chicago_first_request chicago_world)
       (get_crime_data chicago_world "1 State St" (Some (Fin 41.8))
          (Some (Fin (-87.6))) (Some "Chicago")).
Proof.
  assert (Hz : (0 == 0)%Q \/ (-87.6 == 0)%Q) by (left; reflexivity).
  destruct (zero_coordinate_skips_city_api chicago_world "1 State St"
              (Some "chicago") initial_state) as [Hzero Hhint].
  split; [exact Hz |]. split.
  - destruct (Hzero 0%Q (-87.6)%Q Hz) as (_ & r & E & _ & Hp).
    exists r. split; [exact E | exact Hp].
  - split; [reflexivity |]. split; [reflexivity |]. split; [reflexivity |].
    apply Hhint; reflexivity.
Defined.

(** C10 at a point of Brownsville. *)
Lemma coordinates_never_simulated_witness :
  _get_crime_from_coordinates offline_world (Fin 40.68) (Fin (-73.92))
    initial_state
  = (Ok (Crime.mk (Some 85) (Some 75) (Some 18)
           (Some "coordinate_estimation_brooklyn_high_crime") None None),
     initial_state)
  /\ source_startswith "coordinate_estimation_"
       (Crime.mk (Some 85) (Some 75) (Some 18)
          (Some "coordinate_estimation_brooklyn_high_crime") None None).
Proof.
  assert (E : _get_crime_from_coordinates offline_world (Fin 40.68)
                (Fin (-73.92)) initial_state
              = (Ok (Crime.mk (Some 85) (Some 75) (Some 18)
                       (Some "coordinate_estimation_brooklyn_high_crime")
                       None None),
                 initial_state)) by reflexivity.
  split; [exact E |].
  destruct (coordinates_never_simulated offline_world "1 Main St" None
              initial_state) as (_ & Hsrc & _).
  exact (proj1 (Hsrc _ _ _ _ E)).
Defined.

(** ** The geolocation resolver *)

Lemma lstrip_whitespace (s : string) :
  whitespace_only s = true -> Py.lstrip s = "".
Proof.
  induction s as [| c s IH]; simpl; [reflexivity |].
  intros H. apply andb_prop in H. destruct H as [Hc Hs].
  rewrite Hc. auto.
Qed.

Lemma rstrip_empty (s : string) :
  Py.rstrip s = "" -> whitespace_only s = true.
Proof.
  induction s as [| c s IH]; simpl; [reflexivity |].
  destruct (Py.rstrip s); [| discriminate].
  destruct (Py.isspace c); [| discriminate]. auto.
Qed.

Lemma lstrip_keeps_rest (s : string) :
  whitespace_only (Py.lstrip s) = true -> whitespace_only s = true.
Proof.
  induction s as [| c s IH]; simpl; [reflexivity |].
  destruct (Py.isspace c) eqn:Hc; simpl; [exact IH |].
  rewrite Hc. discriminate.
Qed.

(** The test [not address or not address.strip()] holds exactly for the
    strings of blanks, the empty one included. *)
Lemma empty_address_test (address : string) :
  negb (Py.truthy address) || negb (Py.truthy (Py.strip address)) = true
  <-> whitespace_only address = true.
Proof.
  split.
  - intros H. apply orb_prop in H. destruct H as [H | H].
    + destruct address; [reflexivity | discriminate H].
    + apply lstrip_keeps_rest, rstrip_empty. unfold Py.strip in H.
      destruct (Py.rstrip (Py.lstrip address)); [reflexivity | discriminate H].
  - intros H. unfold Py.strip. rewrite (lstrip_whitespace _ H).
    apply orb_true_r.
Qed.

(** C6.  On an empty or blank address [get_geolocation_info] does not
    raise and asks no provider: it returns the dictionary of
    [simulate_geo()] with the source "simulated_empty_address" and with
    the address it was given, unchanged, as formatted address. *)
Theorem empty_address_is_simulated
    (w : World) (address : string) (s : state) :
  whitespace_only address = true ->
  exists g r s',
    simulate_geo w s = (Ok g, s')
    /\ get_geolocation_info w address s = (Ok r, s')
    /\ r = Geo.set_formatted_address address
             (Geo.set_source "simulated_empty_address" g)
    /\ Geo.source r = Some "simulated_empty_address"
    /\ Geo.formatted_address r = Some (PyStr address)
    /\ trace s' = trace s.
Proof.
  intros H. apply empty_address_test in H.
  destruct (simulate_geo_returns w s) as (g & s' & E & T).
  exists g, (Geo.set_formatted_address address
               (Geo.set_source "simulated_empty_address" g)), s'.
  split; [exact E |].
  unfold get_geolocation_info. rewrite H. unfold bind. rewrite E.
  repeat split. exact T.
Qed.

(** C6 at an address of two blanks. *)
Lemma empty_address_is_simulated_witness :
  whitespace_only "  " = true
  /\ exists r s',
       get_geolocation_info offline_world "  " initial_state = (Ok r, s')
       /\ Geo.source r = Some "simulated_empty_address"
       /\ Geo.formatted_address r = Some (PyStr "  ").
Proof.
  assert (H : whitespace_only "  " = true) by reflexivity.
  split; [exact H |].
  destruct (empty_address_is_simulated offline_world "  " initial_state H)
    as (g & r & s' & _ & E & _ & Hs & Hf & _).
  exists r, s'. split; [exact E | split; [exact Hs | exact Hf]].
Defined.

(** The resolver as a whole never raises: each geocoder turns its failures
    into [None], and the chain ends in the simulator. *)
Lemma nominatim_attempts_returns (w : World) (address : string)
    (variants : list string) :
  returns (nominatim_attempts w address variants).
Proof.
  induction variants as [| v rest IH]; simpl; [apply returns_ret |].
  apply returns_bind.
  - apply returns_try_except. intros e. apply returns_ret.
  - intros [r |]; [apply returns_ret | exact IH].
Qed.

Lemma get_geolocation_info_returns (w : World) (address : string) :
  returns (get_geolocation_info w address).
Proof.
  assert (Hsim : forall f : Geo.t -> Geo.t,
             returns (bind (simulate_geo w) (fun r => ret (f r)))).
  { intros f s. destruct (simulate_geo_returns w s) as (g & s' & E & _).
    exists (f g), s'. unfold bind. now rewrite E. }
  unfold get_geolocation_info.
  destruct (negb (Py.truthy address) || negb (Py.truthy (Py.strip address))).
  - apply Hsim.
  - apply returns_bind.
    { unfold _geocode_with_google.
      destruct (_ || _); [apply returns_ret |].
      apply returns_try_except. intros e. apply returns_ret. }
    intros [r |]; [apply returns_ret |].
    apply returns_bind; [apply nominatim_attempts_returns |].
    intros [r |]; [apply returns_ret |].
    apply returns_bind.
    { apply returns_try_except. intros e. apply returns_ret. }
    intros [r |]; [apply returns_ret | apply Hsim].
Qed.

(** * Further properties of the scoring pipeline *)

(** ** The overall score *)

Section OverallScore.

Local Open Scope Q_scope.

Lemma overall_score_unfold (dim : gmap string Z) (c : Crime.t) (g : Geo.t) :
  fst (compute_overall_score dim c g)
  = Py.max 0.0 (Py.min 100.0 (Py.round2 (weighted_sum dim))).
Proof. reflexivity. Qed.

Lemma weighted_sum_hundredths (dim : gmap string Z) :
  weighted_sum dim * 100
  == inject_Z (35 * dim_get dim "crime_risk"
               + 25 * dim_get dim "property_exposure_risk"
               + 15 * dim_get dim "accessibility_risk"
               + 15 * dim_get dim "neighborhood_risk"
               + 10 * dim_get dim "operational_risk").
Proof.
  unfold weighted_sum. rewrite !inject_Z_plus, !inject_Z_mult.
  change (inject_Z 35) with 35. change (inject_Z 25) with 25.
  change (inject_Z 15) with 15. change (inject_Z 10) with 10.
  generalize (inject_Z (dim_get dim "crime_risk")).
  generalize (inject_Z (dim_get dim "property_exposure_risk")).
  generalize (inject_Z (dim_get dim "accessibility_risk")).
  generalize (inject_Z (dim_get dim "neighborhood_risk")).
  generalize (inject_Z (dim_get dim "operational_risk")).
  intros o n a e c. lra.
Qed.

(** A number of hundredths is left alone by the rounding to two decimals. *)
Lemma round2_hundredths (x : Q) (n : Z) :
  x * 100 == inject_Z n -> Py.round2 x == x.
Proof.
  intros H. unfold Py.round2. rewrite (round_comp _ _ H), round_Z.
  assert (E : n # 100 == inject_Z n * (1 # 100)).
  { unfold Qeq. cbn. lia. }
  apply Qeq_trans with (inject_Z n * (1 # 100)); [exact E |].
  revert H. generalize (inject_Z n). intros y H. lra.
Qed.

Lemma round2_weighted_sum (dim : gmap string Z) :
  Py.round2 (weighted_sum dim) == weighted_sum dim.
Proof. exact (round2_hundredths _ _ (weighted_sum_hundredths dim)). Qed.

Lemma min_eq_r (a b : Q) : b <= a -> Py.min a b == b.
Proof.
  intros H. unfold Py.min. destruct (Qle_bool a b) eqn:E; [| reflexivity].
  apply Qle_bool_iff in E. lra.
Qed.

Lemma max_eq_r (a b : Q) : a <= b -> Py.max a b == b.
Proof.
  intros H. unfold Py.max. destruct (Qle_bool b a) eqn:E; [| reflexivity].
  apply Qle_bool_iff in E. lra.
Qed.

Lemma weighted_sum_mono (d1 d2 : gmap string Z) :
  (forall key, In key dimension_keys -> (dim_get d1 key <= dim_get d2 key)%Z) ->
  weighted_sum d1 <= weighted_sum d2.
Proof.
  intros H. unfold weighted_sum.
  assert (K : forall key, In key dimension_keys ->
                inject_Z (dim_get d1 key) <= inject_Z (dim_get d2 key)).
  { intros key Hk. rewrite <- Zle_Qle. now apply H. }
  pose proof (K "crime_risk" ltac:(simpl; tauto)).
  pose proof (K "property_exposure_risk" ltac:(simpl; tauto)).
  pose proof (K "accessibility_risk" ltac:(simpl; tauto)).
  pose proof (K "neighborhood_risk" ltac:(simpl; tauto)).
  pose proof (K "operational_risk" ltac:(simpl; tauto)).
  lra.
Qed.

Lemma overall_score_mono (d1 d2 : gmap string Z)
    (c1 c2 : Crime.t) (g1 g2 : Geo.t) :
  (forall key, In key dimension_keys -> (dim_get d1 key <= dim_get d2 key)%Z) ->
  fst (compute_overall_score d1 c1 g1) <= fst (compute_overall_score d2 c2 g2).
Proof.
  intros H. rewrite !overall_score_unfold.
  apply max_mono; [lra |]. apply min_mono; [lra |].
  apply round2_mono. now apply weighted_sum_mono.
Qed.

End OverallScore.

(** When the five dimensions lie in [0, 100] neither the rounding nor the
    clamp of [compute_overall_score] is active: the overall score is the
    weighted sum itself (a missing key counting as 0), and it lies between
    the smallest and the largest dimension. *)
Theorem overall_score_is_weighted_sum
    (dim : gmap string Z) (c : Crime.t) (g : Geo.t) (lo hi : Z) :
  0 <= lo -> hi <= 100 ->
  (forall key, In key dimension_keys -> lo <= dim_get dim key <= hi) ->
  (fst (compute_overall_score dim c g) == weighted_sum dim)%Q
  /\ (inject_Z lo <= fst (compute_overall_score dim c g) <= inject_Z hi)%Q.
Proof.
  intros Hlo Hhi H.
  assert (K : forall key, In key dimension_keys ->
                (inject_Z lo <= inject_Z (dim_get dim key) <= inject_Z hi)%Q).
  { intros key Hk. rewrite <- !Zle_Qle. now apply H. }
  assert (Hw : (inject_Z lo <= weighted_sum dim <= inject_Z hi)%Q).
  { unfold weighted_sum.
    pose proof (K "crime_risk" ltac:(simpl; tauto)).
    pose proof (K "property_exposure_risk" ltac:(simpl; tauto)).
    pose proof (K "accessibility_risk" ltac:(simpl; tauto)).
    pose proof (K "neighborhood_risk" ltac:(simpl; tauto)).
    pose proof (K "operational_risk" ltac:(simpl; tauto)).
    lra. }
  rewrite Zle_Qle in Hlo, Hhi.
  change (inject_Z 0) with 0%Q in Hlo. change (inject_Z 100) with 100%Q in Hhi.
  pose proof (round2_weighted_sum dim) as Hr.
  assert (E : (fst (compute_overall_score dim c g) == weighted_sum dim)%Q).
  { rewrite overall_score_unfold.
    assert (Hm : (Py.min 100.0 (Py.round2 (weighted_sum dim))
                  == Py.round2 (weighted_sum dim))%Q).
    { apply min_eq_r. lra. }
    apply Qeq_trans with (Py.min 100.0 (Py.round2 (weighted_sum dim)));
      [| lra].
    apply max_eq_r. lra. }
  split; [exact E | lra].
Qed.

(** The overall score of the aggregation example, as a weighted sum. *)
Lemma overall_score_is_weighted_sum_witness :
  (fst (compute_overall_score example_dims (crime_tagged "nypd_api")
          (geo_tagged "photon")) == weighted_sum example_dims)%Q
  /\ (10 <= fst (compute_overall_score example_dims (crime_tagged "nypd_api")
                   (geo_tagged "photon")) <= 50)%Q.
Proof.
  apply (overall_score_is_weighted_sum example_dims _ _ 10 50); [lia | lia |].
  intros key Hk. simpl in Hk.
  destruct Hk as [<- | [<- | [<- | [<- | [<- | []]]]]]; vm_compute;
    split; discriminate.
Defined.

(** Raising dimensions never lowers the overall score. *)
Theorem overall_score_monotone
    (d1 d2 : gmap string Z) (c1 c2 : Crime.t) (g1 g2 : Geo.t) :
  (forall key, In key dimension_keys -> dim_get d1 key <= dim_get d2 key) ->
  (fst (compute_overall_score d1 c1 g1)
   <= fst (compute_overall_score d2 c2 g2))%Q.
Proof. apply overall_score_mono. Qed.

Lemma overall_score_monotone_witness :
  (fst (compute_overall_score ∅ (crime_tagged "nypd_api")
          (geo_tagged "photon"))
   <= fst (compute_overall_score example_dims (crime_tagged "nypd_api")
             (geo_tagged "photon")))%Q.
Proof.
  apply overall_score_monotone.
  intros key Hk. simpl in Hk.
  destruct Hk as [<- | [<- | [<- | [<- | [<- | []]]]]]; vm_compute;
    discriminate.
Defined.

(** ** The dimension scorer *)

(** Reading the five entries of a scoring result. *)
Lemma read_five (a b c d e : Z) :
  let m : gmap string Z :=
    <["crime_risk" := a]>
    (<["property_exposure_risk" := b]>
    (<["accessibility_risk" := c]>
    (<["neighborhood_risk" := d]>
    (<["operational_risk" := e]> ∅)))) in
  dim_get m "crime_risk" = a
  /\ dim_get m "property_exposure_risk" = b
  /\ dim_get m "accessibility_risk" = c
  /\ dim_get m "neighborhood_risk" = d
  /\ dim_get m "operational_risk" = e.
Proof. repeat split. Qed.

Ltac read_dimension :=
  unfold compute_risk_dimensions; cbv zeta;
  repeat match goal with
         | |- context [dim_get (<["crime_risk" := ?a]>
                         (<["property_exposure_risk" := ?b]>
                         (<["accessibility_risk" := ?c]>
                         (<["neighborhood_risk" := ?d]>
                         (<["operational_risk" := ?e]> ∅)))))
                         ?k] =>
             let H := fresh in
             pose proof (read_five a b c d e) as H; cbv zeta in H;
             first
               [ rewrite (proj1 H)
               | rewrite (proj1 (proj2 H))
               | rewrite (proj1 (proj2 (proj2 H)))
               | rewrite (proj1 (proj2 (proj2 (proj2 H))))
               | rewrite (proj2 (proj2 (proj2 (proj2 H)))) ];
             clear H
         end.

(** A fence or a gate never raises a dimension, nor the overall score
    computed from the dimensions. *)
Theorem protection_never_raises_risk
    (crime : Crime.t) (geo : Geo.t) (prop : PropertyInfo.t)
    (property_type : string) (fenced gated : bool)
    (hours notes : option string) :
  let dims f g :=
    compute_risk_dimensions crime geo prop property_type f g hours notes in
  (forall key, In key dimension_keys ->
     dim_get (dims true gated) key <= dim_get (dims false gated) key)
  /\ (forall key, In key dimension_keys ->
        dim_get (dims fenced true) key <= dim_get (dims fenced false) key)
  /\ (fst (compute_overall_score (dims true gated) crime geo)
      <= fst (compute_overall_score (dims false gated) crime geo))%Q
  /\ (fst (compute_overall_score (dims fenced true) crime geo)
      <= fst (compute_overall_score (dims fenced false) crime geo))%Q.
Proof.
  intros dims.
  assert (Hf : forall key, In key dimension_keys ->
                 dim_get (dims true gated) key <= dim_get (dims false gated) key).
  { intros key Hk. simpl in Hk. subst dims.
    destruct Hk as [<- | [<- | [<- | [<- | [<- | []]]]]]; read_dimension;
      try lia.
    - destruct gated,
        (Py.lower property_type =? "vacation home")%string,
        (Py.lower property_type =? "home")%string; cbn [negb]; lia.
    - destruct (default "suburban" (Geo.neighborhood_type geo) =? "urban")%string,
        (Py.lower property_type =? "vacation home")%string,
        (Py.lower property_type =? "home")%string; cbn [negb]; lia. }
  assert (Hg : forall key, In key dimension_keys ->
                 dim_get (dims fenced true) key <= dim_get (dims fenced false) key).
  { intros key Hk. simpl in Hk. subst dims.
    destruct Hk as [<- | [<- | [<- | [<- | [<- | []]]]]]; read_dimension;
      try lia.
    destruct fenced,
      (Py.lower property_type =? "vacation home")%string,
      (Py.lower property_type =? "home")%string; cbn [negb]; lia. }
  split; [exact Hf | split; [exact Hg | split]];
    apply overall_score_mono; assumption.
Qed.

(** ** Requests and state *)

Section StateFacts.

Context {A B : Type}.

Lemma keeps_ret (a : A) : keeps_state (ret a).
Proof. intros s r s' E. now inversion E. Qed.

Lemma keeps_raise (e : exn) : keeps_state (@raise A e).
Proof. intros s r s' E. now inversion E. Qed.

Lemma keeps_lift (x : result A) : keeps_state (lift x).
Proof. intros s r s' E. now inversion E. Qed.

Lemma keeps_bind (m : M A) (k : A -> M B) :
  keeps_state m -> (forall a, keeps_state (k a)) -> keeps_state (bind m k).
Proof.
  intros Hm Hk s r s' E. unfold bind in E.
  destruct (m s) as [[a | e] s1] eqn:Em.
  - rewrite (Hk _ _ _ _ E). exact (Hm _ _ _ Em).
  - inversion E; subst. exact (Hm _ _ _ Em).
Qed.

Lemma keeps_try_except (m : M A) (h : exn -> M A) :
  keeps_state m -> (forall e, keeps_state (h e)) ->
  keeps_state (try_except m h).
Proof.
  intros Hm Hh s r s' E. unfold try_except in E.
  destruct (m s) as [[a | e] s1] eqn:Em.
  - inversion E; subst. exact (Hm _ _ _ Em).
  - rewrite (Hh _ _ _ _ E). exact (Hm _ _ _ Em).
Qed.

Lemma issues_nothing (m : M A) : keeps_state m -> issues [] m.
Proof.
  intros H s r s' E. rewrite (H _ _ _ E). now rewrite app_nil_r.
Qed.

(** One request, then steps that leave the state alone. *)
Lemma issues_request_bind (ev : event) (answer : nat -> result A)
    (k : A -> M B) :
  (forall a, keeps_state (k a)) -> issues [ev] (bind (request ev answer) k).
Proof.
  intros Hk s r s' E. unfold bind, request in E.
  destruct (answer (length (trace s))) as [a | e].
  - now rewrite (Hk _ _ _ _ E).
  - now inversion E.
Qed.

Lemma issues_try_except (evs : list event) (m : M A) (h : exn -> M A) :
  issues evs m -> (forall e, keeps_state (h e)) ->
  issues evs (try_except m h).
Proof.
  intros Hm Hh s r s' E. unfold try_except in E.
  destruct (m s) as [[a | e] s1] eqn:Em.
  - inversion E; subst. exact (Hm _ _ _ Em).
  - rewrite (Hh _ _ _ _ E). exact (Hm _ _ _ Em).
Qed.

End StateFacts.

Lemma keeps_response_json {A : Type} (r : response A) :
  keeps_state (response_json r).
Proof.
  unfold response_json. destruct (json r); [apply keeps_ret | apply keeps_raise].
Qed.

(** Steps that decompose a goal [keeps_state m] along the shape of [m]. *)
Ltac keeps_step :=
  first
    [ apply keeps_ret
    | apply keeps_raise
    | apply keeps_lift
    | apply keeps_response_json
    | apply keeps_bind; [| intros ?]
    | apply keeps_try_except; [| intros ?]
    | match goal with
      | |- keeps_state (if ?b then _ else _) => destruct b
      | |- keeps_state (match ?x with _ => _ end) => destruct x
      end ].

(** ** Geolocation dictionaries *)

Lemma classify_kinds (lat lon : pyfloat) :
  In (_classify_neighborhood_by_coords lat lon) ["urban"; "suburban"; "rural"].
Proof.
  unfold _classify_neighborhood_by_coords.
  destruct (_ || _); [simpl; tauto |].
  destruct (_ || _); simpl; tauto.
Qed.

Lemma geo_from_coordinates_well_formed lat lon tag formatted :
  geo_well_formed (geo_from_coordinates lat lon tag formatted).
Proof.
  exists lat, lon, (_classify_neighborhood_by_coords lat lon), formatted.
  unfold geo_from_coordinates. cbn.
  repeat split; try reflexivity. apply classify_kinds.
Qed.

(** The validation [abs(x) > bound], when it lets a coordinate pass. *)
Lemma validated_within (bound : Q) (x : pyfloat) :
  F.ltb bound (F.abs x) = false -> within bound x.
Proof.
  destruct x as [q | neg |]; cbn; [| discriminate | trivial].
  intros H. apply ltb_false_iff in H. now apply Qabs_Qle_condition.
Qed.

Lemma mod1_range (x : Q) : (0 <= Py.mod1 x < 1)%Q.
Proof.
  unfold Py.mod1. pose proof (Qfloor_le x). pose proof (Qlt_floor x) as H1.
  rewrite inject_Z_plus in H1. change (inject_Z 1) with 1%Q in H1. lra.
Qed.

Section SimulatedGeo.

Variable w : World.

(** [simulate_geo] draws three numbers, asks nothing, and gives a complete
    dictionary: finite coordinates inside the box of its neighborhood type,
    hence inside [35, 45] x [-85, -70], with the density and the risks of
    the tables. *)
Lemma simulate_geo_spec (s : state) :
  exists g lat lon,
    simulate_geo w s = (Ok g, State (trace s) (3 + draws s))
    /\ geo_well_formed g
    /\ Geo.source g = Some "simulated"
    /\ Geo.latitude g = Some (Fin lat)
    /\ Geo.longitude g = Some (Fin lon)
    /\ (35 <= lat <= 45)%Q /\ (-85 <= lon <= -70)%Q
    /\ (Geo.neighborhood_type g = Some "urban" ->
        (40 <= lat <= 41)%Q /\ (-74 <= lon <= -73)%Q).
Proof.
  cbv [simulate_geo random_choice random_uniform random_random bind ret].
  cbn [trace draws].
  set (kind := nth _ ["urban"; "suburban"; "rural"] "urban").
  pose proof (mod1_range (random_stream w (S (draws s)))) as H1.
  pose proof (mod1_range (random_stream w (S (S (draws s))))) as H2.
  assert (Hk : kind = "urban" \/ kind = "suburban" \/ kind = "rural").
  { subst kind.
    destruct (Z.to_nat _) as [| [| [| [| n]]]]; cbn; auto. }
  destruct Hk as [-> | [-> | ->]]; cbn [String.eqb Ascii.eqb Bool.eqb];
    do 3 eexists; (split; [reflexivity |]); cbn;
    (split; [do 4 eexists; repeat split; simpl; tauto |]);
    (split; [reflexivity |]); (split; [reflexivity |]);
    (split; [reflexivity |]); (split; [lra |]); (split; [lra |]);
    intros E; try discriminate E; split; lra.
Qed.

End SimulatedGeo.

(** ** The three geocoders *)

Section Geocoders.

Variable w : World.

(** Google: one request when a key is configured, none otherwise. *)
Lemma google_issues (address : string) :
  issues (if negb (Py.truthy_opt (GOOGLE_MAPS_API_KEY w))
             || (default "" (GOOGLE_MAPS_API_KEY w) =? "")%string
          then [] else [GoogleRequest address])
    (_geocode_with_google w address).
Proof.
  unfold _geocode_with_google. cbv zeta.
  destruct (_ || _).
  - apply issues_nothing, keeps_ret.
  - apply issues_try_except; [| intros e; apply keeps_ret].
    apply issues_request_bind. intros resp. repeat keeps_step.
Qed.

Lemma google_answer (address : string) s s' r :
  _geocode_with_google w address s = (Ok (Some r), s') ->
  negb (Py.truthy_opt (GOOGLE_MAPS_API_KEY w))
  || (default "" (GOOGLE_MAPS_API_KEY w) =? "")%string = false
  /\ exists lat lon formatted,
       r = geo_from_coordinates lat lon "google_maps" formatted.
Proof.
  unfold _geocode_with_google. cbv zeta.
  destruct (_ || _); [discriminate |]. intros E. split; [reflexivity |].
  apply try_except_ok_inv in E.
  destruct E as [E | (e & s1 & _ & E)]; [| discriminate E].
  apply bind_ok_inv in E. destruct E as (resp & s1 & _ & E).
  destruct (negb (status_code resp =? 200)%Z); [discriminate E |].
  apply bind_ok_inv in E. destruct E as (data & s2 & _ & E).
  destruct (_ || _); [discriminate E |].
  destruct (g_results data) as [| result rest]; [discriminate E |].
  destruct (g_location result) as [[lat lon] |]; [| discriminate E].
  inversion E; subst. now eauto.
Qed.

(** Photon: always one request. *)
Lemma photon_issues (address : string) :
  issues [PhotonRequest address] (_geocode_with_photon w address).
Proof.
  unfold _geocode_with_photon.
  apply issues_try_except; [| intros e; apply keeps_ret].
  apply issues_request_bind. intros resp. repeat keeps_step.
Qed.

Lemma orb_false_both (a b : bool) : a || b = false -> a = false /\ b = false.
Proof. destruct a, b; auto. Qed.

Lemma photon_answer (address : string) s s' r :
  _geocode_with_photon w address s = (Ok (Some r), s') ->
  exists lat lon formatted,
    r = geo_from_coordinates lat lon "photon" formatted
    /\ within 90 lat /\ within 180 lon.
Proof.
  unfold _geocode_with_photon. intros E.
  apply try_except_ok_inv in E.
  destruct E as [E | (e & s1 & _ & E)]; [| discriminate E].
  apply bind_ok_inv in E. destruct E as (resp & s1 & _ & E).
  destruct (negb (status_code resp =? 200)%Z); [discriminate E |].
  apply bind_ok_inv in E. destruct E as (data & s2 & _ & E).
  destruct data as [| feature rest]; [discriminate E |]. cbv zeta in E.
  destruct (length (p_coordinates feature) <? 2)%nat; [discriminate E |].
  destruct (p_coordinates feature) as [| [lon |] [| [lat |] more]];
    try discriminate E.
  destruct (F.ltb 90 (F.abs lat) || F.ltb 180 (F.abs lon)) eqn:V;
    [discriminate E |].
  apply orb_false_both in V. destruct V as [V1 V2].
  apply bind_ok_inv in E. destruct E as (named & s3 & _ & E).
  apply bind_ok_inv in E. destruct E as (formatted & s4 & _ & E).
  inversion E; subst.
  do 3 eexists. split; [reflexivity |].
  split; now apply validated_within.
Qed.

(** Nominatim: the variants are asked in their order until one gives a
    location with legal coordinates; an exception of one attempt only
    moves on to the next variant. *)
Lemma nominatim_attempts_spec (address : string) (variants : list string)
    s r s' :
  nominatim_attempts w address variants s = (r, s') ->
  exists k o,
    r = Ok o
    /\ (k <= length variants)%nat
    /\ trace s' = (trace s ++ map NominatimRequest (firstn k variants))%list
    /\ (o = None -> k = length variants)
    /\ (forall g, o = Some g ->
          exists lat lon (formatted : string),
            g = geo_from_coordinates lat lon "nominatim" (PyStr formatted)
            /\ within 90 lat /\ within 180 lon).
Proof.
  revert s. induction variants as [| v rest IH]; intros s E.
  - inversion E; subst. exists 0%nat, None. cbn. rewrite app_nil_r.
    repeat split; auto. discriminate.
  - cbn [nominatim_attempts] in E. unfold bind at 1 in E.
    match type of E with
    | context [try_except ?body ?h s] =>
        assert (Hi : issues [NominatimRequest v] (try_except body h));
        [| destruct (try_except body h s) as [[found | e] s1] eqn:Et ]
    end.
    { apply issues_try_except; [| intros e; apply keeps_ret].
      apply issues_request_bind. intros loc. repeat keeps_step. }
    + pose proof (Hi _ _ _ Et) as T1.
      destruct found as [g |].
      * inversion E; subst. exists 1%nat, (Some g). cbn.
        split; [reflexivity |]. split; [lia |]. split; [exact T1 |].
        split; [discriminate |]. intros g0 Hg. inversion Hg; subst g0.
        clear - Et. apply try_except_ok_inv in Et.
        destruct Et as [E | (e & s1' & _ & E)]; [| discriminate E].
        apply bind_ok_inv in E. destruct E as (loc & s2 & _ & E).
        destruct loc as [loc |]; [| discriminate E]. cbv zeta in E.
        destruct (F.ltb 90 (F.abs (loc_latitude loc))
                  || F.ltb 180 (F.abs (loc_longitude loc))) eqn:V;
          [discriminate E |].
        apply orb_false_both in V. destruct V as [V1 V2].
        inversion E; subst. do 3 eexists. split; [reflexivity |].
        split; now apply validated_within.
      * destruct (IH _ E) as (k & o & -> & Hk & T & Hn & Hs).
        exists (S k), o. cbn.
        split; [reflexivity |]. split; [lia |].
        split; [rewrite T, T1, <- app_assoc; reflexivity |].
        split; [intros H; now rewrite (Hn H) | exact Hs].
    + exfalso. clear - Et. unfold try_except in Et.
      destruct (bind _ _ s) as [[a | e0] s2]; discriminate Et.
Qed.

End Geocoders.

(** ** The geolocation resolver *)

Lemma returns_not_raise {A : Type} (m : M A) (s s' : state) (e : exn) :
  returns m -> m s = (Raise e, s') -> False.
Proof. intros H E. destruct (H s) as (a & s1 & E1). congruence. Qed.

Section GeoResolver.

Variable w : World.

Lemma google_returns (address : string) :
  returns (_geocode_with_google w address).
Proof.
  unfold _geocode_with_google. cbv zeta.
  destruct (_ || _); [apply returns_ret |].
  apply returns_try_except. intros e. apply returns_ret.
Qed.

Lemma photon_returns (address : string) :
  returns (_geocode_with_photon w address).
Proof. apply returns_try_except. intros e. apply returns_ret. Qed.

(** Every way [get_geolocation_info] can end. *)
Lemma get_geolocation_info_cases (address : string) s r s' :
  get_geolocation_info w address s = (r, s') ->
  exists g k tag,
    r = Ok g
    /\ trace s' = (trace s ++ firstn k (geocoding_plan w address))%list
    /\ geo_well_formed g
    /\ Geo.source g = Some tag
    /\ ((whitespace_only address = true
         /\ tag = "simulated_empty_address" /\ k = 0%nat
         /\ Geo.formatted_address g = Some (PyStr address))
        \/ (whitespace_only address = false
            /\ ((tag = "google_maps" /\ k = 1%nat)
                \/ (tag = "nominatim"
                    /\ (k <= length (geocoding_plan w address) - 1)%nat)
                \/ (tag = "photon"
                    /\ k = length (geocoding_plan w address))
                \/ (tag = "simulated_fallback"
                    /\ k = length (geocoding_plan w address)
                    /\ Geo.formatted_address g = Some (PyStr address)))))
    /\ (tag <> "google_maps" ->
        exists lat lon,
          Geo.latitude g = Some lat /\ Geo.longitude g = Some lon
          /\ within 90 lat /\ within 180 lon)
    /\ (tag <> "google_maps" -> tag <> "photon" ->
        exists text : string, Geo.formatted_address g = Some (PyStr text)).
Proof.
  unfold get_geolocation_info.
  destruct (negb (Py.truthy address) || negb (Py.truthy (Py.strip address)))
    eqn:Hb.
  - (* blank address *)
    apply empty_address_test in Hb.
    destruct (simulate_geo_spec w s)
      as (g & lat & lon & E & Hwf & _ & Hlat & Hlon & Rlat & Rlon & _).
    unfold bind. rewrite E. intros H. inversion H; subst; clear H.
    eexists _, 0%nat, _. split; [reflexivity |]. cbn [trace firstn].
    split; [now rewrite app_nil_r |].
    split.
    { destruct Hwf as (a & b & kd & f & H1 & H2 & H3 & H4 & H5 & H6 & H7).
      exists a, b, kd, address. cbn. auto 10. }
    split; [reflexivity |]. split; [left; auto |].
    split; [| intros _ _; exists address; reflexivity].
    intros _. exists (Fin lat), (Fin lon). cbn.
    repeat split; auto; lra.
  - (* the chain of providers *)
    assert (Hnb : whitespace_only address = false).
    { destruct (whitespace_only address) eqn:Hw; [| reflexivity].
      apply empty_address_test in Hw. congruence. }
    unfold geocoding_plan.
    set (G := if negb (Py.truthy_opt (GOOGLE_MAPS_API_KEY w))
                 || (default "" (GOOGLE_MAPS_API_KEY w) =? "")%string
              then [] else [GoogleRequest address]).
    assert (HG : G = [] \/ G = [GoogleRequest address]).
    { unfold G.
      destruct (negb (Py.truthy_opt (GOOGLE_MAPS_API_KEY w))
                || (default "" (GOOGLE_MAPS_API_KEY w) =? "")%string); auto. }
    unfold bind at 1.
    destruct (_geocode_with_google w address s) as [[og | e] s1] eqn:Eg;
      [| intros _; exfalso; eapply returns_not_raise;
         [apply google_returns | exact Eg]].
    pose proof (google_issues w address _ _ _ Eg) as Tg. fold G in Tg.
    destruct og as [g |].
    { (* Google answered *)
      intros H. inversion H; subst r s'; clear H.
      destruct (google_answer w _ _ _ _ Eg) as (Hkey & lat & lon & f & ->).
      assert (HG1 : G = [GoogleRequest address]) by (unfold G; now rewrite Hkey).
      eexists _, 1%nat, _. split; [reflexivity |].
      split; [rewrite Tg, HG1; reflexivity |].
      split; [apply geo_from_coordinates_well_formed |].
      split; [reflexivity |].
      split; [right; split; [exact Hnb | left; auto] |].
      split; intros H; now contradiction H. }
    unfold bind at 1.
    destruct (_geocode_with_nominatim w address s1) as [rn s2] eqn:En.
    unfold _geocode_with_nominatim in En. cbv zeta in En.
    destruct (nominatim_attempts_spec w _ _ _ _ _ En)
      as (kn & o & -> & Hkn & Tn & Hnone & Hsome).
    cbn [length] in Hkn, Hnone.
    destruct o as [g |].
    { (* Nominatim answered *)
      intros H. inversion H; subst r s'; clear H.
      destruct (Hsome g eq_refl) as (lat & lon & f & -> & W1 & W2).
      eexists _, (length G + kn)%nat, _. split; [reflexivity |].
      split.
      { rewrite Tn, Tg, <- app_assoc. f_equal.
        destruct HG as [-> | ->];
          destruct kn as [| [| [| [| n]]]]; try lia; reflexivity. }
      split; [apply geo_from_coordinates_well_formed |].
      split; [reflexivity |].
      split.
      { right. split; [exact Hnb |]. right. left. split; [reflexivity |].
        rewrite length_app. cbn [length]. lia. }
      split; [| intros _ _; exists f; reflexivity].
      intros _. exists lat, lon. cbn. auto. }
    specialize (Hnone eq_refl). subst kn. cbn [firstn map] in Tn.
    unfold bind at 1.
    destruct (_geocode_with_photon w address s2) as [[op | e] s3] eqn:Ep;
      [| intros _; exfalso; eapply returns_not_raise;
         [apply photon_returns | exact Ep]].
    pose proof (photon_issues w address _ _ _ Ep) as Tp.
    assert (Tall : trace s3
                   = (trace s
                      ++ firstn (length (G ++ [NominatimRequest address;
                                   NominatimRequest (address ++ ", USA");
                                   NominatimRequest (address ++ ", United States");
                                   PhotonRequest address]))
                           (G ++ [NominatimRequest address;
                                  NominatimRequest (address ++ ", USA");
                                  NominatimRequest (address ++ ", United States");
                                  PhotonRequest address]))%list).
    { rewrite firstn_all, Tp, Tn, Tg, <- !app_assoc. reflexivity. }
    destruct op as [g |].
    { (* Photon answered *)
      intros H. inversion H; subst r s'; clear H.
      destruct (photon_answer w _ _ _ _ Ep) as (lat & lon & f & -> & W1 & W2).
      eexists _, _, _. split; [reflexivity |].
      split; [exact Tall |].
      split; [apply geo_from_coordinates_well_formed |].
      split; [reflexivity |].
      split; [right; split; [exact Hnb |]; right; right; left; auto |].
      split; [| intros _ H; now contradiction H].
      intros _. exists lat, lon. cbn. auto. }
    (* everything failed *)
    destruct (simulate_geo_spec w s3)
      as (g & lat & lon & E & Hwf & _ & Hlat & Hlon & Rlat & Rlon & _).
    unfold bind. rewrite E. intros H. inversion H; subst r s'; clear H.
    eexists _, _, _. split; [reflexivity |]. cbn [trace].
    split; [exact Tall |].
    split.
    { destruct Hwf as (a & b & kd & f & H1 & H2 & H3 & H4 & H5 & H6 & H7).
      exists a, b, kd, address. cbn. auto 10. }
    split; [reflexivity |].
    split; [right; split; [exact Hnb |]; right; right; right; auto |].
    split; [| intros _ _; exists address; reflexivity].
    intros _. exists (Fin lat), (Fin lon). cbn.
    repeat split; auto; lra.
Qed.

End GeoResolver.

(** The resolver never fails, and what it returns is complete: both
    coordinates, a neighborhood type of the three with its table density
    and risks, an entry for the formatted address, and one of five source
    tags, never the bare "simulated"; the empty-address tag is given exactly
    to blank addresses.  The formatted address is text whenever the source
    is Nominatim or the simulator; Google and Photon pass on what their
    payload holds, text or not. *)
Theorem geolocation_always_resolves (w : World) (address : string) (s : state) :
  exists g s' tag,
    get_geolocation_info w address s = (Ok g, s')
    /\ geo_well_formed g
    /\ Geo.source g = Some tag
    /\ In tag geo_tags
    /\ tag <> "simulated"
    /\ (tag = "simulated_empty_address" <-> whitespace_only address = true)
    /\ (tag <> "google_maps" -> tag <> "photon" ->
        exists text : string, Geo.formatted_address g = Some (PyStr text)).
Proof.
  destruct (get_geolocation_info w address s) as [r s'] eqn:E.
  destruct (get_geolocation_info_cases w _ _ _ _ E)
    as (g & k & tag & -> & _ & Hwf & Hs & Hc & _ & Ht).
  exists g, s', tag. split; [reflexivity |]. split; [exact Hwf |].
  split; [exact Hs |].
  destruct Hc as [(Hb & -> & _) | (Hnb & [(-> & _) | [(-> & _) | [(-> & _) | (-> & _)]]])];
    (split; [simpl; tauto |]); (split; [discriminate |]);
    (split; [| exact Ht]);
    split; intros H; try discriminate H; congruence.
Qed.

(** The requests of the resolver are a prefix of its plan (Google only with
    a key, then the three Nominatim variants, then Photon), so at most five;
    a blank address asks nothing; and the fallback tagged
    "simulated_fallback" comes only after the whole plan was asked, with the
    address of the caller as formatted address. *)
Theorem geocoding_follows_plan (w : World) (address : string) s r s' :
  get_geolocation_info w address s = (r, s') ->
  exists k,
    trace s' = (trace s ++ firstn k (geocoding_plan w address))%list
    /\ (length (firstn k (geocoding_plan w address)) <= 5)%nat
    /\ (whitespace_only address = true -> k = 0%nat)
    /\ (forall g, r = Ok g -> Geo.source g = Some "simulated_fallback" ->
          k = length (geocoding_plan w address)
          /\ Geo.formatted_address g = Some (PyStr address))
    /\ (negb (Py.truthy_opt (GOOGLE_MAPS_API_KEY w))
        || (default "" (GOOGLE_MAPS_API_KEY w) =? "")%string = true ->
        ~ In (GoogleRequest address) (geocoding_plan w address)).
Proof.
  intros E.
  destruct (get_geolocation_info_cases w _ _ _ _ E)
    as (g & k & tag & -> & T & _ & Hs & Hc & _).
  exists k. split; [exact T |].
  split.
  { rewrite length_firstn. unfold geocoding_plan. rewrite length_app.
    destruct (_ || _); cbn [length]; lia. }
  split.
  { intros Hb. destruct Hc as [(_ & _ & -> & _) | (Hnb & _)]; congruence. }
  split.
  { intros g0 Hg Hg0. inversion Hg; subst g0. rewrite Hs in Hg0.
    inversion Hg0; subst tag.
    destruct Hc as [(_ & H & _) | (_ & [(H & _) | [(H & _) | [(H & _) | (_ & Hk & Hf)]]])];
      try discriminate H. auto. }
  intros Hkey. unfold geocoding_plan. rewrite Hkey. cbn.
  intros [H | [H | [H | [H | []]]]]; discriminate H.
Qed.

(** The plan in a world without a key, and the trace of a failed run. *)
Lemma geocoding_follows_plan_witness :
  exists g s',
    get_geolocation_info offline_world "12 Main St" initial_state = (Ok g, s')
    /\ Geo.source g = Some "simulated_fallback"
    /\ trace s' = [NominatimRequest "12 Main St";
                   NominatimRequest "12 Main St, USA";
                   NominatimRequest "12 Main St, United States";
                   PhotonRequest "12 Main St"]
    /\ Geo.formatted_address g = Some (PyStr "12 Main St").
Proof.
  destruct (get_geolocation_info offline_world "12 Main St" initial_state)
    as [r s'] eqn:E.
  assert (Hr : exists g, r = Ok g
                         /\ Geo.source g = Some "simulated_fallback").
  { vm_compute in E. inversion E; subst. eexists. split; reflexivity. }
  destruct Hr as (g & -> & Hs).
  destruct (geocoding_follows_plan offline_world "12 Main St" _ _ _ E)
    as (k & T & _ & _ & Hf & _).
  destruct (Hf g eq_refl Hs) as [-> Hfa].
  exists g, s'. split; [reflexivity |]. split; [exact Hs |].
  split; [exact T | exact Hfa].
Defined.

(** Coordinates that did not come from Google are legal: each is NaN or a
    finite value, the latitude in [-90, 90] and the longitude in
    [-180, 180].  (The Google branch does not check its coordinates.) *)
Theorem geolocation_coordinates_are_legal
    (w : World) (address : string) s g s' :
  get_geolocation_info w address s = (Ok g, s') ->
  Geo.source g <> Some "google_maps" ->
  exists lat lon,
    Geo.latitude g = Some lat /\ Geo.longitude g = Some lon
    /\ within 90 lat /\ within 180 lon.
Proof.
  intros E Hs.
  destruct (get_geolocation_info_cases w _ _ _ _ E)
    as (g0 & k & tag & Hg & _ & _ & Ht & _ & Hw & _).
  inversion Hg; subst g0. apply Hw. intros ->. contradiction.
Qed.

Lemma geolocation_coordinates_are_legal_witness :
  exists g s' lat lon,
    get_geolocation_info offline_world "12 Main St" initial_state = (Ok g, s')
    /\ Geo.latitude g = Some lat /\ Geo.longitude g = Some lon
    /\ within 90 lat /\ within 180 lon.
Proof.
  destruct (get_geolocation_info offline_world "12 Main St" initial_state)
    as [r s'] eqn:E.
  assert (Hr : exists g, r = Ok g
                         /\ Geo.source g = Some "simulated_fallback").
  { vm_compute in E. inversion E; subst. eexists. split; reflexivity. }
  destruct Hr as (g & -> & Hs).
  assert (Hn : Geo.source g <> Some "google_maps")
    by (rewrite Hs; discriminate).
  destruct (geolocation_coordinates_are_legal _ _ _ _ _ E Hn)
    as (lat & lon & H).
  exists g, s', lat, lon. split; [reflexivity | exact H].
Defined.

(** ** Crime dictionaries stay inside their ranges *)

Lemma int_nonneg (q : Q) : (0 <= q)%Q -> 0 <= Py.int q.
Proof.
  intros H. unfold Py.int.
  apply Qle_bool_iff in H. rewrite H. apply Qle_bool_iff in H.
  apply Qfloor_resp_le in H. exact H.
Qed.

Lemma ratio_index_range (floor mult count total : Z) :
  0 <= floor <= 100 -> floor <= ratio_index floor mult count total <= 100.
Proof. unfold ratio_index. cbv zeta. lia. Qed.

Lemma count_nonneg {A : Type} (test : A -> bool) (l : list A) (n : Z) :
  0 <= n -> 0 <= fold_left (fun n x => if test x then n + 1 else n) l n.
Proof.
  revert n. induction l as [| x l IH]; intros n H; cbn; [exact H |].
  apply IH. destruct (test x); lia.
Qed.

(** [random.randint(a, b)] stays in [a, b]. *)
Lemma randint_range (w : World) (a b : Z) (s : state) :
  a <= b ->
  exists v, random_randint w a b s = (Ok v, State (trace s) (S (draws s)))
            /\ a <= v <= b.
Proof.
  intros H. cbv [random_randint random_random bind ret].
  eexists. split; [reflexivity |].
  pose proof (mod1_range (random_stream w (draws s))) as [H0 H1].
  set (u := Py.mod1 _) in *.
  assert (L : (0 <= u * inject_Z (b - a + 1))%Q).
  { apply Qmult_le_0_compat; [exact H0 |].
    change 0%Q with (inject_Z 0). rewrite <- Zle_Qle. lia. }
  assert (U : (u * inject_Z (b - a + 1) < inject_Z (b - a + 1))%Q).
  { rewrite <- (Qmult_1_l (inject_Z (b - a + 1))) at 2.
    apply Qmult_lt_compat_r; [| exact H1].
    change 0%Q with (inject_Z 0). rewrite <- Zlt_Qlt. lia. }
  apply Qfloor_resp_le in L. change (Qfloor 0) with 0 in L.
  assert (F : Qfloor (u * inject_Z (b - a + 1)) < b - a + 1).
  { apply Z.lt_nge. intros C. rewrite Zle_Qle in C.
    pose proof (Qfloor_le (u * inject_Z (b - a + 1))). lra. }
  lia.
Qed.

Lemma simulate_crime_well_formed (w : World) (s : state) :
  exists r,
    simulate_crime w s = (Ok r, State (trace s) (3 + draws s))
    /\ crime_well_formed r
    /\ Crime.source r = Some "simulated".
Proof.
  unfold simulate_crime.
  destruct (randint_range w 20 80 s ltac:(lia)) as (v & Ev & Hv).
  destruct (randint_range w 15 70 (State (trace s) (S (draws s))) ltac:(lia))
    as (p & Ep & Hp).
  destruct (randint_range w 0 10
              (State (trace s) (S (S (draws s)))) ltac:(lia))
    as (r & Er & Hr).
  cbn [trace draws] in Ep, Er.
  unfold bind. rewrite Ev, Ep, Er. cbn.
  eexists. split; [reflexivity |]. split; [| reflexivity].
  exists v, p, r. cbn. repeat split; lia.
Qed.

Lemma set_source_well_formed (tag : string) (r : Crime.t) :
  crime_well_formed r -> crime_well_formed (Crime.set_source tag r).
Proof.
  intros (v & p & c & H). exists v, p, c. exact H.
Qed.

Section CrimeRanges.

Variable w : World.

Lemma chicago_well_formed lat lon s s' r :
  _query_chicago_crime_api w lat lon s = (Ok (Some r), s') ->
  crime_well_formed r.
Proof.
  unfold _query_chicago_crime_api. cbv zeta. intros E.
  apply try_except_ok_inv in E.
  destruct E as [E | (e & s1 & _ & E)]; [| discriminate E].
  apply bind_ok_inv in E. destruct E as (resp & s1 & _ & E).
  apply bind_ok_inv in E. destruct E as (resp2 & s2 & _ & E).
  destruct (negb (status_code resp2 =? 200)%Z); [discriminate E |].
  apply bind_ok_inv in E. destruct E as (data & s3 & _ & E).
  destruct data as [| d0 data]; [discriminate E |].
  inversion E; subst; clear E.
  do 3 eexists. cbn [Crime.violent_crime_index Crime.property_crime_index
                     Crime.recent_incidents].
  split; [reflexivity |]. split; [reflexivity |]. split; [reflexivity |].
  split; [| split].
  - match goal with
    | |- _ <= ratio_index ?f ?m ?c ?t <= _ =>
        pose proof (ratio_index_range f m c t ltac:(lia))
    end. lia.
  - match goal with
    | |- _ <= ratio_index ?f ?m ?c ?t <= _ =>
        pose proof (ratio_index_range f m c t ltac:(lia))
    end. lia.
  - match goal with
    | |- _ <= Z.min 30 ?n <= _ => assert (0 <= n)
    end; [| lia].
    apply (count_nonneg
             (fun crime =>
                Py.truthy (field crime "date")
                && String.leb (date_days_ago w 7) (field crime "date"))).
    try destruct (_ && _); lia.
Qed.

Lemma simple_portal_well_formed url order category vw pw vf pf mult tag
    s s' r :
  0 <= vf <= 100 -> 0 <= pf <= 100 ->
  query_simple_portal w url order category vw pw vf pf mult tag s
  = (Ok (Some r), s') ->
  crime_well_formed r.
Proof.
  intros Hvf Hpf. unfold query_simple_portal. cbv zeta. intros E.
  apply try_except_ok_inv in E.
  destruct E as [E | (e & s1 & _ & E)]; [| discriminate E].
  apply bind_ok_inv in E. destruct E as (resp & s1 & _ & E).
  destruct (negb (status_code resp =? 200)%Z); [discriminate E |].
  apply bind_ok_inv in E. destruct E as (data & s3 & _ & E).
  destruct data as [| d0 data]; [discriminate E |].
  inversion E; subst; clear E.
  do 3 eexists. cbn [Crime.violent_crime_index Crime.property_crime_index
                     Crime.recent_incidents].
  split; [reflexivity |]. split; [reflexivity |]. split; [reflexivity |].
  split; [| split].
  - match goal with
    | |- _ <= ratio_index ?f ?m ?c ?t <= _ =>
        pose proof (ratio_index_range f m c t Hvf)
    end. lia.
  - match goal with
    | |- _ <= ratio_index ?f ?m ?c ?t <= _ =>
        pose proof (ratio_index_range f m c t Hpf)
    end. lia.
  - match goal with
    | |- _ <= Z.min 20 (?t / 25) <= _ =>
        assert (0 <= t / 25) by (apply Z.div_pos; lia)
    end. lia.
Qed.

Lemma city_api_well_formed city lat lon s s' r :
  _query_city_crime_api w city lat lon s = (Ok (Some r), s') ->
  crime_well_formed r.
Proof.
  unfold _query_city_crime_api, _query_nyc_crime_api, _query_la_crime_api,
    _query_sf_crime_api.
  repeat match goal with
         | |- (if ?b then _ else _) _ = _ -> _ => destruct b
         end;
    intros E;
    first [ now apply chicago_well_formed in E
          | apply simple_portal_well_formed in E; [exact E | lia | lia]
          | discriminate E ].
Qed.

Lemma guarded_query_well_formed (guard : bool) city lat lon s s' r :
  (if guard then _query_city_crime_api w city lat lon else ret None) s
  = (Ok (Some r), s') ->
  crime_well_formed r.
Proof.
  destruct guard; intros E;
    [now apply city_api_well_formed in E | discriminate E].
Qed.

End CrimeRanges.

(** Signs of the float expressions of the estimation. *)
Lemma not_negative_mod1 (x : pyfloat) : not_negative (F.mod1 x).
Proof. destruct x; cbn; auto. apply mod1_range. Qed.

Lemma not_negative_abs (x : pyfloat) : not_negative (F.abs x).
Proof. destruct x; cbn; auto. apply Qabs_nonneg. Qed.

Lemma not_negative_mul (x y : pyfloat) :
  not_negative x -> not_negative y -> not_negative (F.mul x y).
Proof.
  destruct x as [a | |], y as [b | |]; cbn; auto.
  - apply Qmult_le_0_compat.
  - intros _ _. now destruct (Qeq_bool a 0).
  - intros _ _. now destruct (Qeq_bool b 0).
Qed.

Lemma not_negative_add (x y : pyfloat) :
  not_negative x -> not_negative y -> not_negative (F.add x y).
Proof.
  destruct x as [a | |], y as [b | |]; cbn; auto.
  - intros. lra.
  - intros _ _. now destruct (Bool.eqb _ _).
Qed.

Lemma not_negative_div_by (x : pyfloat) (c : Q) :
  (0 < c)%Q -> not_negative x -> not_negative (F.div_by x c).
Proof.
  destruct x as [a | |]; cbn; auto. intros Hc Ha.
  unfold Qdiv. apply Qmult_le_0_compat; [exact Ha |].
  apply Qlt_le_weak, Qinv_lt_0_compat, Hc.
Qed.

Lemma F_int_nonneg (x : pyfloat) (v : Z) :
  F.int x = Ok v -> not_negative x -> 0 <= v.
Proof.
  destruct x as [q | |]; cbn; try discriminate.
  intros E H. inversion E. now apply int_nonneg.
Qed.

Lemma not_negative_const (q : Q) : (0 <= q)%Q -> not_negative (Fin q).
Proof. auto. Qed.

Section EstimationRanges.

Variable w : World.

(** Whatever the estimation returns lies inside the ranges. *)
Lemma estimate_well_formed (lat lon : pyfloat) s s' r :
  _get_crime_from_coordinates w lat lon s = (Ok r, s') ->
  crime_well_formed r.
Proof.
  unfold _get_crime_from_coordinates.
  repeat match goal with
         | |- context [if ?b then _ else _] =>
             match b with
             | context [F.leb] => destruct b
             end
         end;
    cbv zeta; intros E;
    repeat (apply bind_ok_inv in E;
            let v := fresh "v" in
            let El := fresh "El" in
            let s1 := fresh "s" in
            destruct E as (v & s1 & El & E);
            unfold lift in El; apply pair_equal_spec in El;
            destruct El as [El <-];
            match goal with
            | H : F.int _ = Ok v |- _ =>
                apply F_int_nonneg in H;
                [| repeat first
                     [ apply not_negative_mod1 | apply not_negative_abs
                     | apply not_negative_mul | apply not_negative_add
                     | apply not_negative_div_by; [reflexivity |]
                     | apply not_negative_const; discriminate ] ]
            end);
    inversion E; subst; unfold crime_well_formed; do 3 eexists;
    cbn [Crime.violent_crime_index Crime.property_crime_index
         Crime.recent_incidents];
    (split; [reflexivity |]); (split; [reflexivity |]);
    (split; [reflexivity |]); lia.
Qed.

End EstimationRanges.

Section CrimeResolverRanges.

Variable w : World.

(** The geocoding branch of the body, for [body_well_formed]. *)
Ltac geocoded_ranges E city :=
  apply bind_ok_inv in E; destruct E as (geocoded & s3 & E3 & E);
    destruct geocoded as [res |];
    [ inversion E; subst; clear E;
      apply try_except_ok_inv in E3;
      destruct E3 as [E3 | (e & s4 & _ & E3)]; [| discriminate E3];
      apply bind_ok_inv in E3; destruct E3 as (loc & s4 & _ & E3);
      destruct loc as [loc |]; [| discriminate E3];
      apply bind_ok_inv in E3; destruct E3 as (api3 & s5 & E5 & E3);
      destruct api3 as [r3 |];
      [ inversion E3; subst; clear E3;
        destruct (negb (Py.truthy_opt city)); [| discriminate E5];
        destruct (_detect_city_from_address _ _ _); [| discriminate E5];
        now apply guarded_query_well_formed in E5
      | apply bind_ok_inv in E3; destruct E3 as (res & s6 & E6 & E3);
        inversion E3; subst; apply set_source_well_formed;
        now apply estimate_well_formed in E6 ]
    | apply bind_ok_inv in E; destruct E as (res & s4 & E4 & E);
      inversion E; subst; apply set_source_well_formed;
      destruct (simulate_crime_well_formed w s3) as (r0 & E0 & H0 & _);
      rewrite E0 in E4; inversion E4; subst; exact H0 ].

Lemma body_well_formed address latitude longitude city s s' r :
  get_crime_data_body w address latitude longitude city s = (Ok r, s') ->
  crime_well_formed r.
Proof.
  unfold get_crime_data_body. intros E.
  apply bind_ok_inv in E. destruct E as (api1 & s1 & E1 & E).
  destruct api1 as [r1 |].
  { inversion E; subst; clear E.
    destruct (Py.truthy_opt city); [| discriminate E1].
    destruct latitude as [lat |]; [| discriminate E1].
    destruct longitude as [lon |]; [| discriminate E1].
    now apply guarded_query_well_formed in E1. }
  clear E1.
  apply bind_ok_inv in E. destruct E as (api2 & s2 & E2 & E).
  destruct api2 as [r2 |].
  { inversion E; subst; clear E.
    destruct (negb (Py.truthy_opt city) && Py.truthy address);
      [| discriminate E2].
    destruct (_detect_city_from_address address latitude longitude);
      [| discriminate E2].
    destruct latitude as [lat |]; [| discriminate E2].
    destruct longitude as [lon |]; [| discriminate E2].
    now apply guarded_query_well_formed in E2. }
  clear E2.
  destruct latitude as [lat |], longitude as [lon |].
  - apply bind_ok_inv in E. destruct E as (res & s3 & E3 & E).
    apply estimate_well_formed in E3.
    destruct (Crime.source res); inversion E; subst;
      [exact E3 | now apply set_source_well_formed].
  - geocoded_ranges E city.
  - geocoded_ranges E city.
  - geocoded_ranges E city.
Qed.

End CrimeResolverRanges.

Lemma well_formed_is_valid (c : Crime.t) : crime_well_formed c -> valid_crime c.
Proof.
  intros (v & p & r & Hv & Hp & Hr & H). unfold valid_crime.
  rewrite Hv, Hp, Hr. cbn. tauto.
Qed.

Lemma get_crime_data_ranges
    (w : World) (address : string) (latitude longitude : option pyfloat)
    (city : option string) (s : state) :
  exists r s',
    get_crime_data w address latitude longitude city s = (Ok r, s')
    /\ crime_well_formed r
    /\ valid_crime r.
Proof.
  unfold get_crime_data.
  destruct (get_crime_data_body w address latitude longitude city s)
    as [[r0 | e] s1] eqn:E.
  - exists r0, s1. split; [now apply try_except_ok |].
    apply body_well_formed in E. split; [exact E |].
    now apply well_formed_is_valid.
  - destruct (simulate_crime_well_formed w s1) as (r1 & E1 & H1 & _).
    exists (Crime.set_source "simulated_error" r1),
      (State (trace s1) (3 + draws s1)).
    split.
    { rewrite (try_except_raise _ _ _ _ _ E). unfold bind. rewrite E1.
      reflexivity. }
    assert (H : crime_well_formed (Crime.set_source "simulated_error" r1))
      by now apply set_source_well_formed.
    split; [exact H | now apply well_formed_is_valid].
Qed.

(** Every crime dictionary that [get_crime_data] returns, from a portal,
    from the estimation or from the simulator, holds its three indices and
    keeps them inside their ranges: both indices in [0, 100] and the recent
    incidents in [0, 30], the input that the scorer expects.  It also holds
    a source tag: that of a portal, one of the estimation,
    "coordinate_based", "simulated" or "simulated_error". *)
Theorem crime_data_stays_in_range
    (w : World) (address : string) (latitude longitude : option pyfloat)
    (city : option string) (s : state) :
  exists r s' tag,
    get_crime_data w address latitude longitude city s = (Ok r, s')
    /\ crime_well_formed r
    /\ valid_crime r
    /\ Crime.source r = Some tag
    /\ (In tag api_tags
        \/ Py.startswith tag "coordinate_estimation_" = true
        \/ In tag ["coordinate_based"; "simulated"; "simulated_error"]).
Proof.
  destruct (get_crime_data_ranges w address latitude longitude city s)
    as (r & s' & E & Hwf & Hv).
  destruct (get_crime_data_outcome w address latitude longitude city s)
    as (r0 & s0 & E0 & _ & Hraise & Hok).
  rewrite E in E0. inversion E0; subst r0 s0; clear E0.
  destruct (get_crime_data_body w address latitude longitude city s)
    as [[rb | e] sb] eqn:Eb.
  - destruct (Hok _ _ eq_refl) as [-> _].
    apply body_provenance in Eb. destruct Eb as (tag & Ht & Hk).
    exists rb, s', tag. repeat (split; [assumption |]).
    destruct Hk as [H | [H | [[-> | ->] _]]]; auto; right; right;
      simpl; tauto.
  - exists r, s', "simulated_error". repeat (split; [assumption |]).
    split; [eapply Hraise; reflexivity |]. right; right. simpl. tauto.
Qed.

(** ** The endpoint *)

Lemma recommendations_not_empty (score : Q) :
  generate_recommendations score <> [].
Proof.
  unfold generate_recommendations.
  destruct (Py.ltb 75 score); [discriminate |].
  destruct (Py.ltb 60 score); [discriminate |].
  destruct (Py.ltb 40 score); discriminate.
Qed.

(** With both coordinates given the crime source is never "simulated". *)
Lemma given_coordinates_not_simulated
    (w : World) (address : string) (lat lon : pyfloat)
    (city : option string) s r s' :
  get_crime_data w address (Some lat) (Some lon) city s = (Ok r, s') ->
  exists tag, Crime.source r = Some tag /\ tag <> "simulated".
Proof.
  intros E.
  destruct (get_crime_data_outcome w address (Some lat) (Some lon) city s)
    as (r0 & s0 & E0 & _ & Hraise & Hok).
  rewrite E0 in E. inversion E; subst r0 s0; clear E.
  destruct (get_crime_data_body w address (Some lat) (Some lon) city s)
    as [[rb | e] sb] eqn:Eb.
  - destruct (Hok _ _ eq_refl) as [-> _].
    apply body_provenance in Eb.
    destruct Eb as (tag & Ht & [Hin | [Hp | [_ [H | H]]]]);
      try discriminate H; exists tag; (split; [exact Ht |]); intros ->.
    + simpl in Hin. intuition discriminate.
    + discriminate Hp.
  - exists "simulated_error". split; [eapply Hraise; reflexivity | discriminate].
Qed.

Section Endpoint.

Variable w : World.
Variable supported_cities : list string.

(** The two ways [assess_risk] ends.  The resolver always gives a
    dictionary; when its formatted address is text the crime data are
    looked up and the response is built, otherwise [lower] fails on it and
    the failure leaves as an [HTTPException]. *)
Lemma assess_risk_answer (payload : Payload.t) (s : state) :
  exists g s1,
    get_geolocation_info w (Payload.address payload) s = (Ok g, s1)
    /\ match read_formatted_address payload g with
       | PyStr text =>
           exists c s2,
             get_crime_data w (Payload.address payload) (Geo.latitude g)
               (Geo.longitude g)
               (List.find
                  (fun city_name => Py.contains city_name (Py.lower text))
                  supported_cities) s1
             = (Ok c, s2)
             /\ assess_risk w supported_cities payload s
                = (Ok (built_response payload g c), s2)
       | _ =>
           assess_risk w supported_cities payload s
           = (Raise (OtherException "HTTPException 500"), s1)
       end.
Proof.
  destruct (get_geolocation_info w (Payload.address payload) s)
    as [rg s1] eqn:Eg.
  destruct (get_geolocation_info_cases w _ _ _ _ Eg)
    as (g & _ & _ & -> & _).
  exists g, s1. split; [reflexivity |].
  unfold assess_risk, bind, try_except. rewrite Eg. cbv zeta.
  fold (read_formatted_address payload g).
  destruct (read_formatted_address payload g) as [| b | n | x | text | l | d];
    cbn [str_lower lift raise]; try reflexivity.
  destruct (get_crime_data_outcome w (Payload.address payload)
              (Geo.latitude g) (Geo.longitude g)
              (List.find
                 (fun city_name => Py.contains city_name (Py.lower text))
                 supported_cities) s1) as (c & s2 & Ec & _).
  exists c, s2. split; [exact Ec |]. rewrite Ec. cbn [ret].
  unfold built_response. cbv zeta.
  destruct (compute_overall_score _ c g) eqn:Eo. reflexivity.
Qed.

End Endpoint.

Lemma dimensions_in_range
    (crime : Crime.t) (geo : Geo.t) (prop : PropertyInfo.t)
    (property_type : string) (fenced gated : bool)
    (hours notes : option string) (key : string) :
  crime_well_formed crime ->
  In key dimension_keys ->
  0 <= dim_get (compute_risk_dimensions crime geo prop property_type
                  fenced gated hours notes) key <= 100.
Proof.
  intros (v & p & r & Hv & Hp & Hr & Rv & Rp & Rr) Hk.
  assert (H : exists x,
             compute_risk_dimensions crime geo prop property_type
               fenced gated hours notes !! key = Some x /\ 0 <= x <= 100).
  { simpl in Hk. destruct Hk as [<- | [<- | [<- | [<- | [<- | []]]]]].
    - apply crime_risk_range; rewrite ?Hv, ?Hp, ?Hr; cbn; lia.
    - apply property_exposure_risk_range.
    - apply accessibility_risk_range.
    - apply neighborhood_risk_range.
    - apply operational_risk_range. }
  destruct H as (x & Hx & Rx). unfold dim_get. now rewrite Hx.
Qed.

(** A formatted address that is not text comes from Google or Photon. *)
Lemma formatted_address_not_text
    (w : World) (payload : Payload.t) (s s1 : state) (g : Geo.t) :
  get_geolocation_info w (Payload.address payload) s = (Ok g, s1) ->
  (forall text, read_formatted_address payload g <> PyStr text) ->
  Geo.source g = Some "google_maps" \/ Geo.source g = Some "photon".
Proof.
  intros Eg Hn.
  destruct (get_geolocation_info_cases w _ _ _ _ Eg)
    as (g0 & k & tag & Hg & _ & _ & Hs & _ & _ & Ht).
  inversion Hg; subst g0. rewrite Hs.
  destruct (string_dec tag "google_maps") as [-> | N1]; [now left |].
  destruct (string_dec tag "photon") as [-> | N2]; [now right |].
  destruct (Ht N1 N2) as (text & Hf). exfalso. apply (Hn text).
  unfold read_formatted_address. now rewrite Hf.
Qed.

(** The endpoint ends in one of two ways, decided by the formatted address
    of the resolver.  When that is text it answers: it echoes the payload,
    gives five dimensions and an overall score in [0, 100], the
    recommendations of that score (never an empty list), and always a pair
    of coordinates.  When it is not text, which only a payload of Google or
    of Photon can cause, it answers with the error 500 and asks nothing
    after the geocoding. *)
Theorem assess_risk_outcomes
    (w : World) (supported_cities : list string) (payload : Payload.t)
    (s : state) :
  exists g s1,
    get_geolocation_info w (Payload.address payload) s = (Ok g, s1)
    /\ match read_formatted_address payload g with
       | PyStr _ =>
           exists resp s',
             assess_risk w supported_cities payload s = (Ok resp, s')
             /\ ApiResponse.address resp = Payload.address payload
             /\ ApiResponse.property_type resp = Payload.property_type payload
             /\ (forall key, In key dimension_keys ->
                   0 <= dim_get (ApiResponse.risk_dimensions resp) key <= 100)
             /\ (0 <= ApiResponse.overall_score resp <= 100)%Q
             /\ ApiResponse.recommendations resp
                = generate_recommendations (ApiResponse.overall_score resp)
             /\ ApiResponse.recommendations resp <> []
             /\ (exists lat lon,
                   ApiResponse.coordinates resp = Some (lat, lon))
       | _ =>
           assess_risk w supported_cities payload s
           = (Raise (OtherException "HTTPException 500"), s1)
           /\ (Geo.source g = Some "google_maps"
               \/ Geo.source g = Some "photon")
       end.
Proof.
  destruct (assess_risk_answer w supported_cities payload s)
    as (g & s1 & Eg & Ha).
  exists g, s1. split; [exact Eg |].
  pose proof (formatted_address_not_text w payload s s1 g Eg) as Hsrc.
  destruct (read_formatted_address payload g) as [| b | n | x | text | l | d];
    try (split; [exact Ha | apply Hsrc; intros text; discriminate]).
  destruct Ha as (c & s2 & Ec & Ea).
  eexists _, s2. split; [exact Ea |].
  unfold built_response.
  cbn [ApiResponse.address ApiResponse.property_type
       ApiResponse.risk_dimensions ApiResponse.overall_score
       ApiResponse.recommendations ApiResponse.coordinates].
  split; [reflexivity |]. split; [reflexivity |].
  split.
  { intros key Hk. apply dimensions_in_range; [| exact Hk].
    destruct (get_crime_data_ranges w (Payload.address payload)
                (Geo.latitude g) (Geo.longitude g)
                (List.find
                   (fun city_name => Py.contains city_name (Py.lower text))
                   supported_cities) s1) as (c' & s2' & Ec' & Hwf & _).
    rewrite Ec in Ec'. inversion Ec'; subst. exact Hwf. }
  split; [apply overall_score_range |].
  split; [reflexivity |].
  split; [apply recommendations_not_empty |].
  destruct (get_geolocation_info_cases w _ _ _ _ Eg)
    as (g0 & _ & _ & Hg & _ & Hwf & _).
  inversion Hg; subst g0.
  destruct Hwf as (lat & lon & _ & _ & Hlat & Hlon & _).
  exists lat, lon. now rewrite Hlat, Hlon.
Qed.

(** The second way, met: Photon answers with a null name, the resolver
    passes [None] on as the formatted address, and the endpoint ends with
    the error 500 after the four geocoding requests. *)
Example null_name_ends_in_error_500 :
  exists g s1,
    get_geolocation_info nameless_photon_world "12 Main St" initial_state
    = (Ok g, s1)
    /\ Geo.source g = Some "photon"
    /\ Geo.formatted_address g = Some PyNone
    /\ length (trace s1) = 4%nat
    /\ assess_risk nameless_photon_world ["chicago"; "new york"]
         (Payload.mk "12 Main St" "home" true false None None) initial_state
       = (Raise (OtherException "HTTPException 500"), s1).
Proof.
  eexists _, _. split; [vm_compute; reflexivity |].
  repeat split; vm_compute; reflexivity.
Qed.

(** Whenever the endpoint answers, the confidence it reports is 1.0.  The
    geolocation is never tagged with the bare "simulated" (simulated
    geolocations carry "simulated_fallback" or "simulated_empty_address"),
    and since coordinates are always passed on, the crime data are never
    tagged "simulated" either; so the test of [compute_overall_score] takes
    its first branch even when every provider is down. *)
Theorem assess_risk_confidence_is_one
    (w : World) (supported_cities : list string) (payload : Payload.t)
    (s : state) (resp : ApiResponse.t) (s' : state) :
  assess_risk w supported_cities payload s = (Ok resp, s') ->
  ApiResponse.confidence resp = 1.0%Q
  /\ In (ApiResponse.geolocation_source resp) geo_tags
  /\ ApiResponse.crime_data_source resp <> "simulated".
Proof.
  intros E.
  destruct (assess_risk_answer w supported_cities payload s)
    as (g & s1 & Eg & Ha).
  destruct (read_formatted_address payload g) as [| b | n | x | text | l | d];
    try (rewrite Ha in E; discriminate E).
  destruct Ha as (c & s2 & Ec & Ea).
  rewrite Ea in E. inversion E; subst resp s'; clear E.
  unfold built_response.
  cbn [ApiResponse.confidence ApiResponse.geolocation_source
       ApiResponse.crime_data_source].
  destruct (get_geolocation_info_cases w _ _ _ _ Eg)
    as (g0 & k & gtag & Hg & _ & Hwf & Hs & Hc & _).
  inversion Hg; subst g0.
  destruct Hwf as (lat & lon & _ & _ & Hlat & Hlon & _).
  rewrite Hlat, Hlon in Ec.
  destruct (given_coordinates_not_simulated _ _ _ _ _ _ _ _ Ec)
    as (ctag & Hct & Hne).
  assert (Hgt : In gtag geo_tags /\ gtag <> "simulated").
  { destruct Hc as [(_ & -> & _) | (_ & [(-> & _) | [(-> & _) | [(-> & _) | (-> & _)]]])];
      (split; [simpl; tauto | discriminate]). }
  destruct Hgt as [Hin Hgne].
  rewrite Hs, Hct. cbn [from_option id].
  split; [| split; [exact Hin | exact Hne]].
  apply confidence_table; unfold crime_source_of, geo_source_of;
    rewrite ?Hs, ?Hct; cbn; assumption.
Qed.

(** With every provider down the endpoint still answers, with confidence
    1.0. *)
Lemma assess_risk_confidence_is_one_witness :
  exists resp s',
    assess_risk offline_world ["chicago"; "new york"]
      (Payload.mk "12 Main St" "home" true false None None) initial_state
    = (Ok resp, s')
    /\ ApiResponse.confidence resp = 1.0%Q.
Proof.
  destruct (assess_risk offline_world ["chicago"; "new york"]
              (Payload.mk "12 Main St" "home" true false None None)
              initial_state) as [r s'] eqn:E.
  assert (Hr : exists resp, r = Ok resp).
  { vm_compute in E. inversion E; subst. eexists. reflexivity. }
  destruct Hr as (resp & ->).
  exists resp, s'. split; [reflexivity |].
  exact (proj1 (assess_risk_confidence_is_one _ _ _ _ _ _ E)).
Defined.

(** ** Validation of the payload *)

Lemma rstrip_cons (c : ascii) (s : string) :
  Py.rstrip (String c s)
  = match Py.rstrip s with
    | EmptyString => if Py.isspace c then EmptyString else String c EmptyString
    | r => String c r
    end.
Proof. reflexivity. Qed.

Lemma rstrip_idem (s : string) : Py.rstrip (Py.rstrip s) = Py.rstrip s.
Proof.
  induction s as [| c s IH]; [reflexivity |]. rewrite rstrip_cons.
  destruct (Py.rstrip s) as [| c' r] eqn:E.
  - destruct (Py.isspace c) eqn:Hc; [reflexivity |].
    rewrite rstrip_cons. cbn. now rewrite Hc.
  - rewrite rstrip_cons, IH. reflexivity.
Qed.

Lemma rstrip_keeps_head (c : ascii) (s : string) :
  Py.isspace c = false ->
  Py.rstrip (String c s) = String c (Py.rstrip s).
Proof.
  intros Hc. rewrite rstrip_cons. destruct (Py.rstrip s); [| reflexivity].
  now rewrite Hc.
Qed.

Lemma lstrip_head (s : string) :
  Py.lstrip s = ""
  \/ exists c t, Py.lstrip s = String c t /\ Py.isspace c = false.
Proof.
  induction s as [| c s IH]; [now left |]. cbn.
  destruct (Py.isspace c) eqn:Hc; [exact IH |]. right. now exists c, s.
Qed.

(** What [strip] returns is empty or has no blank at either end, and
    stripping it again changes nothing. *)
Lemma strip_shape (s : string) :
  Py.strip s = ""
  \/ exists c t, Py.strip s = String c t /\ Py.isspace c = false.
Proof.
  unfold Py.strip. destruct (lstrip_head s) as [-> | (c & t & -> & Hc)].
  - now left.
  - right. exists c, (Py.rstrip t). now rewrite rstrip_keeps_head.
Qed.

Lemma strip_idem (s : string) : Py.strip (Py.strip s) = Py.strip s.
Proof.
  unfold Py.strip at 2 3.
  destruct (lstrip_head s) as [-> | (c & t & -> & Hc)]; [reflexivity |].
  rewrite rstrip_keeps_head by exact Hc.
  unfold Py.strip. cbn [Py.lstrip]. rewrite Hc.
  rewrite rstrip_keeps_head by exact Hc. now rewrite rstrip_idem.
Qed.

Lemma strip_not_blank (s : string) :
  whitespace_only s = false -> whitespace_only (Py.strip s) = false.
Proof.
  intros H. destruct (strip_shape s) as [E | (c & t & E & Hc)].
  - exfalso.
    assert (T : negb (Py.truthy s) || negb (Py.truthy (Py.strip s)) = true)
      by (rewrite E; apply orb_true_r).
    apply empty_address_test in T. congruence.
  - rewrite E. cbn. now rewrite Hc.
Qed.

Lemma allowed_type_iff (x : string) (l : list string) :
  bool_decide (x ∈ (list_to_set l : gset string)) = true <-> In x l.
Proof.
  rewrite bool_decide_eq_true, elem_of_list_to_set. apply list_elem_of_In.
Qed.

Lemma validate_address_ok (v : string) :
  whitespace_only v = false -> validate_address v = Ok (Py.strip v).
Proof.
  intros H. unfold validate_address.
  destruct (negb (Py.truthy v) || negb (Py.truthy (Py.strip v))) eqn:E;
    [| reflexivity].
  apply empty_address_test in E. congruence.
Qed.

Lemma validate_address_raise (v : string) :
  whitespace_only v = true -> validate_address v = Raise ValueError.
Proof.
  intros H. unfold validate_address.
  apply empty_address_test in H. now rewrite H.
Qed.

Lemma lower_allowed (t : string) :
  In t ["home"; "rental"; "vacation home"; "business"] -> Py.lower t = t.
Proof.
  intros [<- | [<- | [<- | [<- | []]]]]; reflexivity.
Qed.

Lemma validate_property_type_ok (v : string) :
  In (Py.lower v) ["home"; "rental"; "vacation home"; "business"] ->
  validate_property_type v = Ok (Py.lower v).
Proof.
  intros H. unfold validate_property_type. cbv zeta.
  apply allowed_type_iff in H. now rewrite H.
Qed.

Lemma validate_property_type_raise (v : string) :
  ~ In (Py.lower v) ["home"; "rental"; "vacation home"; "business"] ->
  validate_property_type v = Raise ValueError.
Proof.
  intros H. unfold validate_property_type. cbv zeta.
  destruct (bool_decide _) eqn:E; [| reflexivity].
  apply allowed_type_iff in E. contradiction.
Qed.

(** [AssessmentInput] accepts exactly a non-blank address with a property
    type that is, up to case, one of the four categories.  What it builds
    holds the stripped address and the lower-case category; validating that
    again changes nothing; the address is never blank, so the resolver never
    takes it for an empty one; and the category always has its own base
    exposure, never the default 30 of the lookup. *)
Theorem validated_payload
    (address property_type : string) (fenced gated : bool)
    (operating_hours notes : option string) :
  let allowed := ["home"; "rental"; "vacation home"; "business"] in
  ((exists payload,
      AssessmentInput address property_type fenced gated operating_hours notes
      = Ok payload)
   <-> whitespace_only address = false /\ In (Py.lower property_type) allowed)
  /\ (forall payload,
        AssessmentInput address property_type fenced gated
          operating_hours notes = Ok payload ->
        Payload.address payload = Py.strip address
        /\ whitespace_only (Payload.address payload) = false
        /\ Payload.property_type payload = Py.lower property_type
        /\ AssessmentInput (Payload.address payload)
             (Payload.property_type payload) fenced gated
             operating_hours notes = Ok payload
        /\ In (Payload.property_type payload,
               PropertyInfo.base_exposure
                 (get_property_info (Payload.property_type payload)))
             [("home", Some 25); ("rental", Some 35);
              ("vacation home", Some 45); ("business", Some 50)]
        /\ (forall w s g s',
              get_geolocation_info w (Payload.address payload) s = (Ok g, s') ->
              Geo.source g <> Some "simulated_empty_address")).
Proof.
  intros allowed.
  assert (Hlen : forall a, whitespace_only a = false ->
                   (String.length a <? 1)%nat = false).
  { intros [| c a] H; [discriminate H | reflexivity]. }
  assert (Hok : whitespace_only address = false ->
                In (Py.lower property_type) allowed ->
                AssessmentInput address property_type fenced gated
                  operating_hours notes
                = Ok (Payload.mk (Py.strip address) (Py.lower property_type)
                        fenced gated operating_hours notes)).
  { intros Ha Hp. unfold AssessmentInput.
    rewrite (Hlen _ Ha), (validate_address_ok _ Ha),
      (validate_property_type_ok _ Hp). reflexivity. }
  assert (Hinv : forall payload,
             AssessmentInput address property_type fenced gated
               operating_hours notes = Ok payload ->
             whitespace_only address = false
             /\ In (Py.lower property_type) allowed).
  { intros payload. unfold AssessmentInput.
    destruct (String.length address <? 1)%nat; [discriminate |].
    destruct (whitespace_only address) eqn:Ha.
    - now rewrite (validate_address_raise _ Ha).
    - destruct (in_dec string_dec (Py.lower property_type) allowed)
        as [Hp | Hp]; [auto |].
      rewrite (validate_property_type_raise _ Hp).
      now destruct (validate_address address). }
  split.
  - split; [intros [payload H]; eapply Hinv, H |].
    intros [Ha Hp]. eexists. now apply Hok.
  - intros payload H. destruct (Hinv _ H) as [Ha Hp].
    rewrite (Hok Ha Hp) in H. inversion H; subst payload; clear H.
    cbn [Payload.address Payload.property_type].
    pose proof (strip_not_blank _ Ha) as Hs.
    split; [reflexivity |]. split; [exact Hs |]. split; [reflexivity |].
    split.
    { unfold AssessmentInput.
      rewrite (Hlen _ Hs), (validate_address_ok _ Hs), strip_idem.
      rewrite validate_property_type_ok;
        rewrite (lower_allowed _ Hp); [reflexivity | exact Hp]. }
    split.
    { destruct Hp as [<- | [<- | [<- | [<- | []]]]]; simpl; tauto. }
    intros w s g s' E Hg.
    destruct (get_geolocation_info_cases w _ _ _ _ E)
      as (g0 & k & tag & Hg0 & _ & _ & Ht & Hc & _).
    inversion Hg0; subst g0. rewrite Ht in Hg. inversion Hg; subst tag.
    destruct Hc as [(Hb & _) | (_ & [(H & _) | [(H & _) | [(H & _) | (H & _)]]])];
      [congruence | discriminate H..].
Qed.

Lemma validated_payload_witness :
  exists payload,
    AssessmentInput "  12 Main St " "Vacation Home" true false None None
    = Ok payload
    /\ Payload.address payload = "12 Main St"
    /\ Payload.property_type payload = "vacation home".
Proof.
  destruct (validated_payload "  12 Main St " "Vacation Home" true false
              None None) as [[_ Hex] Hall].
  destruct Hex as [payload H].
  { split; [reflexivity | simpl; tauto]. }
  exists payload. split; [exact H |].
  destruct (Hall payload H) as (Ha & _ & Hp & _).
  split; [exact Ha | exact Hp].
Defined.

(** The blanks above ASCII count: an address that is one no-break space
    (U+00A0) is blank and is refused, and a trailing one is stripped. *)
Example no_break_space_is_blank :
  let nbsp := String (ascii_of_nat 160) "" in
  whitespace_only nbsp = true
  /\ AssessmentInput nbsp "home" true false None None
     = Raise (OtherException "ValidationError")
  /\ Py.strip ("12 Main St" ++ nbsp) = "12 Main St".
Proof. repeat split; vm_compute; reflexivity. Qed.

(** ** From the detected city to a portal *)

(** The city that [_detect_city_from_address] finds is one of five names,
    and [_query_city_crime_api] sends four of them to their own portal; the
    fifth, "philadelphia", contains "la" and is sent to the portal of Los
    Angeles. *)
Theorem detected_city_routing
    (w : World) (address : string) (la lo : option pyfloat) (city : string)
    (lat lon : pyfloat) :
  _detect_city_from_address address la lo = Some city ->
  Py.contains city (Py.lower address) = true
  /\ ((city = "chicago"
       /\ _query_city_crime_api w city lat lon
          = _query_chicago_crime_api w lat lon)
      \/ (city = "new york"
          /\ _query_city_crime_api w city lat lon
             = _query_nyc_crime_api w lat lon)
      \/ (city = "los angeles"
          /\ _query_city_crime_api w city lat lon
             = _query_la_crime_api w lat lon)
      \/ (city = "san francisco"
          /\ _query_city_crime_api w city lat lon
             = _query_sf_crime_api w lat lon)
      \/ (city = "philadelphia"
          /\ _query_city_crime_api w city lat lon
             = _query_la_crime_api w lat lon)).
Proof.
  unfold _detect_city_from_address.
  destruct (negb (Py.truthy address)); [discriminate |]. cbv zeta.
  intros H. apply find_some in H. destruct H as [Hin Hc].
  split; [exact Hc |].
  simpl in Hin.
  destruct Hin as [<- | [<- | [<- | [<- | [<- | []]]]]]; auto 10.
Qed.

Lemma detected_city_routing_witness :
  _detect_city_from_address "1400 Market St, Philadelphia, PA" None None
  = Some "philadelphia"
  /\ _query_city_crime_api offline_world "philadelphia" (Fin 39.95)
       (Fin (-75.16))
     = _query_la_crime_api offline_world (Fin 39.95) (Fin (-75.16)).
Proof.
  assert (H : _detect_city_from_address "1400 Market St, Philadelphia, PA"
                None None = Some "philadelphia") by reflexivity.
  split; [exact H |].
  destruct (detected_city_routing offline_world _ _ _ _ (Fin 39.95)
              (Fin (-75.16)) H)
    as [_ [[E _] | [[E _] | [[E _] | [[E _] | [_ R]]]]]];
    try discriminate E. exact R.
Defined.

(** ** The portal queries *)

Section PortalQueries.

Variable w : World.

(** A query on one of the three single-request portals never raises and
    issues exactly one request.  It gives [None] when the request raises,
    when the status is not 200, when the payload cannot be decoded and when
    it is empty; otherwise it gives a dictionary with the tag of the portal,
    both indices between their floor and 100, and the recent incidents
    [min(20, total // 25)]. *)
Theorem portal_query_outcomes
    url order category vw pw vf pf mult tag (s : state) :
  0 <= vf <= 100 -> 0 <= pf <= 100 ->
  let params := [("$limit", "500"); ("$order", order)] in
  let answer := crime_http w (length (trace s)) url params in
  exists o,
    query_simple_portal w url order category vw pw vf pf mult tag s
    = (Ok o, State (trace s ++ [CrimeRequest url params]) (draws s))
    /\ (((exists e, answer = Raise e)
         \/ (exists code body,
               answer = Ok (Response code body) /\ code <> 200)
         \/ answer = Ok (Response 200 None)
         \/ answer = Ok (Response 200 (Some []))) ->
        o = None)
    /\ (forall record records,
          answer = Ok (Response 200 (Some (record :: records))) ->
          exists v p,
            o = Some (Crime.mk (Some v) (Some p)
                        (Some (Z.min 20
                                 (Z.of_nat (length (record :: records)) / 25)))
                        (Some tag) None None)
            /\ vf <= v <= 100 /\ pf <= p <= 100).
Proof.
  intros Hvf Hpf params answer.
  unfold query_simple_portal, try_except, bind, crime_get, request.
  cbv zeta. fold params. fold answer.
  destruct answer as [[code body] | e] eqn:Ea.
  - destruct (negb (code =? 200)%Z) eqn:Hc; cbn [status_code json].
    + rewrite Hc. eexists. split; [reflexivity |].
      apply negb_true_iff, Z.eqb_neq in Hc.
      split; [reflexivity |]. intros record records H.
      inversion H. congruence.
    + rewrite Hc. apply negb_false_iff, Z.eqb_eq in Hc. subst code.
      destruct body as [[| record records] |]; cbn.
      * eexists. split; [reflexivity |]. split; [reflexivity |].
        intros ? ? H. discriminate H.
      * eexists. split; [reflexivity |]. split.
        { intros [[e H] | [(code & body & H & Hne) | [H | H]]];
            try discriminate H. inversion H. congruence. }
        intros record' records' H. inversion H; subst record' records'.
        do 2 eexists. split; [reflexivity |].
        split; apply ratio_index_range; assumption.
      * eexists. split; [reflexivity |]. split; [reflexivity |].
        intros ? ? H. discriminate H.
  - eexists. split; [reflexivity |]. split; [reflexivity |].
    intros ? ? H. discriminate H.
Qed.

End PortalQueries.

Lemma portal_query_outcomes_witness :
  _query_nyc_crime_api offline_world (Fin 40.7) (Fin (-74.0)) initial_state
  = (Ok None,
     State [CrimeRequest
              "https://data.cityofnewyork.us/resource/qgea-i56i.json"
              [("$limit", "500"); ("$order", "occur_date DESC")]] 0).
Proof.
  unfold _query_nyc_crime_api.
  match goal with
  | |- query_simple_portal ?w ?url ?order ?cat ?vw ?pw ?vf ?pf ?mult ?tag ?s
       = _ =>
      destruct (portal_query_outcomes w url order cat vw pw vf pf mult tag s
                  ltac:(lia) ltac:(lia)) as (o & E & Hnone & _)
  end.
  rewrite E. rewrite Hnone; [reflexivity |].
  left. eexists. reflexivity.
Defined.

(** The Chicago query asks once with the thirty-day window and, only when
    that answer has a status other than 200, once more without the window;
    it never raises, so it issues one or two requests. *)
Theorem chicago_retries_without_window
    (w : World) (lat lon : pyfloat) (s : state) :
  let url := "https://data.cityofchicago.org/resource/ijzp-q8t2.json" in
  let params :=
    [("$limit", "1000"); ("$order", "date DESC");
     ("$where", "date >= '" ++ date_days_ago w 30 ++ "'")] in
  let first_answer := crime_http w (length (trace s)) url params in
  exists o s',
    _query_chicago_crime_api w lat lon s = (Ok o, s')
    /\ draws s' = draws s
    /\ (forall e, first_answer = Raise e ->
          o = None /\ trace s' = (trace s ++ [chicago_first_request w])%list)
    /\ (forall body, first_answer = Ok (Response 200 body) ->
          trace s' = (trace s ++ [chicago_first_request w])%list)
    /\ (forall code body,
          first_answer = Ok (Response code body) -> code <> 200 ->
          trace s'
          = (trace s ++ [chicago_first_request w; chicago_second_request])%list).
Proof.
  intros url params first_answer.
  unfold _query_chicago_crime_api, try_except, bind, crime_get, request,
    response_json.
  cbv zeta. cbn [CITY_CRIME_APIS]. 
  change (default "" (CITY_CRIME_APIS !! "chicago")) with url.
  fold params. fold first_answer.
  destruct first_answer as [[code body] | e] eqn:E1.
  - cbn [status_code json trace draws].
    destruct (negb (code =? 200)%Z) eqn:Hc.
    + (* the retry *)
      apply negb_true_iff, Z.eqb_neq in Hc.
      match goal with
      | |- context [crime_http w ?n url ?p] =>
          destruct (crime_http w n url p) as [[code2 body2] | e2]
      end; cbn [status_code json trace draws ret raise].
      * destruct (negb (code2 =? 200)%Z);
          [| destruct body2 as [[| d0 data] |]];
          do 2 eexists; (split; [reflexivity |]); cbn [trace draws];
          (split; [reflexivity |]);
          (split; [intros ? H; discriminate H |]);
          (split; [intros ? H; inversion H; congruence |]);
          intros ? ? _ _; rewrite <- app_assoc; reflexivity.
      * do 2 eexists. split; [reflexivity |]. cbn [trace draws].
        split; [reflexivity |].
        split; [intros ? H; discriminate H |].
        split; [intros ? H; inversion H; congruence |].
        intros ? ? _ _. rewrite <- app_assoc. reflexivity.
    + apply negb_false_iff, Z.eqb_eq in Hc. subst code.
      destruct body as [[| d0 data] |]; cbn [ret raise];
        do 2 eexists; (split; [reflexivity |]); cbn [trace draws];
        (split; [reflexivity |]);
        (split; [intros ? H; discriminate H |]);
        (split; [intros ? _; reflexivity |]);
        intros ? ? H Hne; inversion H; congruence.
  - do 2 eexists. split; [reflexivity |]. cbn [trace draws].
    split; [reflexivity |].
    split; [intros ? _; split; reflexivity |].
    split; intros; discriminate.
Qed.

(** ** The scorer and the crime data *)

(** Of the five scores the crime dictionary enters the crime dimension
    only: with the other arguments fixed, each of the four other scores is
    the same for any two crime dictionaries. *)
Theorem crime_data_moves_only_crime_risk
    (crime1 crime2 : Crime.t) (geo : Geo.t) (prop : PropertyInfo.t)
    (property_type : string) (fenced gated : bool)
    (hours notes : option string) (key : string) :
  In key dimension_keys ->
  key <> "crime_risk" ->
  exists score,
    compute_risk_dimensions crime1 geo prop property_type fenced gated
      hours notes !! key = Some score
    /\ compute_risk_dimensions crime2 geo prop property_type fenced gated
         hours notes !! key = Some score.
Proof.
  intros Hk E. simpl in Hk.
  destruct Hk as [<- | [<- | [<- | [<- | [<- | []]]]]];
    try (now contradiction E);
    eexists; split; reflexivity.
Qed.

Lemma crime_data_moves_only_crime_risk_witness :
  exists score,
    compute_risk_dimensions (crime_tagged "simulated") (geo_tagged "photon")
      (get_property_info "home") "home" true false None None
      !! "operational_risk" = Some score
    /\ compute_risk_dimensions
         (Crime.mk (Some 90) (Some 80) (Some 20) None None None)
         (geo_tagged "photon") (get_property_info "home") "home" true false
         None None !! "operational_risk" = Some score.
Proof.
  apply crime_data_moves_only_crime_risk; [simpl; tauto | discriminate].
Defined.

(** The crime dimension grows with each of the three crime figures (a
    missing figure counting as 0). *)
Theorem crime_risk_grows_with_crime
    (crime1 crime2 : Crime.t) (geo : Geo.t) (prop : PropertyInfo.t)
    (property_type : string) (fenced gated : bool)
    (hours notes : option string) :
  default 0 (Crime.violent_crime_index crime1)
    <= default 0 (Crime.violent_crime_index crime2) ->
  default 0 (Crime.property_crime_index crime1)
    <= default 0 (Crime.property_crime_index crime2) ->
  default 0 (Crime.recent_incidents crime1)
    <= default 0 (Crime.recent_incidents crime2) ->
  dim_get (compute_risk_dimensions crime1 geo prop property_type fenced
             gated hours notes) "crime_risk"
  <= dim_get (compute_risk_dimensions crime2 geo prop property_type fenced
                gated hours notes) "crime_risk".
Proof.
  intros Hv Hp Hr. read_dimension.
  apply round_mono, min_mono; [| apply Qle_refl].
  unfold B64.add, B64.mul, B64.of_int, B64.literal.
  assert (Hc : forall c : Q, (0 <= c)%Q -> (0 <= B64.fl c)%Q)
    by (intros c; apply fl_nonneg).
  apply fl_mono, Qplus_le_compat.
  - apply fl_mono, Qplus_le_compat; apply fl_mono, Qmult_le_compat_r;
      try (apply Hc; discriminate); apply fl_mono; now rewrite <- Zle_Qle.
  - apply fl_mono. rewrite <- Zle_Qle. lia.
Qed.

Lemma crime_risk_grows_with_crime_witness :
  dim_get (compute_risk_dimensions
             (Crime.mk (Some 10) (Some 20) None None None None)
             (geo_tagged "photon") (get_property_info "home")
             "home" true true None None) "crime_risk"
  <= dim_get (compute_risk_dimensions
                (Crime.mk (Some 40) (Some 20) (Some 3) None None None)
                (geo_tagged "photon") (get_property_info "home")
                "home" true true None None) "crime_risk".
Proof.
  apply crime_risk_grows_with_crime; cbn; lia.
Defined.

(** ** The simulators *)

(** [simulate_geo] draws three random numbers, issues no request and always
    returns a location tagged "simulated" whose density and nearby risks are
    those of the tables for its neighborhood type, with finite coordinates
    in [35, 45] x [-85, -70], and in [40, 41] x [-74, -73] when urban. *)
Theorem simulated_location_shape (w : World) (s : state) :
  exists g lat lon,
    simulate_geo w s = (Ok g, State (trace s) (3 + draws s))
    /\ geo_well_formed g
    /\ Geo.source g = Some "simulated"
    /\ Geo.latitude g = Some (Fin lat)
    /\ Geo.longitude g = Some (Fin lon)
    /\ (35 <= lat <= 45)%Q /\ (-85 <= lon <= -70)%Q
    /\ (Geo.neighborhood_type g = Some "urban" ->
        (40 <= lat <= 41)%Q /\ (-74 <= lon <= -73)%Q).
Proof. apply simulate_geo_spec. Qed.

(** [simulate_crime] draws three random numbers, issues no request and
    always returns figures tagged "simulated": a violent index in [20, 80],
    a property index in [15, 70] and between 0 and 10 recent incidents. *)
Theorem simulated_crime_shape (w : World) (s : state) :
  exists v p r,
    simulate_crime w s
    = (Ok (Crime.mk (Some v) (Some p) (Some r) (Some "simulated") None None),
       State (trace s) (3 + draws s))
    /\ 20 <= v <= 80 /\ 15 <= p <= 70 /\ 0 <= r <= 10.
Proof.
  unfold simulate_crime.
  destruct (randint_range w 20 80 s ltac:(lia)) as (v & Ev & Hv).
  destruct (randint_range w 15 70 (State (trace s) (S (draws s))) ltac:(lia))
    as (p & Ep & Hp).
  destruct (randint_range w 0 10
              (State (trace s) (S (S (draws s)))) ltac:(lia))
    as (r & Er & Hr).
  cbn [trace draws] in Ep, Er.
  exists v, p, r. split; [| tauto].
  unfold bind. rewrite Ev, Ep, Er. reflexivity.
Qed.

(** ** The requests of the crime data lookup *)

Section RequestBudget.

Context {A B : Type}.

Lemma within_ret (n : nat) (a : A) : requests_within [] n (ret a).
Proof.
  intros s r s' E. inversion E; subst. exists [].
  rewrite !app_nil_r. repeat split; [constructor | cbn; lia].
Qed.

Lemma within_raise (n : nat) (e : exn) :
  requests_within [] n (raise e : M A).
Proof.
  intros s r s' E. inversion E; subst. exists [].
  rewrite !app_nil_r. repeat split; [constructor | cbn; lia].
Qed.

Lemma within_lift (n : nat) (x : result A) : requests_within [] n (lift x).
Proof.
  intros s r s' E. inversion E; subst. exists [].
  rewrite !app_nil_r. repeat split; [constructor | cbn; lia].
Qed.

Lemma within_request (n : nat) (ev : event) (answer : nat -> result A) :
  requests_within [ev] n (request ev answer).
Proof.
  intros s r s' E. inversion E; subst. exists [].
  repeat split; [constructor | cbn; lia].
Qed.

Lemma within_weaken (prefix : list event) (n n' : nat) (m : M A) :
  (n <= n')%nat -> requests_within prefix n m -> requests_within prefix n' m.
Proof.
  intros Hn H s r s' E. destruct (H _ _ _ E) as (l & H1 & H2 & H3).
  exists l. repeat split; [exact H1 | exact H2 | lia].
Qed.

Lemma within_bind (prefix : list event) (n1 n2 : nat)
    (m : M A) (k : A -> M B) :
  requests_within prefix n1 m -> (forall a, requests_within [] n2 (k a)) ->
  requests_within prefix (n1 + n2) (bind m k).
Proof.
  intros Hm Hk s r s' E. unfold bind in E.
  destruct (m s) as [[a | e] s1] eqn:Em.
  - destruct (Hm _ _ _ Em) as (l1 & H1 & F1 & L1).
    destruct (Hk _ _ _ _ E) as (l2 & H2 & F2 & L2).
    exists (l1 ++ l2)%list. cbn [app] in H2.
    repeat split.
    + rewrite H2, H1, <- !app_assoc. reflexivity.
    + apply Forall_app; split; assumption.
    + rewrite length_app. lia.
  - inversion E; subst.
    destruct (Hm _ _ _ Em) as (l1 & H1 & F1 & L1).
    exists l1. repeat split; [exact H1 | exact F1 | lia].
Qed.

End RequestBudget.

Section RequestBudgetHandlers.

Context {A : Type}.

Lemma within_try_except (prefix : list event) (n1 n2 : nat)
    (m : M A) (h : exn -> M A) :
  requests_within prefix n1 m -> (forall e, requests_within [] n2 (h e)) ->
  requests_within prefix (n1 + n2) (try_except m h).
Proof.
  intros Hm Hh s r s' E. unfold try_except in E.
  destruct (m s) as [[a | e] s1] eqn:Em.
  - inversion E; subst.
    destruct (Hm _ _ _ Em) as (l1 & H1 & F1 & L1).
    exists l1. repeat split; [exact H1 | exact F1 | lia].
  - destruct (Hm _ _ _ Em) as (l1 & H1 & F1 & L1).
    destruct (Hh _ _ _ _ E) as (l2 & H2 & F2 & L2).
    exists (l1 ++ l2)%list. cbn [app] in H2.
    repeat split.
    + rewrite H2, H1, <- !app_assoc. reflexivity.
    + apply Forall_app; split; assumption.
    + rewrite length_app. lia.
Qed.

End RequestBudgetHandlers.

Section PortalBudget.

Variable w : World.

Lemma within_crime_get (n : nat) url params :
  requests_within [] (S n) (crime_get w url params).
Proof.
  intros s r s' E. inversion E; subst.
  exists [CrimeRequest url params]. cbn [app].
  repeat split; [repeat constructor | cbn; lia].
Qed.

Lemma within_response_json {A : Type} (n : nat) (r : response A) :
  requests_within [] n (response_json r).
Proof.
  unfold response_json. destruct (json r);
    [apply within_ret | apply within_raise].
Qed.

Lemma within_random (n : nat) : requests_within [] n (random_random w).
Proof.
  intros s r s' E. inversion E; subst. exists []. cbn [trace].
  rewrite !app_nil_r. repeat split; [constructor | cbn; lia].
Qed.

End PortalBudget.

(** Steps for a computation that issues no request. *)
Ltac within_zero :=
  cbv zeta;
  repeat first
    [ apply within_ret
    | apply within_raise
    | apply within_lift
    | apply within_response_json
    | apply within_random
    | apply (within_bind [] 0 0); [| intros ?]
    | match goal with
      | |- requests_within _ _ (if ?b then _ else _) => destruct b
      | |- requests_within _ _ (match ?x with _ => _ end) => destruct x
      end ].

Section CrimeBudget.

Variable w : World.

Lemma within_simulate_crime : requests_within [] 0 (simulate_crime w).
Proof.
  unfold simulate_crime, random_randint. within_zero.
Qed.

Lemma within_estimate lat lon :
  requests_within [] 0 (_get_crime_from_coordinates w lat lon).
Proof.
  unfold _get_crime_from_coordinates. within_zero.
Qed.

Lemma within_chicago lat lon :
  requests_within [] 2 (_query_chicago_crime_api w lat lon).
Proof.
  unfold _query_chicago_crime_api.
  apply (within_try_except [] 2 0); [| intros ?; apply within_ret].
  cbv zeta.
  apply (within_bind [] 1 1); [apply within_crime_get | intros response].
  apply (within_bind [] 1 0).
  - destruct (negb _); [apply within_crime_get | apply within_ret].
  - intros response'. within_zero.
Qed.

Lemma within_simple_portal url order category vw pw vf pf mult tag :
  requests_within [] 2
    (query_simple_portal w url order category vw pw vf pf mult tag).
Proof.
  unfold query_simple_portal.
  apply (within_try_except [] 2 0); [| intros ?; apply within_ret].
  cbv zeta.
  apply (within_bind [] 2 0); [apply within_crime_get | intros response].
  within_zero.
Qed.

Lemma within_city_api city lat lon :
  requests_within [] 2 (_query_city_crime_api w city lat lon).
Proof.
  unfold _query_city_crime_api, _query_nyc_crime_api, _query_la_crime_api,
    _query_sf_crime_api.
  cbv zeta.
  repeat match goal with
         | |- requests_within _ _ (if ?b then _ else _) => destruct b
         end;
    first [ apply within_chicago | apply within_simple_portal
          | apply within_ret ].
Qed.

(** What follows once the portals gave nothing: the estimate from the
    coordinates. *)
Lemma within_estimate_tail lat lon (f : Crime.t -> Crime.t) :
  requests_within [] 0
    (result <- _get_crime_from_coordinates w lat lon ;; ret (f result)).
Proof.
  apply (within_bind [] 0 0); [apply within_estimate |].
  intros ?; apply within_ret.
Qed.

(** A step that returns [a] and leaves the state alone can be skipped. *)
Lemma within_bind_const {A B : Type} (prefix : list event) (n : nat)
    (a : A) (m : M A) (k : A -> M B) :
  (forall s, m s = (Ok a, s)) ->
  requests_within prefix n (k a) -> requests_within prefix n (bind m k).
Proof.
  intros Hm H s r s' E. unfold bind in E. rewrite Hm in E.
  exact (H _ _ _ E).
Qed.

(** The lookup without a pair of coordinates: no portal is asked before the
    address is geocoded. *)
Ltac geocoded_budget :=
  apply within_bind_const with (a := None);
    [ intros s; destruct (Py.truthy_opt _); reflexivity |];
  cbv beta iota;
  apply within_bind_const with (a := None);
    [ intros s; destruct (negb _ && _); [| reflexivity]; cbv zeta;
      destruct (_detect_city_from_address _ _ _); reflexivity |];
  cbv beta iota;
  apply (within_bind _ 2 0);
    [ apply (within_try_except _ 2 0); [| intros ?; apply within_ret];
      apply (within_bind _ 0 2); [apply within_request |];
      intros [loc |]; [| apply within_ret];
      apply (within_bind [] 2 0);
        [ destruct (negb _); [| apply within_ret];
          destruct (_detect_city_from_address _ _ _) as [d |];
            [| apply within_ret];
          destruct (Py.truthy d); [apply within_city_api | apply within_ret]
        | intros [r |]; [apply within_ret |];
          apply (within_bind [] 0 0); [apply within_estimate |];
          intros ?; apply within_ret ]
    | intros [r |]; [apply within_ret |];
      apply (within_bind [] 0 0); [apply within_simulate_crime |];
      intros ?; apply within_ret ].

Lemma within_get_crime_data_body address latitude longitude city :
  requests_within (crime_geocoding address latitude longitude) 2
    (get_crime_data_body w address latitude longitude city).
Proof.
  unfold get_crime_data_body, crime_geocoding.
  destruct latitude as [lat |], longitude as [lon |].
  - (* both coordinates: the portal of the hinted or of the detected city *)
    destruct (Py.truthy_opt city) eqn:Hc; cbn [negb andb].
    + apply (within_bind [] 2 0).
      * destruct (F.truthy lat && F.truthy lon);
          [apply within_city_api | apply within_ret].
      * intros [r |]; [apply within_ret |].
        apply (within_bind [] 0 0); [apply within_ret |].
        intros [r |]; [apply within_ret |].
        apply within_estimate_tail.
    + apply (within_bind [] 0 2); [apply within_ret |].
      intros [r |]; [apply within_ret |].
      apply (within_bind [] 2 0).
      * destruct (Py.truthy address); [| apply within_ret].
        destruct (_detect_city_from_address _ _ _) as [d |];
          [| apply within_ret].
        destruct (Py.truthy d && F.truthy lat && F.truthy lon);
          [apply within_city_api | apply within_ret].
      * intros [r |]; [apply within_ret |].
        apply within_estimate_tail.
  - geocoded_budget.
  - geocoded_budget.
  - geocoded_budget.
Qed.

Lemma within_get_crime_data address latitude longitude city :
  requests_within (crime_geocoding address latitude longitude) 2
    (get_crime_data w address latitude longitude city).
Proof.
  unfold get_crime_data.
  apply (within_try_except _ 2 0);
    [apply within_get_crime_data_body |].
  intros ?. apply (within_bind [] 0 0); [apply within_simulate_crime |].
  intros ?; apply within_ret.
Qed.

End CrimeBudget.

(** [get_crime_data] geocodes the address with one request to Nominatim
    exactly when it is not given both coordinates, and before any portal;
    beyond that it asks crime portals only, at most twice. *)
Theorem crime_lookup_requests
    (w : World) (address : string) (latitude longitude : option pyfloat)
    (city : option string) (s : state) :
  exists r s' portal,
    get_crime_data w address latitude longitude city s = (Ok r, s')
    /\ trace s'
       = (trace s ++ crime_geocoding address latitude longitude
            ++ portal)%list
    /\ Forall is_crime_request portal
    /\ (length portal <= 2)%nat.
Proof.
  destruct (get_crime_data_outcome w address latitude longitude city s)
    as (r & s' & E & _).
  destruct (within_get_crime_data w address latitude longitude city _ _ _ E)
    as (portal & H).
  exists r, s', portal. split; [exact E | exact H].
Qed.

(** The requests of one call of the endpoint, whether it answers or ends
    with the error 500: a prefix of the geocoding plan for the address of
    the payload, then at most two requests to crime portals, so at most
    seven in all.  The crime lookup is always handed coordinates, so it
    never geocodes the address a second time. *)
Theorem assess_risk_requests
    (w : World) (supported_cities : list string) (payload : Payload.t)
    (s : state) :
  exists r s' k portal,
    assess_risk w supported_cities payload s = (r, s')
    /\ trace s'
       = (trace s
            ++ firstn k (geocoding_plan w (Payload.address payload))
            ++ portal)%list
    /\ Forall is_crime_request portal
    /\ (length portal <= 2)%nat
    /\ (length (firstn k (geocoding_plan w (Payload.address payload))
                  ++ portal) <= 7)%nat.
Proof.
  destruct (assess_risk_answer w supported_cities payload s)
    as (g & s1 & Eg & Ha).
  destruct (get_geolocation_info_cases w _ _ _ _ Eg)
    as (g0 & k & tag & Hg & T & Hwf & _).
  inversion Hg; subst g0.
  destruct Hwf as (lat & lon & _ & _ & Hlat & Hlon & _).
  assert (Hplan : (length (firstn k (geocoding_plan w (Payload.address payload)))
                   <= 5)%nat).
  { rewrite length_firstn. unfold geocoding_plan.
    rewrite length_app. destruct (_ || _); cbn [length]; lia. }
  assert (Herr : forall e,
             assess_risk w supported_cities payload s = (Raise e, s1) ->
             exists r s' k portal,
               assess_risk w supported_cities payload s = (r, s')
               /\ trace s'
                  = (trace s
                       ++ firstn k (geocoding_plan w (Payload.address payload))
                       ++ portal)%list
               /\ Forall is_crime_request portal
               /\ (length portal <= 2)%nat
               /\ (length (firstn k (geocoding_plan w
                                        (Payload.address payload))
                             ++ portal) <= 7)%nat).
  { intros e He. eexists _, s1, k, []. split; [exact He |].
    rewrite !app_nil_r. split; [exact T |]. split; [constructor |].
    split; cbn [length]; lia. }
  destruct (read_formatted_address payload g) as [| b | n | x | text | l | d];
    try (eapply Herr; exact Ha).
  destruct Ha as (c & s2 & Ec & Ea).
  destruct (within_get_crime_data w _ _ _ _ _ _ _ Ec) as (portal & Tc & F & L).
  rewrite Hlat, Hlon in Tc. cbn [crime_geocoding app] in Tc.
  eexists _, s2, k, portal. split; [exact Ea |].
  split; [rewrite Tc, T, <- app_assoc; reflexivity |].
  split; [exact F |]. split; [exact L |].
  rewrite length_app. lia.
Qed.

(** ** The scorer on resolved locations *)

(** On a location of the resolver the neighborhood dimension and its
    summary take one of three values, fixed by the neighborhood type: 100
    for "urban" (the density term 80 and the three nearby risks exceed the
    cap), 35 for "suburban" and 5 for "rural". *)
Theorem neighborhood_risk_of_resolved_location
    (w : World) (address : string) (s : state)
    (crime : Crime.t) (prop : PropertyInfo.t) (property_type : string)
    (fenced gated : bool) (hours notes : option string) :
  exists geo s',
    get_geolocation_info w address s = (Ok geo, s')
    /\ let risk :=
         dim_get (compute_risk_dimensions crime geo prop property_type
                    fenced gated hours notes) "neighborhood_risk" in
       let summary := neighborhood_risk_summary geo in
       (Geo.neighborhood_type geo = Some "urban" /\ risk = 100
        /\ summary
           = "High density area (8000/sq mi) with nearby nightlife, industrial activity, school zone.")
       \/ (Geo.neighborhood_type geo = Some "suburban" /\ risk = 35
           /\ summary
              = "Moderate density area (3000/sq mi) with nearby school zone.")
       \/ (Geo.neighborhood_type geo = Some "rural" /\ risk = 5
           /\ summary
              = "Low population density (500/sq mi) with minimal nearby risk factors.").
Proof.
  destruct (get_geolocation_info w address s) as [r s'] eqn:E.
  destruct (get_geolocation_info_cases w _ _ _ _ E)
    as (g & k & tag & -> & _ & Hwf & _).
  exists g, s'. split; [reflexivity |].
  destruct Hwf as (lat & lon & kind & f & _ & _ & Hk & Hin & Hd & Hr & _).
  cbv zeta. unfold neighborhood_risk_summary. read_dimension.
  rewrite Hk, Hd, Hr.
  simpl in Hin.
  destruct Hin as [<- | [<- | [<- | []]]];
    [left | right; left | right; right]; (split; [reflexivity |]);
    split; vm_compute; reflexivity.
Qed.

(** ** The summary of the crime dimension *)

Lemma leb_le (a b : Q) : Py.leb a b = true -> (a <= b)%Q.
Proof. unfold Py.leb. apply Qle_bool_iff. Qed.

Lemma leb_gt (a b : Q) : Py.leb a b = false -> (b <= a)%Q.
Proof.
  unfold Py.leb. intros H. apply Qlt_le_weak, Qnot_le_lt.
  intros C. apply Qle_bool_iff in C. congruence.
Qed.

(** The summary of the crime dimension is chosen from the crime risk
    before rounding, the dimension is that risk rounded: a "High" summary
    comes with a dimension of at least 70, a "Moderate" one with a
    dimension from 40 to 70 and a "Relatively low" one with at most 40.
    The ranges meet: a dimension of 70 can carry the "Moderate" summary
    (raw risk 69.6) as well as the "High" one (raw risk 70.2). *)
Theorem crime_summary_and_dimension :
  (forall (crime : Crime.t) (geo : Geo.t) (prop : PropertyInfo.t)
          (property_type : string) (fenced gated : bool)
          (hours notes : option string),
     let risk :=
       dim_get (compute_risk_dimensions crime geo prop property_type
                  fenced gated hours notes) "crime_risk" in
     let summary := crime_risk_summary crime in
     (Py.startswith summary "High crime area" = true /\ 70 <= risk)
     \/ (Py.startswith summary "Moderate crime levels" = true
         /\ 40 <= risk <= 70)
     \/ (Py.startswith summary "Relatively low crime area" = true
         /\ risk <= 40))
  /\ (forall (geo : Geo.t) (prop : PropertyInfo.t)
             (property_type : string) (fenced gated : bool)
             (hours notes : option string),
        let dims crime :=
          compute_risk_dimensions crime geo prop property_type fenced gated
            hours notes in
        let moderate := Crime.mk (Some 100) (Some 32) (Some 0) None None None in
        let high := Crime.mk (Some 100) (Some 34) (Some 0) None None None in
        dim_get (dims moderate) "crime_risk" = 70
        /\ Py.startswith (crime_risk_summary moderate) "Moderate crime levels"
           = true
        /\ dim_get (dims high) "crime_risk" = 70
        /\ Py.startswith (crime_risk_summary high) "High crime area" = true).
Proof.
  split.
  - intros crime geo prop property_type fenced gated hours notes.
    cbv zeta. read_dimension.
    unfold crime_risk_summary, _get_crime_summary. cbv zeta.
    set (raw := Py.min _ 100).
    destruct (Py.leb 70 raw) eqn:H70.
    { left. split; [reflexivity |]. apply leb_le in H70.
      apply round_mono in H70. exact H70. }
    apply leb_gt in H70.
    apply round_mono in H70. change (Py.round 70) with 70 in H70.
    destruct (Py.leb 40 raw) eqn:H40.
    { right; left. split; [reflexivity |]. apply leb_le in H40.
      apply round_mono in H40. change (Py.round 40) with 40 in H40. lia. }
    right; right. split; [reflexivity |]. apply leb_gt in H40.
    apply round_mono in H40. exact H40.
  - intros geo prop property_type fenced gated hours notes.
    cbv zeta. read_dimension.
    repeat split; vm_compute; reflexivity.
Qed.

(** ** The recommendations and the score *)

(** A higher score never gets fewer recommendations. *)
Theorem recommendations_grow_with_score (a b : Q) :
  (a <= b)%Q ->
  (length (generate_recommendations a)
   <= length (generate_recommendations b))%nat.
Proof.
  intros H. unfold generate_recommendations.
  destruct (Py.ltb 75 a) eqn:A75.
  { apply ltb_spec in A75.
    assert (B : Py.ltb 75 b = true) by (apply ltb_spec; lra).
    rewrite B. cbn; lia. }
  destruct (Py.ltb 60 a) eqn:A60.
  { apply ltb_spec in A60.
    assert (B : Py.ltb 60 b = true) by (apply ltb_spec; lra).
    rewrite B. destruct (Py.ltb 75 b); cbn; lia. }
  destruct (Py.ltb 40 a) eqn:A40.
  { apply ltb_spec in A40.
    assert (B : Py.ltb 40 b = true) by (apply ltb_spec; lra).
    rewrite B. destruct (Py.ltb 75 b), (Py.ltb 60 b); cbn; lia. }
  destruct (Py.ltb 75 b), (Py.ltb 60 b), (Py.ltb 40 b); cbn; lia.
Qed.

Lemma recommendations_grow_with_score_witness :
  (length (generate_recommendations 36.0)
   <= length (generate_recommendations 75.01))%nat.
Proof.
  apply recommendations_grow_with_score. vm_compute. discriminate.
Defined.

(** ** The estimate from coordinates *)

(** [_get_crime_from_coordinates] issues no request and draws no random
    number, so its closing [simulate_crime()] is never reached.  On two
    finite coordinates it returns figures inside their ranges under a tag
    that starts with "coordinate_estimation_"; on a NaN or an infinity it
    raises [ValueError] (the boxes are missed and [x % 1] is NaN). *)
Theorem coordinate_estimate_outcomes
    (w : World) (lat lon : pyfloat) (s : state) :
  if is_finite lat && is_finite lon then
    exists r,
      _get_crime_from_coordinates w lat lon s = (Ok r, s)
      /\ source_startswith "coordinate_estimation_" r
      /\ crime_well_formed r
  else _get_crime_from_coordinates w lat lon s = (Raise ValueError, s).
Proof.
  destruct lat as [a | sa |], lon as [b | sb |]; cbn [is_finite andb];
    try (destruct (estimate_finite w a b s) as (r & E & Hs);
         exists r; split; [exact E |]; split; [exact Hs |];
         eapply estimate_well_formed; exact E);
    try destruct sa; try destruct sb;
    unfold _get_crime_from_coordinates; cbv zeta; cbn [F.leb negb];
    repeat (rewrite ?andb_false_r; cbn [andb]);
    reflexivity.
Qed.
